(** * Customizable multi-head attention: a shallow embedding

    Source: [src/hela/approximation/approximators/multihead/customizable_multihead.py].

    The development follows the source top-down:
      - exceptions and the effect log, tensors, and the shape operations of
        torch the source calls;
      - [Section Embedding], parametric in the floating-point scalars: the
        numeric operations of torch, the kernel primitives
        ([_scaled_dot_product], [_attn_masking], [_scaled_dot_product_attention]),
        the execution engine ([_multi_head_attention_forward]), the adapter
        ([CustomizableMultiHead]) and the approximator
        ([CustomizableMultiHeadApproximator]);
      - the notions the properties are stated with;
      - an instance of the scalars on binary64 floats and concrete inputs,
        for running the definitions;
      - the properties, each with the run of a concrete input. *)

From Stdlib Require Import ZArith Lia List Ascii String Floats.
From stdpp Require Import base numbers list option gmap strings.

Local Open Scope Z_scope.

#[local] Set Warnings "-clear-no-such-hyp".

(** ** Exceptions and effects *)

(** The Python exceptions the source raises (or that the operations it calls
    raise), with their message. *)
Inductive exn : Type :=
  | AssertionError (msg : string)
  | RuntimeError (msg : string)
  | ValueError (msg : string)
  | TypeError (msg : string)
  | AttributeError (msg : string)
  | IndexError (msg : string)
  | ZeroDivisionError.

Inductive Res (A : Type) : Type :=
  | Ok (a : A)
  | Raise (e : exn).
Arguments Ok {A} a.
Arguments Raise {A} e.

Definition is_ok {A} (r : Res A) : bool :=
  match r with Ok _ => true | Raise _ => false end.

(** What a call leaves behind besides its result: the tensor operations it
    executed, in order, and the warnings it emitted. *)
Inductive event : Type :=
  | Op (name : string)
  | Warn (msg : string).

#[global] Instance event_eq_dec : EqDecision event.
Proof. solve_decision. Defined.

Definition is_op (e : event) : bool :=
  match e with Op _ => true | Warn _ => false end.

(** A computation that may raise and that logs its events. *)
Definition M (A : Type) : Type := Res A * list event.

Definition ret {A} (a : A) : M A := (Ok a, []).
Definition raise {A} (e : exn) : M A := (Raise e, []).
Definition bind {A B} (m : M A) (f : A → M B) : M B :=
  match m with
  | (Ok a, l1) => let '(r, l2) := f a in (r, l1 ++ l2)
  | (Raise e, l1) => (Raise e, l1)
  end.

Declare Scope mha_scope.
Delimit Scope mha_scope with mha.
Notation "'let*' p ':=' m 'in' k" := (bind m (fun p => k))
  (at level 10, p pattern, m at level 100, k at level 200) : mha_scope.
Notation "m1 ';;' m2" := (bind m1 (fun _ => m2))
  (at level 100, m2 at level 200, right associativity) : mha_scope.
Local Open Scope mha_scope.

(** [assert cond, msg] *)
Definition assert (cond : bool) (msg : string) : M unit :=
  if cond then ret tt else raise (AssertionError msg).

(** [warnings.warn(msg)] *)
Definition warn (msg : string) : M unit := (Ok tt, [Warn msg]).

(** A call of a tensor operation: its result, logged under its name. *)
Definition call {A} (name : string) (r : Res A) : M A := (r, [Op name]).

Definition result {A} (m : M A) : Res A := fst m.
Definition events {A} (m : M A) : list event := snd m.
(** The tensor operations a computation executed. *)
Definition ops {A} (m : M A) : list event := filter (fun e => is_op e = true) (snd m).

(** ** Tensors *)

(** A tensor is its shape and its elements in row-major (contiguous) order.
    Sizes and indices are Python integers. *)
Record tensor (A : Type) : Type := mkT { shape : list Z; data : list A }.
Arguments mkT {A} shape data.
Arguments shape {A} t.
Arguments data {A} t.

Definition prod_list (l : list Z) : Z := fold_right Z.mul 1 l.
Definition numel {A} (t : tensor A) : Z := prod_list (shape t).
Definition dim {A} (t : tensor A) : Z := Z.of_nat (length (shape t)).

(** [t.shape[i]] for a non-negative [i] within the rank (as in the shape
    check, which has tested the rank). *)
Definition size {A} (t : tensor A) (i : nat) : Z := nth i (shape t) 0.

(** [t.size(i)], [t.shape[i]] for a non-negative [i]. *)
Definition tsize {A} (t : tensor A) (i : nat) : M Z :=
  match shape t !! i with
  | Some n => ret n
  | None => raise (IndexError "Dimension out of range")
  end.

(** Row-major position of a multi-index, and back. *)
Fixpoint ravel (sh idx : list Z) : Z :=
  match sh, idx with
  | _ :: sh', i :: idx' => i * prod_list sh' + ravel sh' idx'
  | _, _ => 0
  end.

Fixpoint unravel (sh : list Z) (n : Z) : list Z :=
  match sh with
  | [] => []
  | _ :: sh' => n `div` prod_list sh' :: unravel sh' (n `mod` prod_list sh')
  end.

Fixpoint in_range (sh idx : list Z) : bool :=
  match sh, idx with
  | [], [] => true
  | d :: sh', i :: idx' => (0 <=? i) && (i <? d) && in_range sh' idx'
  | _, _ => false
  end.

(** [t[i0, i1, ...]], [None] standing for Python's IndexError. *)
Definition tget {A} (t : tensor A) (idx : list Z) : option A :=
  if in_range (shape t) idx then data t !! Z.to_nat (ravel (shape t) idx) else None.

(** The tensor of shape [sh] whose element at [idx] is [f idx]. *)
Definition tabulate {A} (sh : list Z) (f : list Z → A) : tensor A :=
  mkT sh ((fun n => f (unravel sh n)) <$> seqZ 0 (prod_list sh)).

(** Element [idx] of [t] seen through broadcasting to a shape of rank
    [length idx]: dimensions are aligned on the right and an index along a
    dimension of size 1 is read at 0. *)
Fixpoint bidx (sh idx : list Z) : list Z :=
  match sh, idx with
  | d :: sh', i :: idx' => (if d =? 1 then 0 else i) :: bidx sh' idx'
  | _, _ => []
  end.

(** Shapes are compared as tuples. *)
Definition shape_eqb (s1 s2 : list Z) : bool := bool_decide (s1 = s2).

(** [t] read at a multi-index known to be in range. *)
Definition tnth {A} `{Inhabited A} (t : tensor A) (idx : list Z) : A :=
  data t !!! Z.to_nat (ravel (shape t) idx).

(** [t] read through broadcasting (see [bidx]). *)
Definition bnth {A} `{Inhabited A} (t : tensor A) (idx : list Z) : A :=
  tnth t (bidx (shape t) (drop (length idx - length (shape t))%nat idx)).

(** ** Shape operations of the library

    The operations below are torch's, which the source imports; they are
    written from torch's documentation, on contiguous tensors. An operation
    that torch refuses raises the exception torch raises. *)

(** [t.unsqueeze(d)] *)
Definition unsqueeze {A} (t : tensor A) (d : nat) : Res (tensor A) :=
  if (d <=? length (shape t))%nat
  then Ok (mkT (take d (shape t) ++ 1 :: drop d (shape t)) (data t))
  else Raise (IndexError "Dimension out of range").

(** [t.squeeze(d)]: drops dimension [d] when its size is 1. *)
Definition squeeze {A} (t : tensor A) (d : nat) : Res (tensor A) :=
  match shape t !! d with
  | None => Raise (IndexError "Dimension out of range")
  | Some n =>
      if n =? 1 then Ok (mkT (take d (shape t) ++ drop (S d) (shape t)) (data t))
      else Ok t
  end.

Definition swap_list {B} `{Inhabited B} (i j : nat) (l : list B) : list B :=
  <[i := l !!! j]> (<[j := l !!! i]> l).

(** [t.transpose(i, j)], made contiguous. *)
Definition transpose {A} `{Inhabited A} (t : tensor A) (i j : nat) : Res (tensor A) :=
  if (i <? length (shape t))%nat && (j <? length (shape t))%nat
  then Ok (tabulate (swap_list i j (shape t)) (fun idx => tnth t (swap_list i j idx)))
  else Raise (IndexError "Dimension out of range").

(** [t.transpose(-2, -1)] *)
Definition transpose_last2 {A} `{Inhabited A} (t : tensor A) : Res (tensor A) :=
  let r := length (shape t) in
  if (2 <=? r)%nat then transpose t (r - 2) (r - 1)
  else Raise (IndexError "Dimension out of range").

(** The shape a [view]/[reshape] to [sh] gives a tensor of [n] elements; one
    size may be -1, and is then inferred. *)
Definition infer_shape (n : Z) (sh : list Z) : Res (list Z) :=
  if existsb (fun d => d <? -1) sh then Raise (RuntimeError "invalid shape dimension")
  else match length (filter (fun d => d = -1) sh) with
       | O => if prod_list sh =? n then Ok sh
              else Raise (RuntimeError "shape is invalid for input size")
       | 1%nat =>
           let p := prod_list (filter (fun d => d ≠ -1) sh) in
           if (p =? 0) || negb (n `mod` p =? 0)
           then Raise (RuntimeError "shape is invalid for input size")
           else Ok ((fun d => if d =? -1 then n `div` p else d) <$> sh)
       | _ => Raise (RuntimeError "only one dimension can be inferred")
       end.

(** [t.view(sh)] and [t.reshape(sh)] of a contiguous tensor. *)
Definition view {A} (t : tensor A) (sh : list Z) : Res (tensor A) :=
  match infer_shape (numel t) sh with
  | Ok sh' => Ok (mkT sh' (data t))
  | Raise e => Raise e
  end.

(** The sizes [t.expand(sizes)] produces (-1 keeps a size), for [sizes] of
    the rank of [t]. *)
Fixpoint expand_shape (sh sizes : list Z) : option (list Z) :=
  match sh, sizes with
  | [], [] => Some []
  | d :: sh', n :: sizes' =>
      if (n =? -1) || (n =? d) then cons d <$> expand_shape sh' sizes'
      else if (d =? 1) && (0 <=? n) then cons n <$> expand_shape sh' sizes'
      else None
  | _, _ => None
  end.

Definition expand {A} `{Inhabited A} (t : tensor A) (sizes : list Z) : Res (tensor A) :=
  match expand_shape (shape t) sizes with
  | Some sh' => Ok (tabulate sh' (fun idx => bnth t idx))
  | None => Raise (RuntimeError "The expanded size of the tensor must match the existing size")
  end.

(** [torch.cat([a, b], dim=d)] *)
Definition cat {A} `{Inhabited A} (a b : tensor A) (d : nat) : Res (tensor A) :=
  if (d <? length (shape a))%nat
     && bool_decide (<[d := 0]> (shape a) = <[d := 0]> (shape b))
  then
    let na := shape a !!! d in
    Ok (tabulate (<[d := na + shape b !!! d]> (shape a))
          (fun idx => if idx !!! d <? na then tnth a idx
                      else tnth b (<[d := idx !!! d - na]> idx)))
  else Raise (RuntimeError "Sizes of tensors must match except in the concatenated dimension").

(** [torch.nn.functional.pad(t, (0, 1))]: one more position at the end of the
    last dimension, holding [z] (zero, or False). *)
Definition pad_last {A} `{Inhabited A} (z : A) (t : tensor A) : Res (tensor A) :=
  match length (shape t) with
  | O => Raise (RuntimeError "Padding length too large")
  | S r =>
      let n := shape t !!! r in
      Ok (tabulate (<[r := n + 1]> (shape t))
            (fun idx => if idx !!! r <? n then tnth t idx else z))
  end.

(** [t.repeat(reps)], for [reps] of the rank of [t]. *)
Definition repeat_ {A} `{Inhabited A} (t : tensor A) (reps : list Z) : Res (tensor A) :=
  if (length reps =? length (shape t))%nat && forallb (fun r => 0 <=? r) reps
  then Ok (tabulate (zip_with Z.mul (shape t) reps)
             (fun idx => tnth t (zip_with Z.modulo idx (shape t))))
  else Raise (RuntimeError "Number of dimensions of repeat dims can not be smaller than number of dimensions of tensor").

(** [torch.zeros(sh)], [torch.zeros_like(t)] with element [z]. *)
Definition full {A} (sh : list Z) (z : A) : tensor A := tabulate sh (fun _ => z).

(** Broadcasting of two shapes (aligned on the right). *)
Fixpoint broadcast_rev (s1 s2 : list Z) : option (list Z) :=
  match s1, s2 with
  | [], s | s, [] => Some s
  | d1 :: s1', d2 :: s2' =>
      if d1 =? d2 then cons d1 <$> broadcast_rev s1' s2'
      else if d1 =? 1 then cons d2 <$> broadcast_rev s1' s2'
      else if d2 =? 1 then cons d1 <$> broadcast_rev s1' s2'
      else None
  end.

Definition broadcast_shapes (s1 s2 : list Z) : option (list Z) :=
  reverse <$> broadcast_rev (reverse s1) (reverse s2).

(** An element-wise binary operation with broadcasting, out of place. *)
Definition map2_broadcast {A B C} `{Inhabited A} `{Inhabited B}
    (f : A → B → C) (a : tensor A) (b : tensor B) : Res (tensor C) :=
  match broadcast_shapes (shape a) (shape b) with
  | Some sh => Ok (tabulate sh (fun idx => f (bnth a idx) (bnth b idx)))
  | None => Raise (RuntimeError "The size of tensor a must match the size of tensor b")
  end.

(** The same in place: the result is written into [a], whose shape must be
    the broadcast shape. *)
Definition map2_inplace {A B} `{Inhabited A} `{Inhabited B}
    (f : A → B → A) (a : tensor A) (b : tensor B) : Res (tensor A) :=
  match broadcast_shapes (shape a) (shape b) with
  | Some sh =>
      if shape_eqb sh (shape a)
      then Ok (tabulate sh (fun idx => f (bnth a idx) (bnth b idx)))
      else Raise (RuntimeError "output with shape doesn't match the broadcast shape")
  | None => Raise (RuntimeError "The size of tensor a must match the size of tensor b")
  end.

(** [a.logical_or(b)] *)
Definition logical_or (a b : tensor bool) : Res (tensor bool) :=
  map2_broadcast orb a b.

(** [t.masked_fill(mask, v)] and [t.masked_fill_(mask, v)] *)
Definition masked_fill {A} `{Inhabited A} (t : tensor A) (mask : tensor bool) (v : A)
  : Res (tensor A) :=
  map2_broadcast (fun x (m : bool) => if m then v else x) t mask.

Definition masked_fill_ {A} `{Inhabited A} (t : tensor A) (mask : tensor bool) (v : A)
  : Res (tensor A) :=
  map2_inplace (fun x (m : bool) => if m then v else x) t mask.

(** [t.to(torch.bool)] of a byte tensor. *)
Definition to_bool (t : tensor Z) : tensor bool :=
  mkT (shape t) ((fun z => negb (z =? 0)) <$> data t).

(** [t.chunk(3)] unpacked into three names: rows of dimension 0 in pieces of
    ceil(n/3); Python's unpacking raises unless there are exactly three. *)
Definition slice0 {A} (t : tensor A) (lo hi : Z) : tensor A :=
  let row := prod_list (tail (shape t)) in
  mkT (<[0%nat := hi - lo]> (shape t))
      (take (Z.to_nat ((hi - lo) * row)) (drop (Z.to_nat (lo * row)) (data t))).

Definition chunk3 {A} (t : tensor A) : Res (tensor A * tensor A * tensor A) :=
  match shape t with
  | [] => Raise (RuntimeError "chunk expects at least a 1-dimensional tensor")
  | n :: _ =>
      let c := (n + 2) `div` 3 in
      if (2 * c <? n) && (n <=? 3 * c)
      then Ok (slice0 t 0 c, slice0 t c (2 * c), slice0 t (2 * c) n)
      else Raise (ValueError "not enough values to unpack (expected 3)")
  end.

(** Objects: a heap maps a reference to the tensor it holds. Two names
    alias when they carry the same reference. *)
Abbreviation ref := positive (only parsing).
Abbreviation heap F := (gmap positive (tensor F)) (only parsing).

(** ** Floating-point scalars

    The source computes on torch's floating-point tensors and Python floats.
    The embedding is parametric in the scalars: every theorem holds whatever
    the floating-point operations compute. [fsum] is the reduction torch
    uses for sums and dot products (its order of additions is the library's),
    [fmaxl] its maximum; [bernoulli_keep] draws the positions dropout keeps from the random state. *)
Class Scalar (F : Type) : Type := {
  f0 : F;
  f1 : F;
  f_neg_inf : F;
  f_of_Z : Z → F;
  fadd : F → F → F;
  fsub : F → F → F;
  fmul : F → F → F;
  fdiv : F → F → F;
  fsqrt : F → F;
  fexp : F → F;
  fsum : list F → F;
  fmaxl : list F → F;
  fgtb : F → F → bool;
  fgtb_irrefl_0 : fgtb f0 f0 = false;
  rng : Type;
  bernoulli_keep : rng → F → nat → list bool * rng;
  random_fill : rng → nat → list F * rng;
}.

Section Embedding.

Context {F : Type} {SF : Scalar F}.

#[local] Instance F_inhabited : Inhabited F := populate f0.

(** *** Numeric operations of the library *)

(** The indices [0 .. n-1]. *)
Definition range (n : Z) : list Z := seqZ 0 n.

(** [t / c] for a Python number [c]. *)
Definition div_scalar (t : tensor F) (c : F) : tensor F :=
  mkT (shape t) ((fun x => fdiv x c) <$> data t).

(** [torch.nn.functional.linear(x, w, b)]: [x @ w.T + b], for [x] of shape
    [..., in], [w] of shape [out, in] and [b] of shape [out]. *)
Definition linear (x w : tensor F) (b : option (tensor F)) : Res (tensor F) :=
  match shape w, reverse (shape x) with
  | [n_out; n_in], n_x :: pre_rev =>
      if (n_x =? n_in)
         && match b with Some bt => shape_eqb (shape bt) [n_out] | None => true end
      then
        Ok (tabulate (reverse pre_rev ++ [n_out])
              (fun idx =>
                 let pre := take (length pre_rev) idx in
                 let o := idx !!! length pre_rev in
                 let dot := fsum ((fun j => fmul (tnth x (pre ++ [j])) (tnth w [o; j]))
                                    <$> range n_in) in
                 match b with Some bt => fadd dot (tnth bt [o]) | None => dot end))
      else Raise (RuntimeError "mat1 and mat2 shapes cannot be multiplied")
  | _, _ => Raise (RuntimeError "mat1 and mat2 shapes cannot be multiplied")
  end.

(** [torch.bmm(a, b)]: (B, N, M) x (B, M, P) -> (B, N, P). *)
Definition bmm (a b : tensor F) : Res (tensor F) :=
  match shape a, shape b with
  | [ba; n; m], [bb; m'; p] =>
      if (ba =? bb) && (m =? m')
      then Ok (tabulate [ba; n; p]
                 (fun idx =>
                    let i := idx !!! 0%nat in
                    let r := idx !!! 1%nat in
                    let c := idx !!! 2%nat in
                    fsum ((fun j => fmul (tnth a [i; r; j]) (tnth b [i; j; c]))
                            <$> range m)))
      else Raise (RuntimeError "batch1 and batch2 must have same shapes")
  | _, _ => Raise (RuntimeError "batch1 and batch2 must be 3D tensors")
  end.

(** [nn.Softmax(dim=-1)(t)]: along the last dimension, the exponentials of
    the elements less the maximum of their row, over the sum of the row's. *)
Definition Softmax (t : tensor F) : Res (tensor F) :=
  match reverse (shape t) with
  | n :: pre_rev =>
      Ok (tabulate (shape t)
            (fun idx =>
               let pre := take (length pre_rev) idx in
               let row := (fun j => tnth t (pre ++ [j])) <$> range n in
               let m := fmaxl row in
               fdiv (fexp (fsub (tnth t idx) m))
                    (fsum ((fun x => fexp (fsub x m)) <$> row))))
  | [] => Raise (IndexError "Dimension out of range")
  end.

(** [t.sum(dim=d)] *)
Definition sum_dim (t : tensor F) (d : nat) : Res (tensor F) :=
  match shape t !! d with
  | Some n =>
      Ok (tabulate (take d (shape t) ++ drop (S d) (shape t))
            (fun idx =>
               fsum ((fun h => tnth t (take d idx ++ h :: drop d idx)) <$> range n)))
  | None => Raise (IndexError "Dimension out of range")
  end.

(** [torch.nn.functional.dropout(t, p=p)] (training defaults to True there):
    each element is kept with probability [1 - p] and scaled by
    [1 / (1 - p)], or zeroed. *)
Definition dropout (t : tensor F) (p : F) (g : rng) : Res (tensor F * rng) :=
  if fgtb f0 p || fgtb p f1
  then Raise (ValueError "dropout probability has to be between 0 and 1")
  else
    let '(keep, g') := bernoulli_keep g p (length (data t)) in
    Ok (mkT (shape t)
          (zip_with (fun x (k : bool) => if k then fdiv x (fsub f1 p) else f0)
                    (data t) keep), g').

(** [torch.nn.functional._in_projection_packed(q, k, v, w, b)]: the packed
    weight and bias are split in three along their first dimension and each
    of [q], [k], [v] goes through its linear map. (The library takes a
    shortcut when [k is v]; it computes the same three maps.) *)
Definition _in_projection_packed (q k v w : tensor F) (b : option (tensor F))
  : Res (tensor F * tensor F * tensor F) :=
  match chunk3 w with
  | Raise e => Raise e
  | Ok (w_q, w_k, w_v) =>
      let bs := match b with
                | None => Ok (None, None, None)
                | Some bt => match chunk3 bt with
                             | Ok (b_q, b_k, b_v) => Ok (Some b_q, Some b_k, Some b_v)
                             | Raise e => Raise e
                             end
                end in
      match bs with
      | Raise e => Raise e
      | Ok (b_q, b_k, b_v) =>
          match linear q w_q b_q, linear k w_k b_k, linear v w_v b_v with
          | Ok q', Ok k', Ok v' => Ok (q', k', v')
          | Raise e, _, _ | Ok _, Raise e, _ | Ok _, Ok _, Raise e => Raise e
          end
      end
  end.

(** [torch.nn.functional._in_projection(q, k, v, w_q, w_k, w_v, b_q, b_k, b_v)] *)
Definition _in_projection (q k v w_q w_k w_v : tensor F) (b_q b_k b_v : option (tensor F))
  : Res (tensor F * tensor F * tensor F) :=
  let Eq := last (shape q) in
  let ok_w (w : tensor F) (x : tensor F) :=
    bool_decide (Some <$> shape w = [Eq; last (shape x)]) in
  let ok_b (b : option (tensor F)) :=
    match b with None => true | Some bt => bool_decide (Some <$> shape bt = [Eq]) end in
  if ok_w w_q q && ok_w w_k k && ok_w w_v v && ok_b b_q && ok_b b_k && ok_b b_v
  then match linear q w_q b_q, linear k w_k b_k, linear v w_v b_v with
       | Ok q', Ok k', Ok v' => Ok (q', k', v')
       | Raise e, _, _ | Ok _, Raise e, _ | Ok _, Ok _, Raise e => Raise e
       end
  else Raise (AssertionError "expecting projection weights and biases of matching shape").

(** *** Masks

    An attention mask is a floating (additive), boolean or byte tensor; any
    other dtype is carried with its name. A key padding mask is a boolean or
    byte tensor (the dtypes torch accepts for it throughout). *)
Inductive mask : Type :=
  | MFloat (t : tensor F)
  | MBool (t : tensor bool)
  | MByte (t : tensor Z)
  | MOther (dtype : string) (t : tensor Z).

Inductive padding_mask : Type :=
  | KBool (t : tensor bool)
  | KByte (t : tensor Z).

Definition mask_shape (m : mask) : list Z :=
  match m with
  | MFloat t => shape t | MBool t => shape t | MByte t => shape t | MOther _ t => shape t
  end.
Definition mask_dim (m : mask) : Z := Z.of_nat (length (mask_shape m)).

Definition kpm_shape (m : padding_mask) : list Z :=
  match m with KBool t => shape t | KByte t => shape t end.
Definition kpm_dim (m : padding_mask) : Z := Z.of_nat (length (kpm_shape m)).

(** An attention mask once its dtype has been checked: floating or boolean. *)
Inductive fb_mask : Type :=
  | FMask (t : tensor F)
  | BMask (t : tensor bool).

Definition fb_shape (m : fb_mask) : list Z :=
  match m with FMask t => shape t | BMask t => shape t end.
Definition fb_dim (m : fb_mask) : Z := Z.of_nat (length (fb_shape m)).

Definition fb_unsqueeze (m : fb_mask) (d : nat) : Res fb_mask :=
  match m with
  | FMask t => match unsqueeze t d with Ok t' => Ok (FMask t') | Raise e => Raise e end
  | BMask t => match unsqueeze t d with Ok t' => Ok (BMask t') | Raise e => Raise e end
  end.

(** [torch.nn.functional.pad(m, (0, 1))] on a mask: the new column holds zero
    (False for a boolean mask): it is attended to. *)
Definition fb_pad (m : fb_mask) : Res fb_mask :=
  match m with
  | FMask t => match pad_last f0 t with Ok t' => Ok (FMask t') | Raise e => Raise e end
  | BMask t => match pad_last false t with Ok t' => Ok (BMask t') | Raise e => Raise e end
  end.

(** *** Kernel primitives *)

(** The signatures of the four pluggable functions. [attention_function]
    is the only one handed the random state, which dropout consumes. *)
Definition product_fn : Type := tensor F → tensor F → M (tensor F).
Definition masking_fn : Type := tensor F → option (tensor F) → F → M (tensor F).
Definition kernel_fn : Type := tensor F → M (tensor F).
Definition attention_fn : Type :=
  tensor F → tensor F → tensor F → option (tensor F) → F →
  kernel_fn → F → masking_fn → product_fn → rng → M (tensor F * tensor F * rng).

(** [B, Nt, E = t.shape] *)
Definition unpack3 (sh : list Z) : M (Z * Z * Z) :=
  match sh with
  | [a; b; c] => ret (a, b, c)
  | _ => raise (ValueError "not enough values to unpack (expected 3)")
  end.

(** [_scaled_dot_product] (lines 130-144). *)
Definition _scaled_dot_product : product_fn := fun query key =>
  let* (_, _, E) := unpack3 (shape query) in
  let* query := call "div" (Ok (div_scalar query (fsqrt (f_of_Z E)))) in
  (* (B, Nt, E) x (B, E, Ns) -> (B, Nt, Ns) *)
  let* key_t := call "transpose" (transpose_last2 key) in
  call "bmm" (bmm query key_t).

Definition deref (h : heap F) (r : ref) : M (tensor F) :=
  match h !! r with
  | Some t => ret t
  | None => raise (RuntimeError "no such object")
  end.

(** [_attn_masking] (lines 147-161), on references: [attn += attn_mask]
    writes the sum into the object [attn] refers to and the function returns
    that same reference. *)
Definition _attn_masking (attn : ref) (attn_mask : option ref) (attn_mask_value : F)
    (h : heap F) : M (ref * heap F) :=
  match attn_mask with
  | Some mask_ref =>
      let* a := deref h attn in
      let* m := deref h mask_ref in
      let* a' := call "add_" (map2_inplace fadd a m) in
      ret (attn, <[attn := a']> h)
  | None => ret (attn, h)
  end.

(** [_attn_masking] as the attention function uses it: the scores are a
    fresh object ([1]), the mask another one ([2]), and only the returned
    object is read afterwards. *)
Definition attn_masking_value : masking_fn := fun attn attn_mask attn_mask_value =>
  let h0 : heap F := match attn_mask with
                   | Some m => <[2%positive := m]> {[ 1%positive := attn ]}
                   | None => {[ 1%positive := attn ]}
                   end in
  let* (r, h1) := _attn_masking 1%positive
                    (match attn_mask with Some _ => Some 2%positive | None => None end)
                    attn_mask_value h0 in
  deref h1 r.

(** The default [kernel_function], [nn.Softmax(dim=-1)]. *)
Definition Softmax_kernel : kernel_fn := fun t => call "softmax" (Softmax t).

(** [_scaled_dot_product_attention] (lines 164-186). *)
Definition _scaled_dot_product_attention : attention_fn :=
  fun q k v attn_mask dropout_p kernel_function attn_mask_value
      attn_masking_function query_key_product g =>
  let* attn := query_key_product q k in
  let* attn := attn_masking_function attn attn_mask attn_mask_value in
  let* attn := kernel_function attn in (* (B, Nt, Ns) *)
  let* (attn, g) :=
    if fgtb dropout_p f0
    then call "dropout" (dropout attn dropout_p g)
    else ret (attn, g) in
  (* (B, Nt, Ns) x (B, Ns, E) -> (B, Nt, E) *)
  let* output := call "bmm" (bmm attn v) in
  ret (output, attn, g).

(** *** Execution engine *)

(** [torch.nn.functional._mha_shape_check]: the ranks of the inputs, and
    whether they are batched. *)
Definition _mha_shape_check (query key value : tensor F)
    (key_padding_mask : option padding_mask) (attn_mask : option mask)
    (num_heads : Z) : M bool :=
  if dim query =? 3 then
    assert ((dim key =? 3) && (dim value =? 3))
      "For batched (3-D) `query`, expected `key` and `value` to be 3-D" ;;
    match key_padding_mask with
    | Some m => assert (kpm_dim m =? 2)
                  "For batched (3-D) `query`, expected `key_padding_mask` to be `None` or 2-D"
    | None => ret tt
    end ;;
    match attn_mask with
    | Some m => assert ((mask_dim m =? 2) || (mask_dim m =? 3))
                  "For batched (3-D) `query`, expected `attn_mask` to be `None`, 2-D or 3-D"
    | None => ret tt
    end ;;
    ret true
  else if dim query =? 2 then
    assert ((dim key =? 2) && (dim value =? 2))
      "For unbatched (2-D) `query`, expected `key` and `value` to be 2-D" ;;
    match key_padding_mask with
    | Some m => assert (kpm_dim m =? 1)
                  "For unbatched (2-D) `query`, expected `key_padding_mask` to be `None` or 1-D"
    | None => ret tt
    end ;;
    match attn_mask with
    | Some m =>
        assert ((mask_dim m =? 2) || (mask_dim m =? 3))
          "For unbatched (2-D) `query`, expected `attn_mask` to be `None`, 2-D or 3-D" ;;
        if mask_dim m =? 3
        then assert (shape_eqb (mask_shape m) [num_heads; size query 0; size key 0])
               "Expected `attn_mask` shape to be (num_heads, L, S)"
        else ret tt
    | None => ret tt
    end ;;
    ret false
  else raise (AssertionError "query should be unbatched 2D or batched 3D tensor").

(** The arguments of [_multi_head_attention_forward] (lines 325-355). *)
Record mha_args : Type := {
  query : tensor F;
  key : tensor F;
  value : tensor F;
  embed_dim_to_check : Z;
  num_heads : Z;
  in_proj_weight : option (tensor F);
  in_proj_bias : option (tensor F);
  bias_k : option (tensor F);
  bias_v : option (tensor F);
  add_zero_attn : bool;
  dropout_p : F;
  out_proj_weight : tensor F;
  out_proj_bias : option (tensor F);
  training : bool;
  key_padding_mask : option padding_mask;
  need_weights : bool;
  attn_mask : option mask;
  use_separate_proj_weight : bool;
  q_proj_weight : option (tensor F);
  k_proj_weight : option (tensor F);
  v_proj_weight : option (tensor F);
  static_k : option (tensor F);
  static_v : option (tensor F);
  average_attn_weights : bool;
  kernel_function : kernel_fn;
  attn_mask_value : F;
  attention_function : attention_fn;
  attn_masking_function : masking_fn;
  query_key_product : product_fn;
  (* [has_torch_function(tens_ops)] (line 368): whether one of the tensor
     operands is of a Tensor subclass; exact Tensors and Parameters are not *)
  has_torch_function : bool;
}.

Definition kpm_unsqueeze (m : padding_mask) (d : nat) : Res padding_mask :=
  match m with
  | KBool t => match unsqueeze t d with Ok t' => Ok (KBool t') | Raise e => Raise e end
  | KByte t => match unsqueeze t d with Ok t' => Ok (KByte t') | Raise e => Raise e end
  end.

(** [a // b] on Python integers. *)
Definition floordiv (a b : Z) : M Z :=
  if b =? 0 then raise ZeroDivisionError else ret (a `div` b).

(** What the shape set-up leaves for the rest of the function. *)
Record shapes : Type := {
  is_batched : bool;
  query' : tensor F;
  key' : tensor F;
  value' : tensor F;
  key_padding_mask' : option padding_mask;
  tgt_len : Z;
  bsz : Z;
  embed_dim : Z;
  src_len : Z;
  head_dim : Z;
}.

(** Lines 402-439: shape check, promotion of unbatched inputs to a batch of
    one, shape variables and their assertions. (The sizes of the inputs are
    Python integers.) *)
Definition shape_setup (a : mha_args) : M shapes :=
  let* is_batched :=
    _mha_shape_check (query a) (key a) (value a) (key_padding_mask a) (attn_mask a)
      (num_heads a) in
  let* (query, key, value, key_padding_mask) :=
    if negb is_batched then
      (* unsqueeze if the input is unbatched *)
      let* query := call "unsqueeze" (unsqueeze (query a) 1) in
      let* key := call "unsqueeze" (unsqueeze (key a) 1) in
      let* value := call "unsqueeze" (unsqueeze (value a) 1) in
      let* key_padding_mask :=
        match key_padding_mask a with
        | Some m => let* m' := call "unsqueeze" (kpm_unsqueeze m 0) in ret (Some m')
        | None => ret None
        end in
      ret (query, key, value, key_padding_mask)
    else ret (query a, key a, value a, key_padding_mask a) in
  (* set up shape vars *)
  let* (tgt_len, bsz, embed_dim) := unpack3 (shape query) in
  let* (src_len, _, _) := unpack3 (shape key) in
  assert (embed_dim =? embed_dim_to_check a) "was expecting embedding dimension of embed_dim_to_check" ;;
  let* head_dim := floordiv embed_dim (num_heads a) in
  assert (head_dim * num_heads a =? embed_dim) "embed_dim not divisible by num_heads" ;;
  (if use_separate_proj_weight a then
     (* allow MHA to have different embedding dimensions when separate projection weights are used *)
     assert (shape_eqb (take 2 (shape key)) (take 2 (shape value)))
       "key's sequence and batch dims do not match value's"
   else
     assert (shape_eqb (shape key) (shape value)) "key shape does not match value shape") ;;
  ret {| is_batched := is_batched; query' := query; key' := key; value' := value;
         key_padding_mask' := key_padding_mask; tgt_len := tgt_len; bsz := bsz;
         embed_dim := embed_dim; src_len := src_len; head_dim := head_dim |}.

(** An argument that must not be None. *)
Definition not_none {A} (o : option A) (msg : string) : M A :=
  match o with Some x => ret x | None => raise (AssertionError msg) end.

(** Lines 441-470: compute in-projection. *)
Definition compute_in_projection (a : mha_args) (s : shapes)
  : M (tensor F * tensor F * tensor F) :=
  if negb (use_separate_proj_weight a) then
    match in_proj_weight a with
    | Some w =>
        call "_in_projection_packed"
          (_in_projection_packed (query' s) (key' s) (value' s) w (in_proj_bias a))
    | None =>
        call "_in_projection_packed"
          (Raise (AttributeError "'NoneType' object has no attribute 'chunk'"))
    end
  else
    let* w_q := not_none (q_proj_weight a)
                  "use_separate_proj_weight is True but q_proj_weight is None" in
    let* w_k := not_none (k_proj_weight a)
                  "use_separate_proj_weight is True but k_proj_weight is None" in
    let* w_v := not_none (v_proj_weight a)
                  "use_separate_proj_weight is True but v_proj_weight is None" in
    let* (b_q, b_k, b_v) :=
      match in_proj_bias a with
      | None => ret (None, None, None)
      | Some b => let* (b_q, b_k, b_v) := call "chunk" (chunk3 b) in
                  ret (Some b_q, Some b_k, Some b_v)
      end in
    call "_in_projection"
      (_in_projection (query' s) (key' s) (value' s) w_q w_k w_v b_q b_k b_v).

(** Lines 472-500: prep attention mask. *)
Definition prep_attention_mask (a : mha_args) (s : shapes) : M (option fb_mask) :=
  match attn_mask a with
  | Some m =>
      let* m :=
        match m with
        | MByte t =>
            warn "Byte tensor for attn_mask in nn.MultiheadAttention is deprecated. Use bool tensor instead." ;;
            let* t' := call "to" (Ok (to_bool t)) in
            ret (BMask t')
        | MFloat t => ret (FMask t)
        | MBool t => ret (BMask t)
        | MOther _ _ =>
            raise (AssertionError "Only float, byte, and bool types are supported for attn_mask")
        end in
      (* ensure attn_mask's dim is 3 *)
      if fb_dim m =? 2 then
        let correct_2d_size := [tgt_len s; src_len s] in
        if negb (shape_eqb (fb_shape m) correct_2d_size) then
          raise (RuntimeError "The shape of the 2D attn_mask is wrong")
        else
          let* m := call "unsqueeze" (fb_unsqueeze m 0) in
          ret (Some m)
      else if fb_dim m =? 3 then
        let correct_3d_size := [bsz s * num_heads a; tgt_len s; src_len s] in
        if negb (shape_eqb (fb_shape m) correct_3d_size) then
          raise (RuntimeError "The shape of the 3D attn_mask is wrong")
        else ret (Some m)
      else raise (RuntimeError "attn_mask's dimension is not supported")
  | None => ret None
  end.

(** Lines 502-507: prep key padding mask. *)
Definition prep_key_padding_mask (kpm : option padding_mask) : M (option (tensor bool)) :=
  match kpm with
  | Some (KByte t) =>
      warn "Byte tensor for key_padding_mask in nn.MultiheadAttention is deprecated. Use bool tensor instead." ;;
      let* t' := call "to" (Ok (to_bool t)) in
      ret (Some t')
  | Some (KBool t) => ret (Some t)
  | None => ret None
  end.

(** The padding of both masks by one column (lines 515-518 and 559-562). *)
Definition pad_masks (attn_mask : option fb_mask) (key_padding_mask : option (tensor bool))
  : M (option fb_mask * option (tensor bool)) :=
  let* attn_mask :=
    match attn_mask with
    | Some m => let* m' := call "pad" (fb_pad m) in ret (Some m')
    | None => ret None
    end in
  let* key_padding_mask :=
    match key_padding_mask with
    | Some m => let* m' := call "pad" (pad_last false m) in ret (Some m')
    | None => ret None
    end in
  ret (attn_mask, key_padding_mask).

Definition is_none {A} (o : option A) : bool :=
  match o with None => true | Some _ => false end.

(** Lines 509-521: add bias along batch dimension (currently second). *)
Definition add_bias_kv (a : mha_args) (s : shapes) (k v : tensor F)
    (attn_mask : option fb_mask) (key_padding_mask : option (tensor bool))
  : M (tensor F * tensor F * option fb_mask * option (tensor bool)) :=
  match bias_k a, bias_v a with
  | Some bk, Some bv =>
      assert (is_none (static_k a)) "bias cannot be added to static key." ;;
      assert (is_none (static_v a)) "bias cannot be added to static value." ;;
      let* bk' := call "repeat" (repeat_ bk [1; bsz s; 1]) in
      let* k := call "cat" (cat k bk' 0) in
      let* bv' := call "repeat" (repeat_ bv [1; bsz s; 1]) in
      let* v := call "cat" (cat v bv' 0) in
      let* (attn_mask, key_padding_mask) := pad_masks attn_mask key_padding_mask in
      ret (k, v, attn_mask, key_padding_mask)
  | bk, bv =>
      assert (is_none bk) "" ;;
      assert (is_none bv) "" ;;
      ret (k, v, attn_mask, key_padding_mask)
  end.

(** [x.contiguous().view(n, bsz * num_heads, head_dim).transpose(0, 1)] *)
Definition to_heads (x : tensor F) (n bh hd : Z) : M (tensor F) :=
  let* x := call "contiguous" (Ok x) in
  let* x := call "view" (view x [n; bh; hd]) in
  call "transpose" (transpose x 0 1).

(** Lines 523-548: reshape q, k, v for multihead attention and make em batch
    first. *)
Definition reshape_qkv (a : mha_args) (s : shapes) (q k v : tensor F)
  : M (tensor F * tensor F * tensor F) :=
  let* q := to_heads q (tgt_len s) (bsz s * num_heads a) (head_dim s) in
  let* k :=
    match static_k a with
    | None =>
        let* n := tsize k 0 in
        to_heads k n (bsz s * num_heads a) (head_dim s)
    | Some sk =>
        let* n0 := tsize sk 0 in
        assert (n0 =? bsz s * num_heads a) "expecting static_k.size(0) of bsz * num_heads" ;;
        let* n2 := tsize sk 2 in
        assert (n2 =? head_dim s) "expecting static_k.size(2) of head_dim" ;;
        ret sk
    end in
  let* v :=
    match static_v a with
    | None =>
        let* n := tsize v 0 in
        to_heads v n (bsz s * num_heads a) (head_dim s)
    | Some sv =>
        let* n0 := tsize sv 0 in
        assert (n0 =? bsz s * num_heads a) "expecting static_v.size(0) of bsz * num_heads" ;;
        let* n2 := tsize sv 2 in
        assert (n2 =? head_dim s) "expecting static_v.size(2) of head_dim" ;;
        ret sv
    end in
  ret (q, k, v).

(** [torch.zeros(sh)]: a negative size is refused. *)
Definition zeros (sh : list Z) : Res (tensor F) :=
  if forallb (fun d => 0 <=? d) sh then Ok (full sh f0)
  else Raise (RuntimeError "Trying to create tensor with negative dimension").

(** Lines 550-562: add zero attention along batch dimension (now first). *)
Definition add_zero_attention (a : mha_args) (s : shapes) (k v : tensor F)
    (attn_mask : option fb_mask) (key_padding_mask : option (tensor bool))
  : M (tensor F * tensor F * option fb_mask * option (tensor bool)) :=
  if add_zero_attn a then
    let zero_attn_shape := [bsz s * num_heads a; 1; head_dim s] in
    let* zk := call "zeros" (zeros zero_attn_shape) in
    let* k := call "cat" (cat k zk 1) in
    let* zv := call "zeros" (zeros zero_attn_shape) in
    let* v := call "cat" (cat v zv 1) in
    let* (attn_mask, key_padding_mask) := pad_masks attn_mask key_padding_mask in
    ret (k, v, attn_mask, key_padding_mask)
  else ret (k, v, attn_mask, key_padding_mask).

(** Lines 573-577: the key padding mask [bsz, src_len] seen once per head,
    [bsz * num_heads, 1, src_len]. *)
Definition expand_key_padding_mask (key_padding_mask : tensor bool) (bsz num_heads src_len : Z)
  : M (tensor bool) :=
  let* m := call "view" (view key_padding_mask [bsz; 1; 1; src_len]) in
  let* m := call "expand" (expand m [-1; num_heads; -1; -1]) in
  call "reshape" (view m [bsz * num_heads; 1; src_len]).

(** Lines 567-583: merge key padding and attention masks. *)
Definition merge_masks (key_padding_mask : option (tensor bool)) (attn_mask : option fb_mask)
    (bsz num_heads src_len : Z) (attn_mask_value : F) : M (option fb_mask) :=
  match key_padding_mask with
  | Some kpm =>
      assert (shape_eqb (shape kpm) [bsz; src_len]) "expecting key_padding_mask shape of (bsz, src_len)" ;;
      let* kpm := expand_key_padding_mask kpm bsz num_heads src_len in
      match attn_mask with
      | None => ret (Some (BMask kpm))
      | Some (BMask m) =>
          let* m' := call "logical_or" (logical_or m kpm) in
          ret (Some (BMask m'))
      | Some (FMask m) =>
          let* m' := call "masked_fill" (masked_fill m kpm attn_mask_value) in
          ret (Some (FMask m'))
      end
  | None => ret attn_mask
  end.

(** Lines 585-589: convert mask to float. *)
Definition convert_mask_to_float (attn_mask : option fb_mask) (attn_mask_value : F)
  : M (option (tensor F)) :=
  match attn_mask with
  | Some (BMask m) =>
      let* new_attn_mask := call "zeros_like" (Ok (full (shape m) f0)) in
      let* new_attn_mask := call "masked_fill_" (masked_fill_ new_attn_mask m attn_mask_value) in
      ret (Some new_attn_mask)
  | Some (FMask m) => ret (Some m)
  | None => ret None
  end.

(** What the attention function is called on. *)
Record prepared : Type := {
  p_shapes : shapes;
  p_q : tensor F;
  p_k : tensor F;
  p_v : tensor F;
  p_attn_mask : option (tensor F);
  p_src_len : Z;
}.

(** Lines 402-589: everything before the dropout adjustment. *)
Definition prepare (a : mha_args) : M prepared :=
  let* s := shape_setup a in
  let* (q, k, v) := compute_in_projection a s in
  let* attn_mask := prep_attention_mask a s in
  let* key_padding_mask := prep_key_padding_mask (key_padding_mask' s) in
  let* (k, v, attn_mask, key_padding_mask) := add_bias_kv a s k v attn_mask key_padding_mask in
  let* (q, k, v) := reshape_qkv a s q k v in
  let* (k, v, attn_mask, key_padding_mask) :=
    add_zero_attention a s k v attn_mask key_padding_mask in
  (* update source sequence length after adjustments *)
  let* src_len := tsize k 1 in
  let* attn_mask :=
    merge_masks key_padding_mask attn_mask (bsz s) (num_heads a) src_len (attn_mask_value a) in
  let* attn_mask := convert_mask_to_float attn_mask (attn_mask_value a) in
  ret {| p_shapes := s; p_q := q; p_k := k; p_v := v; p_attn_mask := attn_mask;
         p_src_len := src_len |}.

(** Lines 591-593: adjust dropout probability. *)
Definition adjust_dropout (training : bool) (dropout_p : F) : F :=
  if negb training then f0 else dropout_p.

(** Lines 609-610: the attended output back in [tgt_len, bsz, embed_dim],
    through the output projection. *)
Definition out_projection (a : mha_args) (s : shapes) (attn_output : tensor F) : M (tensor F) :=
  let* x := call "transpose" (transpose attn_output 0 1) in
  let* x := call "contiguous" (Ok x) in
  let* x := call "view" (view x [tgt_len s; bsz s; embed_dim s]) in
  call "linear" (linear x (out_proj_weight a) (out_proj_bias a)).

(** Lines 612-627: the returned pair. *)
Definition reduce_weights (a : mha_args) (s : shapes) (src_len : Z)
    (attn_output attn_output_weights : tensor F) : M (tensor F * option (tensor F)) :=
  if need_weights a then
    (* optionally average attention weights over heads *)
    let* attn_output_weights :=
      call "view" (view attn_output_weights [bsz s; num_heads a; tgt_len s; src_len]) in
    let* attn_output_weights :=
      if average_attn_weights a then
        let* w := call "sum" (sum_dim attn_output_weights 1) in
        call "div" (Ok (div_scalar w (f_of_Z (num_heads a))))
      else ret attn_output_weights in
    if negb (is_batched s) then
      (* squeeze the output if input was unbatched *)
      let* attn_output := call "squeeze" (squeeze attn_output 1) in
      let* attn_output_weights := call "squeeze" (squeeze attn_output_weights 0) in
      ret (attn_output, Some attn_output_weights)
    else ret (attn_output, Some attn_output_weights)
  else
    if negb (is_batched s) then
      (* squeeze the output if input was unbatched *)
      let* attn_output := call "squeeze" (squeeze attn_output 1) in
      ret (attn_output, None)
    else ret (attn_output, None).

(** Lines 595-627, from the prepared tensors on. *)
Definition attend (a : mha_args) (p : prepared) (dropout_p : F) (g : rng)
  : M (tensor F * option (tensor F) * rng) :=
  (* (deep breath) calculate attention and out projection *)
  let* (attn_output, attn_output_weights, g) :=
    attention_function a (p_q p) (p_k p) (p_v p) (p_attn_mask p) dropout_p
      (kernel_function a) (attn_mask_value a) (attn_masking_function a)
      (query_key_product a) g in
  let* attn_output := out_projection a (p_shapes p) attn_output in
  let* (attn_output, w) :=
    reduce_weights a (p_shapes p) (p_src_len p) attn_output attn_output_weights in
  ret (attn_output, w, g).

(** Lines 402-627: the function past the dispatch of lines 368-400, run
    from the random state [g]. *)
Definition attention_forward (a : mha_args) (g : rng)
  : M (tensor F * option (tensor F) * rng) :=
  let* p := prepare a in
  (* adjust dropout probability *)
  let dropout_p := adjust_dropout (training a) (dropout_p a) in
  attend a p dropout_p g.

(** The arguments [handle_torch_function] is given at lines 369-400: every
    argument of the call is passed on, but [average_attn_weights], which
    takes its default, True, in the call that follows; there the dispatch is
    disabled. *)
Definition redispatched (a : mha_args) : mha_args :=
  {| query := query a; key := key a; value := value a;
     embed_dim_to_check := embed_dim_to_check a; num_heads := num_heads a;
     in_proj_weight := in_proj_weight a; in_proj_bias := in_proj_bias a;
     bias_k := bias_k a; bias_v := bias_v a; add_zero_attn := add_zero_attn a;
     dropout_p := dropout_p a;
     out_proj_weight := out_proj_weight a; out_proj_bias := out_proj_bias a;
     training := training a; key_padding_mask := key_padding_mask a;
     need_weights := need_weights a; attn_mask := attn_mask a;
     use_separate_proj_weight := use_separate_proj_weight a;
     q_proj_weight := q_proj_weight a; k_proj_weight := k_proj_weight a;
     v_proj_weight := v_proj_weight a; static_k := static_k a; static_v := static_v a;
     average_attn_weights := true;
     kernel_function := kernel_function a; attn_mask_value := attn_mask_value a;
     attention_function := attention_function a;
     attn_masking_function := attn_masking_function a;
     query_key_product := query_key_product a;
     has_torch_function := false |}.

(** [_multi_head_attention_forward] (lines 325-627), run from the random
    state [g]. On operands of a Tensor subclass, [handle_torch_function]
    hands the call to the subclass; with [__torch_function__] as
    [torch.Tensor] defines it, that is the same function called again on the
    arguments passed on, the dispatch disabled (the results come back as
    instances of the subclass, which the tensors of this embedding do not
    tell apart). *)
Definition _multi_head_attention_forward (a : mha_args) (g : rng)
  : M (tensor F * option (tensor F) * rng) :=
  if has_torch_function a then attention_forward (redispatched a) g
  else attention_forward a g.

(** *** The adapter, [CustomizableMultiHead] *)

(** The attributes [nn.MultiheadAttention.__init__] sets, as the adapter's
    [forward] reads them. Parameters are objects of the heap, named as
    [named_parameters] names them (["out_proj.weight"] is the weight of the
    sub-module [out_proj]); an absent name is a parameter that is None. *)
Record MultiheadAttention : Type := {
  self_embed_dim : Z;
  self_kdim : Z;
  self_vdim : Z;
  self_qkv_same_embed_dim : bool;
  self_num_heads : Z;
  self_dropout : F;
  self_batch_first : bool;
  self_head_dim : Z;
  self_add_zero_attn : bool;
  self_training : bool;
  self_params : gmap string ref;
}.

(** The attributes [CustomizableMultiHead.__init__] adds (lines 240-245). *)
Record CustomizableMultiHead : Type := {
  base : MultiheadAttention;
  self_kernel_function : kernel_fn;
  self_attn_mask_value : F;
  self_attention_function : attention_fn;
  self_attn_masking_function : masking_fn;
  self_query_key_product : product_fn;
}.

(** The value of a parameter attribute: the tensor, or None. *)
Definition param (m : MultiheadAttention) (h : heap F) (name : string) : option (tensor F) :=
  r ← self_params m !! name; h !! r.

(** [[x.transpose(1, 0) for x in (query, key, value)]] *)
Definition transpose_qkv (query key value : tensor F) : M (tensor F * tensor F * tensor F) :=
  let* q := call "transpose" (transpose query 1 0) in
  let* k := call "transpose" (transpose key 1 0) in
  let* v := call "transpose" (transpose value 1 0) in
  ret (q, k, v).

(** [CustomizableMultiHead.forward] (lines 247-322). [tensor_subclass]
    says whether [query], [key] or [value] is of a Tensor subclass, which
    the engine asks at line 368 (the parameters of the module are
    Parameters, which are not dispatched). *)
Definition forward (self : CustomizableMultiHead) (h : heap F)
    (tensor_subclass : bool) (query key value : tensor F)
    (key_padding_mask : option padding_mask)
    (need_weights : bool) (attn_mask : option mask) (average_attn_weights : bool)
    (g : rng) : M (tensor F * option (tensor F) * rng) :=
  let m := base self in
  let is_batched := dim query =? 3 in
  let* (query, key, value) :=
    if self_batch_first m && is_batched then transpose_qkv query key value
    else ret (query, key, value) in
  let* out_proj_weight :=
    match param m h "out_proj.weight" with
    | Some w => ret w
    | None => raise (AttributeError "out_proj.weight")
    end in
  let* (attn_output, attn_output_weights, g) :=
    if negb (self_qkv_same_embed_dim m) then
      _multi_head_attention_forward
        {| query := query; key := key; value := value;
           embed_dim_to_check := self_embed_dim m;
           num_heads := self_num_heads m;
           in_proj_weight := param m h "in_proj_weight";
           in_proj_bias := param m h "in_proj_bias";
           bias_k := param m h "bias_k";
           bias_v := param m h "bias_v";
           add_zero_attn := self_add_zero_attn m;
           dropout_p := self_dropout m;
           out_proj_weight := out_proj_weight;
           out_proj_bias := param m h "out_proj.bias";
           training := self_training m;
           key_padding_mask := key_padding_mask;
           need_weights := need_weights;
           attn_mask := attn_mask;
           use_separate_proj_weight := true;
           q_proj_weight := param m h "q_proj_weight";
           k_proj_weight := param m h "k_proj_weight";
           v_proj_weight := param m h "v_proj_weight";
           static_k := None;
           static_v := None;
           average_attn_weights := average_attn_weights;
           kernel_function := self_kernel_function self;
           attn_mask_value := self_attn_mask_value self;
           attention_function := self_attention_function self;
           attn_masking_function := self_attn_masking_function self;
           query_key_product := self_query_key_product self;
           has_torch_function := tensor_subclass |} g
    else
      _multi_head_attention_forward
        {| query := query; key := key; value := value;
           embed_dim_to_check := self_embed_dim m;
           num_heads := self_num_heads m;
           in_proj_weight := param m h "in_proj_weight";
           in_proj_bias := param m h "in_proj_bias";
           bias_k := param m h "bias_k";
           bias_v := param m h "bias_v";
           add_zero_attn := self_add_zero_attn m;
           dropout_p := self_dropout m;
           out_proj_weight := out_proj_weight;
           out_proj_bias := param m h "out_proj.bias";
           training := self_training m;
           key_padding_mask := key_padding_mask;
           need_weights := need_weights;
           attn_mask := attn_mask;
           use_separate_proj_weight := false;
           q_proj_weight := None;
           k_proj_weight := None;
           v_proj_weight := None;
           static_k := None;
           static_v := None;
           average_attn_weights := average_attn_weights;
           kernel_function := self_kernel_function self;
           attn_mask_value := self_attn_mask_value self;
           attention_function := self_attention_function self;
           attn_masking_function := self_attn_masking_function self;
           query_key_product := self_query_key_product self;
           has_torch_function := tensor_subclass |} g in
  if self_batch_first m && is_batched then
    let* attn_output := call "transpose" (transpose attn_output 1 0) in
    ret (attn_output, attn_output_weights, g)
  else ret (attn_output, attn_output_weights, g).

(** The adapter over the attributes [m] with the pluggable functions at the
    defaults of lines 211-215: what the constructor builds when none is
    substituted. *)
Definition with_defaults (m : MultiheadAttention) : CustomizableMultiHead :=
  {| base := m;
     self_kernel_function := Softmax_kernel;
     self_attn_mask_value := f_neg_inf;
     self_attention_function := _scaled_dot_product_attention;
     self_attn_masking_function := attn_masking_value;
     self_query_key_product := _scaled_dot_product |}.

(** [module.train(mode)] / [module.eval()] *)
Definition set_training (mode : bool) (m : MultiheadAttention) : MultiheadAttention :=
  {| self_embed_dim := self_embed_dim m; self_kdim := self_kdim m; self_vdim := self_vdim m;
     self_qkv_same_embed_dim := self_qkv_same_embed_dim m;
     self_num_heads := self_num_heads m; self_dropout := self_dropout m;
     self_batch_first := self_batch_first m; self_head_dim := self_head_dim m;
     self_add_zero_attn := self_add_zero_attn m; self_training := mode;
     self_params := self_params m |}.

(** *** Construction *)

(** The values a keyword argument of the constructor can hold. *)
Inductive pyval : Type :=
  | VInt (z : Z)
  | VBool (b : bool)
  | VFloat (x : F)
  | VNone
  | VKernel (f : kernel_fn)
  | VMasking (f : masking_fn)
  | VProduct (f : product_fn)
  | VAttention (f : attention_fn).

(** The keyword arguments of [CustomizableMultiHead.__init__] (lines 198-216). *)
Definition known_kwargs : list string :=
  ["embed_dim"; "num_heads"; "dropout"; "bias"; "add_bias_kv"; "add_zero_attn";
   "kdim"; "vdim"; "batch_first"; "device"; "dtype"; "kernel_function";
   "attn_mask_value"; "attention_function"; "attn_masking_function";
   "query_key_product"].

Definition as_int (v : pyval) : option Z := match v with VInt z => Some z | _ => None end.
Definition as_bool (v : pyval) : option bool := match v with VBool b => Some b | _ => None end.
Definition as_float (v : pyval) : option F := match v with VFloat x => Some x | _ => None end.
Definition as_opt_int (v : pyval) : option (option Z) :=
  match v with VInt z => Some (Some z) | VNone => Some None | _ => None end.
Definition as_kernel (v : pyval) : option kernel_fn :=
  match v with VKernel f => Some f | _ => None end.
Definition as_masking (v : pyval) : option masking_fn :=
  match v with VMasking f => Some f | _ => None end.
Definition as_product (v : pyval) : option product_fn :=
  match v with VProduct f => Some f | _ => None end.
Definition as_attention (v : pyval) : option attention_fn :=
  match v with VAttention f => Some f | _ => None end.

(** A keyword argument of the expected kind, or its default. *)
Definition kwarg {A} (proj : pyval → option A) (kw : gmap string pyval) (name : string)
    (dflt : option A) : M A :=
  match kw !! name with
  | Some v => match proj v with
              | Some x => ret x
              | None => raise (TypeError name)
              end
  | None => match dflt with
            | Some x => ret x
            | None => raise (TypeError "__init__() missing a required argument")
            end
  end.

(** A new parameter object. *)
Definition alloc (h : heap F) (t : tensor F) : ref * heap F :=
  let r := fresh (dom h) in (r, <[r := t]> h).

(** [Parameter(torch.empty(sh))], then filled by the initialisation scheme. *)
Definition new_random (name : string) (sh : list Z)
    (st : gmap string ref * heap F * rng) : M (gmap string ref * heap F * rng) :=
  let '(ps, h, g) := st in
  if forallb (fun d => 0 <=? d) sh then
    let '(vals, g') := random_fill g (Z.to_nat (prod_list sh)) in
    let '(r, h') := alloc h (mkT sh vals) in
    ret (<[name := r]> ps, h', g')
  else raise (RuntimeError "Trying to create tensor with negative dimension").

(** [Parameter(torch.empty(sh))], then [constant_(_, 0.)]. *)
Definition new_zero (name : string) (sh : list Z)
    (st : gmap string ref * heap F * rng) : M (gmap string ref * heap F * rng) :=
  let '(ps, h, g) := st in
  if forallb (fun d => 0 <=? d) sh then
    let '(r, h') := alloc h (full sh f0) in
    ret (<[name := r]> ps, h', g)
  else raise (RuntimeError "Trying to create tensor with negative dimension").

(** [nn.MultiheadAttention.__init__], the constructor of the parent class:
    the attributes, the divisibility assertion, and the parameters the
    configuration calls for. A new module is in training mode. *)
Definition MultiheadAttention_init (embed_dim num_heads : Z) (dropout : F)
    (bias add_bias_kv add_zero_attn : bool) (kdim vdim : option Z) (batch_first : bool)
    (h : heap F) (g : rng) : M (MultiheadAttention * heap F * rng) :=
  let kdim := default embed_dim kdim in
  let vdim := default embed_dim vdim in
  let same := (kdim =? embed_dim) && (vdim =? embed_dim) in
  let* head_dim := floordiv embed_dim num_heads in
  assert (head_dim * num_heads =? embed_dim) "embed_dim must be divisible by num_heads" ;;
  let* st :=
    if negb same then
      let* st := new_random "q_proj_weight" [embed_dim; embed_dim] (∅, h, g) in
      let* st := new_random "k_proj_weight" [embed_dim; kdim] st in
      new_random "v_proj_weight" [embed_dim; vdim] st
    else new_random "in_proj_weight" [3 * embed_dim; embed_dim] (∅, h, g) in
  let* st := if bias then new_zero "in_proj_bias" [3 * embed_dim] st else ret st in
  let* st := new_random "out_proj.weight" [embed_dim; embed_dim] st in
  let* st := if bias then new_zero "out_proj.bias" [embed_dim] st else ret st in
  let* st :=
    if add_bias_kv then
      let* st := new_random "bias_k" [1; 1; embed_dim] st in
      new_random "bias_v" [1; 1; embed_dim] st
    else ret st in
  let '(ps, h, g) := st in
  ret ({| self_embed_dim := embed_dim; self_kdim := kdim; self_vdim := vdim;
          self_qkv_same_embed_dim := same; self_num_heads := num_heads;
          self_dropout := dropout; self_batch_first := batch_first;
          self_head_dim := head_dim; self_add_zero_attn := add_zero_attn;
          self_training := true; self_params := ps |}, h, g).

(** [CustomizableMultiHead.__init__] (lines 198-245): the keyword arguments are
    bound by name, the parent constructor runs, the five added attributes
    are stored. *)
Definition CustomizableMultiHead_init (kw : gmap string pyval) (h : heap F) (g : rng)
  : M (CustomizableMultiHead * heap F * rng) :=
  if negb (bool_decide (dom kw ⊆ list_to_set known_kwargs))
  then raise (TypeError "__init__() got an unexpected keyword argument")
  else
    let* embed_dim := kwarg as_int kw "embed_dim" None in
    let* num_heads := kwarg as_int kw "num_heads" None in
    let* dropout := kwarg as_float kw "dropout" (Some f0) in
    let* bias := kwarg as_bool kw "bias" (Some true) in
    let* add_bias_kv := kwarg as_bool kw "add_bias_kv" (Some false) in
    let* add_zero_attn := kwarg as_bool kw "add_zero_attn" (Some false) in
    let* kdim := kwarg as_opt_int kw "kdim" (Some None) in
    let* vdim := kwarg as_opt_int kw "vdim" (Some None) in
    let* batch_first := kwarg as_bool kw "batch_first" (Some false) in
    let* kernel_function := kwarg as_kernel kw "kernel_function" (Some Softmax_kernel) in
    let* attn_mask_value := kwarg as_float kw "attn_mask_value" (Some f_neg_inf) in
    let* attention_function :=
      kwarg as_attention kw "attention_function" (Some _scaled_dot_product_attention) in
    let* attn_masking_function :=
      kwarg as_masking kw "attn_masking_function" (Some attn_masking_value) in
    let* query_key_product :=
      kwarg as_product kw "query_key_product" (Some _scaled_dot_product) in
    let* (m, h, g) :=
      MultiheadAttention_init embed_dim num_heads dropout bias add_bias_kv add_zero_attn
        kdim vdim batch_first h g in
    (* added attributes w.r.t. `torch.nn.MultiheadAttention` *)
    ret ({| base := m;
            self_kernel_function := kernel_function;
            self_attn_mask_value := attn_mask_value;
            self_attention_function := attention_function;
            self_attn_masking_function := attn_masking_function;
            self_query_key_product := query_key_product |}, h, g).

(** *** The approximator, [CustomizableMultiHeadApproximator] *)

Record CustomizableMultiHeadApproximator : Type := {
  parameters : gmap string pyval;
  approximations : list CustomizableMultiHead;
}.

(** [self.parameters[k] = self.parameters.get(k, v)] *)
Definition store_default (k : string) (v : pyval) (ps : gmap string pyval)
  : gmap string pyval :=
  <[k := default v (ps !! k)]> ps.

(** The names [named_parameters] can yield for the layer, in its order. *)
Definition parameter_names : list string :=
  ["in_proj_weight"; "q_proj_weight"; "k_proj_weight"; "v_proj_weight"; "in_proj_bias";
   "bias_k"; "bias_v"; "out_proj.weight"; "out_proj.bias"].

(** [module.named_parameters()]: the parameters that are not None. *)
Definition named_parameters (m : MultiheadAttention) : list (string * ref) :=
  omap (fun name => pair name <$> self_params m !! name) parameter_names.

(** [name.split(".")] *)
Fixpoint split_dot (cur s : string) : list string :=
  match s with
  | EmptyString => [cur]
  | String c s' =>
      if Ascii.eqb c "."%char then cur :: split_dot EmptyString s'
      else split_dot (cur +:+ String c EmptyString) s'
  end.

Definition set_param (a : CustomizableMultiHead) (name : string) (r : ref)
  : CustomizableMultiHead :=
  let m := base a in
  {| base := {| self_embed_dim := self_embed_dim m; self_kdim := self_kdim m;
                self_vdim := self_vdim m;
                self_qkv_same_embed_dim := self_qkv_same_embed_dim m;
                self_num_heads := self_num_heads m; self_dropout := self_dropout m;
                self_batch_first := self_batch_first m; self_head_dim := self_head_dim m;
                self_add_zero_attn := self_add_zero_attn m;
                self_training := self_training m;
                self_params := <[name := r]> (self_params m) |};
     self_kernel_function := self_kernel_function a;
     self_attn_mask_value := self_attn_mask_value a;
     self_attention_function := self_attention_function a;
     self_attn_masking_function := self_attn_masking_function a;
     self_query_key_product := self_query_key_product a |}.

(** The body of the loop of lines 100-106. The only sub-module of the new
    approximation is [out_proj]. *)
Definition load_parameter (new_approximation : CustomizableMultiHead)
    (entry : string * ref) : M CustomizableMultiHead :=
  let '(name, params) := entry in
  match split_dot EmptyString name with
  | [module; attr] => (* loading out_proj.weight and out_proj.bias *)
      if String.eqb module "out_proj"
      then ret (set_param new_approximation (module +:+ "." +:+ attr) params)
      else raise (AttributeError module)
  | [_] => (* loading in_proj_weight and in_proj_bias *)
      ret (set_param new_approximation name params)
  | _ => ret new_approximation
  end.

Fixpoint load_parameters (new_approximation : CustomizableMultiHead)
    (entries : list (string * ref)) : M CustomizableMultiHead :=
  match entries with
  | [] => ret new_approximation
  | e :: entries' =>
      let* new_approximation := load_parameter new_approximation e in
      load_parameters new_approximation entries'
  end.

Definition is_some {A} (o : option A) : bool := negb (is_none o).

(** Lines 73-95: the configuration of the original layer, stored in
    [self.parameters] under each key that is not there yet. *)
Definition store_configuration (original_multihead : MultiheadAttention)
    (ps : gmap string pyval) : gmap string pyval :=
  let ps := store_default "embed_dim" (VInt (self_embed_dim original_multihead)) ps in
  let ps := store_default "num_heads" (VInt (self_num_heads original_multihead)) ps in
  let ps := store_default "batch_first" (VBool (self_batch_first original_multihead)) ps in
  let ps := store_default "dropout" (VFloat (self_dropout original_multihead)) ps in
  let ps := store_default "bias"
              (VBool (is_some (self_params original_multihead !! "in_proj_bias"))) ps in
  let ps := store_default "add_bias_kv"
              (VBool (is_some (self_params original_multihead !! "bias_k"))) ps in
  let ps := store_default "add_zero_attn"
              (VBool (self_add_zero_attn original_multihead)) ps in
  let ps := store_default "kdim" (VInt (self_kdim original_multihead)) ps in
  store_default "vdim" (VInt (self_vdim original_multihead)) ps.

(** [get_trainable_approximation] (lines 63-109). The approximator is
    returned beside the outcome: its [parameters] are written before the
    constructor runs, the new approximation is appended once it is loaded. *)
Definition get_trainable_approximation (self : CustomizableMultiHeadApproximator)
    (original_multihead : MultiheadAttention) (h : heap F) (g : rng)
  : M (CustomizableMultiHead * heap F * rng) * CustomizableMultiHeadApproximator :=
  let ps := store_configuration original_multihead (parameters self) in
  let r :=
    let* (new_approximation, h, g) := CustomizableMultiHead_init ps h g in
    (* loading the weights (parameters) of the multihead module that is going to be approximated *)
    let* new_approximation :=
      load_parameters new_approximation (named_parameters original_multihead) in
    ret (new_approximation, h, g) in
  (r,
   {| parameters := ps;
      approximations :=
        match result r with
        | Ok (new_approximation, _, _) => approximations self ++ [new_approximation]
        | Raise _ => approximations self
        end |}).

(** *** Classes and [get_pretrained_approximation] *)

(** The classes a module handed to the approximator can have: the library's
    [nn.Module] and [nn.MultiheadAttention], the adapter, and any class
    derived from one of them. *)
Inductive pyclass : Type :=
  | cls_Module
  | cls_MultiheadAttention
  | cls_CustomizableMultiHead
  | cls_derived (name : string) (parent : pyclass).

#[local] Instance pyclass_eq_dec : EqDecision pyclass.
Proof. solve_decision. Defined.

(** [issubclass(c, target)] *)
Fixpoint issubclass (c target : pyclass) : bool :=
  bool_decide (c = target)
  || match c with
     | cls_Module => false
     | cls_MultiheadAttention => bool_decide (target = cls_Module)
     | cls_CustomizableMultiHead =>
         bool_decide (target = cls_MultiheadAttention) || bool_decide (target = cls_Module)
     | cls_derived _ parent => issubclass parent target
     end.

(** A module object: its identity and its class. *)
Record nn_Module : Type := {
  module_id : positive;
  module_class : pyclass;
}.

Definition isinstance (module : nn_Module) (c : pyclass) : bool :=
  issubclass (module_class module) c.

(** [get_pretrained_approximation] (lines 111-127). *)
Definition get_pretrained_approximation (module : nn_Module) : M nn_Module :=
  if negb (isinstance module cls_CustomizableMultiHead)
  then raise (ValueError "module is not a CustomizableMultiHead")
  else ret module.

(** *** [approximate_module] *)

(** A module of a model, as the approximator meets it: the object (its
    identity and class), and its attributes as a multi-head attention layer,
    the layer type the approximator supports (line 27). *)
Record child_module : Type := {
  child_object : nn_Module;
  child_layer : MultiheadAttention;
}.

(** What [approximate_module] returns: the module handed in (the pretrained
    form), or a new adapter, with the heap and the random state its
    construction leaves. *)
Inductive approximated : Type :=
  | Pretrained (module : nn_Module)
  | Trainable (new_approximation : CustomizableMultiHead) (h : heap F) (g : rng).

(** [approximate_module] (lines 42-61). The model is its attributes of
    module type, by name. *)
Definition approximate_module (self : CustomizableMultiHeadApproximator)
    (model : gmap string child_module) (id : string) (pretrained : bool)
    (h : heap F) (g : rng) : M approximated * CustomizableMultiHeadApproximator :=
  (* retrieving the multihead module that is going to be approximated *)
  match model !! id with
  | None => (raise (AttributeError id), self)
  | Some multihead =>
      if pretrained then
        (let* module := get_pretrained_approximation (child_object multihead) in
         ret (Pretrained module), self)
      else
        let r := get_trainable_approximation self (child_layer multihead) h g in
        (let* (a, h, g) := r.1 in ret (Trainable a h g), r.2)
  end.

End Embedding.

(** ** Notions the properties are stated with *)

Section Notions.

Context {F : Type} {SF : Scalar F}.

(** A run with the random state dropped from its result. *)
Definition strip {A R} (m : M (A * R)) : M A :=
  (match result m with Ok (x, _) => Ok x | Raise e => Raise e end, events m).

(** "An error is raised before any tensor operation executes". *)
Definition raises_before_any_operation {A} (m : M A) : Prop :=
  is_ok (result m) = false ∧ ops m = [].

(** A computation whose events all satisfy [P]. *)
Definition only {A} (P : event → Prop) (m : M A) : Prop := Forall P (events m).

(** A computation that raises, having logged only events that satisfy [P]. *)
Definition fails {A} (P : event → Prop) (m : M A) : Prop :=
  (∃ e, result m = Raise e) ∧ only P m.

(** The operations that can come before the divisibility assertion. *)
Definition layout_only (e : event) : Prop := e = Op "transpose" ∨ e = Op "unsqueeze".

(** What the dtype check of the attention mask leaves in the log (lines
    474-482). *)
Definition mask_conversion_events (m : @mask F) : list event :=
  match m with
  | MByte _ =>
      [Warn "Byte tensor for attn_mask in nn.MultiheadAttention is deprecated. Use bool tensor instead.";
       Op "to"]
  | _ => []
  end.

Definition supported_mask_dtype (m : @mask F) : bool :=
  match m with MOther _ _ => false | _ => true end.

(** An attention function that, handed a dropout probability of zero,
    computes the same whatever the random state. *)
Definition deterministic_without_dropout (af : attention_fn) : Prop :=
  ∀ q k v m kf mv mf pf g1 g2,
    strip (af q k v m f0 kf mv mf pf g1) = strip (af q k v m f0 kf mv mf pf g2).

Definition set_dropout_p (d : F) (a : mha_args) : mha_args :=
  {| query := query a; key := key a; value := value a;
     embed_dim_to_check := embed_dim_to_check a; num_heads := num_heads a;
     in_proj_weight := in_proj_weight a; in_proj_bias := in_proj_bias a;
     bias_k := bias_k a; bias_v := bias_v a; add_zero_attn := add_zero_attn a;
     dropout_p := d;
     out_proj_weight := out_proj_weight a; out_proj_bias := out_proj_bias a;
     training := training a; key_padding_mask := key_padding_mask a;
     need_weights := need_weights a; attn_mask := attn_mask a;
     use_separate_proj_weight := use_separate_proj_weight a;
     q_proj_weight := q_proj_weight a; k_proj_weight := k_proj_weight a;
     v_proj_weight := v_proj_weight a; static_k := static_k a; static_v := static_v a;
     average_attn_weights := average_attn_weights a;
     kernel_function := kernel_function a; attn_mask_value := attn_mask_value a;
     attention_function := attention_function a;
     attn_masking_function := attn_masking_function a;
     query_key_product := query_key_product a;
     has_torch_function := has_torch_function a |}.

(** The configured dropout rate of a module. *)
Definition with_dropout_rate (d : F) (m : @MultiheadAttention F) : MultiheadAttention :=
  {| self_embed_dim := self_embed_dim m; self_kdim := self_kdim m;
     self_vdim := self_vdim m;
     self_qkv_same_embed_dim := self_qkv_same_embed_dim m;
     self_num_heads := self_num_heads m; self_dropout := d;
     self_batch_first := self_batch_first m; self_head_dim := self_head_dim m;
     self_add_zero_attn := self_add_zero_attn m;
     self_training := self_training m;
     self_params := self_params m |}.

Definition with_dropout (d : F) (self : CustomizableMultiHead) : CustomizableMultiHead :=
  {| base := with_dropout_rate d (base self);
     self_kernel_function := self_kernel_function self;
     self_attn_mask_value := self_attn_mask_value self;
     self_attention_function := self_attention_function self;
     self_attn_masking_function := self_attn_masking_function self;
     self_query_key_product := self_query_key_product self |}.

(** What one allocation step of the constructor does to the parameters
    under construction and to the heap. *)
Definition grows (names : gset string) (st st' : gmap string ref * heap F * rng) : Prop :=
  dom st'.1.1 = dom st.1.1 ∪ names ∧ st.1.2 ⊆ st'.1.2.

(** The names of the parameters a configuration calls for. *)
Definition expected_parameters (same bias add_bias_kv : bool) : gset string :=
  (if same then {["in_proj_weight"]}
   else {["q_proj_weight"; "k_proj_weight"; "v_proj_weight"]})
  ∪ (if bias then {["in_proj_bias"; "out_proj.bias"]} else ∅)
  ∪ {["out_proj.weight"]}
  ∪ (if add_bias_kv then {["bias_k"; "bias_v"]} else ∅).

(** The nine entries lines 73-95 compute from the original layer. *)
Definition layer_configuration (l : @MultiheadAttention F) : gmap string pyval :=
  list_to_map
    [("embed_dim", VInt (self_embed_dim l));
     ("num_heads", VInt (self_num_heads l));
     ("batch_first", VBool (self_batch_first l));
     ("dropout", VFloat (self_dropout l));
     ("bias", VBool (is_some (self_params l !! "in_proj_bias")));
     ("add_bias_kv", VBool (is_some (self_params l !! "bias_k")));
     ("add_zero_attn", VBool (self_add_zero_attn l));
     ("kdim", VInt (self_kdim l));
     ("vdim", VInt (self_vdim l))].

(** A configuration the parent constructor accepts. *)
Definition valid_configuration (l : @MultiheadAttention F) : Prop :=
  self_num_heads l ≠ 0
  ∧ self_embed_dim l `mod` self_num_heads l = 0
  ∧ 0 <= self_embed_dim l ∧ 0 <= self_kdim l ∧ 0 <= self_vdim l.

(** A layer as the library's constructor leaves it (whatever its weights
    have become since): a valid configuration, the derived attributes, the
    parameters the configuration calls for, each one an object of the heap. *)
Definition well_formed_layer (l : @MultiheadAttention F) (h : heap F) : Prop :=
  valid_configuration l
  ∧ self_qkv_same_embed_dim l
    = (self_kdim l =? self_embed_dim l) && (self_vdim l =? self_embed_dim l)
  ∧ self_head_dim l = self_embed_dim l `div` self_num_heads l
  ∧ dom (self_params l)
    = expected_parameters (self_qkv_same_embed_dim l)
        (is_some (self_params l !! "in_proj_bias")) (is_some (self_params l !! "bias_k"))
  ∧ ∀ name r, self_params l !! name = Some r → is_Some (h !! r).

(** The arguments of a call with another [average_attn_weights]. *)
Definition set_average_attn_weights (b : bool) (a : mha_args) : mha_args :=
  {| query := query a; key := key a; value := value a;
     embed_dim_to_check := embed_dim_to_check a; num_heads := num_heads a;
     in_proj_weight := in_proj_weight a; in_proj_bias := in_proj_bias a;
     bias_k := bias_k a; bias_v := bias_v a; add_zero_attn := add_zero_attn a;
     dropout_p := dropout_p a;
     out_proj_weight := out_proj_weight a; out_proj_bias := out_proj_bias a;
     training := training a; key_padding_mask := key_padding_mask a;
     need_weights := need_weights a; attn_mask := attn_mask a;
     use_separate_proj_weight := use_separate_proj_weight a;
     q_proj_weight := q_proj_weight a; k_proj_weight := k_proj_weight a;
     v_proj_weight := v_proj_weight a; static_k := static_k a; static_v := static_v a;
     average_attn_weights := b;
     kernel_function := kernel_function a; attn_mask_value := attn_mask_value a;
     attention_function := attention_function a;
     attn_masking_function := attn_masking_function a;
     query_key_product := query_key_product a;
     has_torch_function := has_torch_function a |}.

(** The call has run as far as line 565: the shape set-up has returned
    [s], and the in-projection, the preparation of the two masks, the bias
    injection, the head split and the zero attention have left the query,
    key and value [q], [k], [v], the attention mask [m], the key padding
    mask [kpm] and the source length [S]. *)
Definition reaches_merge (a : mha_args) (s : shapes) (q k v : tensor F)
    (m : option fb_mask) (kpm : option (tensor bool)) (S : Z) : Prop :=
  ∃ q1 k1 v1 m1 kpm1 k2 v2 m2 kpm2 k3 v3,
    result (shape_setup a) = Ok s
    ∧ result (compute_in_projection a s) = Ok (q1, k1, v1)
    ∧ result (prep_attention_mask a s) = Ok m1
    ∧ result (prep_key_padding_mask (key_padding_mask' s)) = Ok kpm1
    ∧ result (add_bias_kv a s k1 v1 m1 kpm1) = Ok (k2, v2, m2, kpm2)
    ∧ result (reshape_qkv a s q1 k2 v2) = Ok (q, k3, v3)
    ∧ result (add_zero_attention a s k3 v3 m2 kpm2) = Ok (k, v, m, kpm)
    ∧ result (tsize k 1) = Ok S.

(** Whether the weights of a call come back averaged over the heads: when
    that was asked for, and on operands of a Tensor subclass in any case,
    since the call handed on at lines 369-400 leaves [average_attn_weights]
    at its default. *)
Definition averaged (a : mha_args) : bool :=
  has_torch_function a || average_attn_weights a.

(** A tensor that holds as many elements as its shape says. *)
Definition wf_tensor {A} (t : tensor A) : Prop :=
  length (data t) = Z.to_nat (numel t).

(** The shape of an input once promoted: unbatched inputs get a batch
    dimension of one, in second position. *)
Definition promoted_shape (is_batched : bool) (sh : list Z) : list Z :=
  if is_batched then sh else take 1 sh ++ 1 :: drop 1 sh.

(** Lines 409-415 of the engine: unbatched inputs get a batch dimension. *)
Definition promote_unbatched (a : mha_args) (is_batched : bool)
  : M (tensor F * tensor F * tensor F * option padding_mask) :=
  if negb is_batched then
    let* query := call "unsqueeze" (unsqueeze (query a) 1) in
    let* key := call "unsqueeze" (unsqueeze (key a) 1) in
    let* value := call "unsqueeze" (unsqueeze (value a) 1) in
    let* key_padding_mask :=
      match key_padding_mask a with
      | Some m => let* m' := call "unsqueeze" (kpm_unsqueeze m 0) in ret (Some m')
      | None => ret None
      end in
    ret (query, key, value, key_padding_mask)
  else ret (query a, key a, value a, key_padding_mask a).

(** Lines 417-439 of the engine, on the promoted inputs: the shape variables
    and their assertions. *)
Definition shape_variables (a : mha_args) (is_batched : bool)
    (query key value : tensor F) (key_padding_mask : option padding_mask) : M shapes :=
  let* (tgt_len, bsz, embed_dim) := unpack3 (shape query) in
  let* (src_len, _, _) := unpack3 (shape key) in
  assert (embed_dim =? embed_dim_to_check a) "was expecting embedding dimension of embed_dim_to_check" ;;
  let* head_dim := floordiv embed_dim (num_heads a) in
  assert (head_dim * num_heads a =? embed_dim) "embed_dim not divisible by num_heads" ;;
  (if use_separate_proj_weight a then
     assert (shape_eqb (take 2 (shape key)) (take 2 (shape value)))
       "key's sequence and batch dims do not match value's"
   else
     assert (shape_eqb (shape key) (shape value)) "key shape does not match value shape") ;;
  ret {| is_batched := is_batched; query' := query; key' := key; value' := value;
         key_padding_mask' := key_padding_mask; tgt_len := tgt_len; bsz := bsz;
         embed_dim := embed_dim; src_len := src_len; head_dim := head_dim |}.

(** The events the engine can log before it injects the key and value
    biases: the promotion of unbatched inputs, the in-projection, and the
    conversion of byte masks with its warnings. *)
Definition preparation_event (e : event) : Prop :=
  e ∈ [Op "unsqueeze"; Op "_in_projection_packed"; Op "chunk"; Op "_in_projection";
       Op "to";
       Warn "Byte tensor for attn_mask in nn.MultiheadAttention is deprecated. Use bool tensor instead.";
       Warn "Byte tensor for key_padding_mask in nn.MultiheadAttention is deprecated. Use bool tensor instead."].

(** The shape of a query, key or value of [n] positions: batched, or not. *)
Definition input_shape (batched : bool) (n B E : Z) : list Z :=
  if batched then [n; B; E] else [n; E].

(** The source length once the bias position (lines 513-514) and the
    zero-attention position (lines 553-558) are added. *)
Definition biased_src_len (a : mha_args) (S : Z) : Z :=
  if is_some (bias_k a) then S + 1 else S.

Definition extended_src_len (a : mha_args) (S : Z) : Z :=
  if add_zero_attn a then biased_src_len a S + 1 else biased_src_len a S.

(** A mask shape that broadcasts to the scores [N, T, S]. *)
Definition mask_fits (N T S : Z) (sh : list Z) : Prop :=
  sh = [1; T; S] ∨ sh = [N; 1; S] ∨ sh = [N; T; S].

(** A call on the packed projection whose inputs, weights and attention
    mask have the shapes the module documents: query [T, B, E], key and
    value [S, B, E] (without [B] when unbatched), [in_proj_weight] [3E, E],
    [out_proj.weight] [E, E], key and value biases [1, 1, E] (both, or
    none), a two-dimensional attention mask [T, S], no static key or value;
    and a key padding mask of shape [Bk, Sk] ([Sk] when unbatched). *)
Definition shaped_call (a : mha_args) (batched : bool) (T B S E Bk Sk : Z) : Prop :=
  shape (query a) = input_shape batched T B E
  ∧ shape (key a) = input_shape batched S B E
  ∧ shape (value a) = input_shape batched S B E
  ∧ (batched = false → B = 1)
  ∧ 0 <= T ∧ 0 <= B ∧ 0 <= S ∧ 0 < E
  ∧ embed_dim_to_check a = E ∧ 0 < num_heads a ∧ E `mod` num_heads a = 0
  ∧ use_separate_proj_weight a = false
  ∧ (∃ w, in_proj_weight a = Some w ∧ shape w = [3 * E; E])
  ∧ match in_proj_bias a with Some b => shape b = [3 * E] | None => True end
  ∧ shape (out_proj_weight a) = [E; E]
  ∧ match out_proj_bias a with Some b => shape b = [E] | None => True end
  ∧ match bias_k a, bias_v a with
    | Some bk, Some bv => shape bk = [1; 1; E] ∧ shape bv = [1; 1; E]
    | None, None => True
    | _, _ => False
    end
  ∧ static_k a = None ∧ static_v a = None
  ∧ match key_padding_mask a with
    | Some m => kpm_shape m = if batched then [Bk; Sk] else [Sk]
    | None => True
    end
  ∧ match attn_mask a with
    | Some m => supported_mask_dtype m = true ∧ mask_shape m = [T; S]
    | None => True
    end
  ∧ (batched = false → Bk = 1).

(** The same with the key padding mask the module documents: [B, S]. *)
Definition well_shaped_call (a : mha_args) (batched : bool) (T B S E : Z) : Prop :=
  shaped_call a batched T B S E B S.

(** The pluggable functions left at their defaults (lines 350-354). *)
Definition default_functions (a : mha_args) : Prop :=
  kernel_function a = Softmax_kernel
  ∧ attention_function a = _scaled_dot_product_attention
  ∧ attn_masking_function a = attn_masking_value
  ∧ query_key_product a = _scaled_dot_product.

(** Evaluation mode, or a dropout probability that torch's dropout accepts
    (neither below zero nor above one). *)
Definition dropout_accepted (a : mha_args) : Prop :=
  training a = false ∨ fgtb f0 (dropout_p a) || fgtb (dropout_p a) f1 = false.


(** The shape of the attention weights a call returns. *)
Definition weights_shape (batched averaged : bool) (B H T S : Z) : list Z :=
  match batched, averaged with
  | true, true => [B; T; S]
  | true, false => [B; H; T; S]
  | false, true => [T; S]
  | false, false => [H; T; S]
  end.

(** The shape of an input as [forward] takes it: with [batch_first] a
    batched input has its batch dimension first. *)
Definition layout_shape (batch_first batched : bool) (n B E : Z) : list Z :=
  if batch_first && batched then [B; n; E] else input_shape batched n B E.

(** A layer on the packed projection ([kdim = vdim = embed_dim]) whose
    parameters are in the heap with the shapes the constructor gives them. *)
Definition well_shaped_layer (m : @MultiheadAttention F) (h : heap F) : Prop :=
  let E := self_embed_dim m in
  0 < E ∧ 0 < self_num_heads m ∧ E `mod` self_num_heads m = 0
  ∧ self_qkv_same_embed_dim m = true
  ∧ (∃ w, param m h "in_proj_weight" = Some w ∧ shape w = [3 * E; E])
  ∧ match param m h "in_proj_bias" with Some b => shape b = [3 * E] | None => True end
  ∧ (∃ w, param m h "out_proj.weight" = Some w ∧ shape w = [E; E])
  ∧ match param m h "out_proj.bias" with Some b => shape b = [E] | None => True end
  ∧ match param m h "bias_k", param m h "bias_v" with
    | Some bk, Some bv => shape bk = [1; 1; E] ∧ shape bv = [1; 1; E]
    | None, None => True
    | _, _ => False
    end.

(** An adapter whose pluggable functions are the defaults of lines 211-215. *)
Definition default_adapter (self : @CustomizableMultiHead F SF) : Prop :=
  self_kernel_function self = Softmax_kernel
  ∧ self_attention_function self = _scaled_dot_product_attention
  ∧ self_attn_masking_function self = attn_masking_value
  ∧ self_query_key_product self = _scaled_dot_product.

(** The arguments of a call with another [need_weights]. *)
Definition set_need_weights (b : bool) (a : mha_args) : mha_args :=
  {| query := query a; key := key a; value := value a;
     embed_dim_to_check := embed_dim_to_check a; num_heads := num_heads a;
     in_proj_weight := in_proj_weight a; in_proj_bias := in_proj_bias a;
     bias_k := bias_k a; bias_v := bias_v a; add_zero_attn := add_zero_attn a;
     dropout_p := dropout_p a;
     out_proj_weight := out_proj_weight a; out_proj_bias := out_proj_bias a;
     training := training a; key_padding_mask := key_padding_mask a;
     need_weights := b; attn_mask := attn_mask a;
     use_separate_proj_weight := use_separate_proj_weight a;
     q_proj_weight := q_proj_weight a; k_proj_weight := k_proj_weight a;
     v_proj_weight := v_proj_weight a; static_k := static_k a; static_v := static_v a;
     average_attn_weights := average_attn_weights a;
     kernel_function := kernel_function a; attn_mask_value := attn_mask_value a;
     attention_function := attention_function a;
     attn_masking_function := attn_masking_function a;
     query_key_product := query_key_product a;
     has_torch_function := has_torch_function a |}.

(** The arguments of a call with another attention mask. *)
Definition set_attn_mask (m : option mask) (a : mha_args) : mha_args :=
  {| query := query a; key := key a; value := value a;
     embed_dim_to_check := embed_dim_to_check a; num_heads := num_heads a;
     in_proj_weight := in_proj_weight a; in_proj_bias := in_proj_bias a;
     bias_k := bias_k a; bias_v := bias_v a; add_zero_attn := add_zero_attn a;
     dropout_p := dropout_p a;
     out_proj_weight := out_proj_weight a; out_proj_bias := out_proj_bias a;
     training := training a; key_padding_mask := key_padding_mask a;
     need_weights := need_weights a; attn_mask := m;
     use_separate_proj_weight := use_separate_proj_weight a;
     q_proj_weight := q_proj_weight a; k_proj_weight := k_proj_weight a;
     v_proj_weight := v_proj_weight a; static_k := static_k a; static_v := static_v a;
     average_attn_weights := average_attn_weights a;
     kernel_function := kernel_function a; attn_mask_value := attn_mask_value a;
     attention_function := attention_function a;
     attn_masking_function := attn_masking_function a;
     query_key_product := query_key_product a;
     has_torch_function := has_torch_function a |}.

(** A module with another [batch_first]. *)
Definition set_batch_first (b : bool) (m : @MultiheadAttention F) : MultiheadAttention :=
  {| self_embed_dim := self_embed_dim m; self_kdim := self_kdim m;
     self_vdim := self_vdim m;
     self_qkv_same_embed_dim := self_qkv_same_embed_dim m;
     self_num_heads := self_num_heads m; self_dropout := self_dropout m;
     self_batch_first := b; self_head_dim := self_head_dim m;
     self_add_zero_attn := self_add_zero_attn m;
     self_training := self_training m;
     self_params := self_params m |}.

Definition with_batch_first (b : bool) (self : CustomizableMultiHead) : CustomizableMultiHead :=
  {| base := set_batch_first b (base self);
     self_kernel_function := self_kernel_function self;
     self_attn_mask_value := self_attn_mask_value self;
     self_attention_function := self_attention_function self;
     self_attn_masking_function := self_attn_masking_function self;
     self_query_key_product := self_query_key_product self |}.

(** Substitutes for the five pluggable functions: the use the approximator
    is made for. *)
Record customization : Type := {
  c_kernel_function : option (@kernel_fn F);
  c_attn_mask_value : option F;
  c_attention_function : option (@attention_fn F SF);
  c_attn_masking_function : option (@masking_fn F);
  c_query_key_product : option (@product_fn F);
}.

Definition insert_if {A} (name : string) (inj : A → @pyval F SF) (o : option A)
    (ps : gmap string pyval) : gmap string pyval :=
  match o with Some x => <[name := inj x]> ps | None => ps end.

(** The [parameters] dict that holds the substitutes, and nothing else. *)
Definition customization_parameters (c : customization) : gmap string pyval :=
  insert_if "kernel_function" VKernel (c_kernel_function c)
    (insert_if "attn_mask_value" VFloat (c_attn_mask_value c)
       (insert_if "attention_function" VAttention (c_attention_function c)
          (insert_if "attn_masking_function" VMasking (c_attn_masking_function c)
             (insert_if "query_key_product" VProduct (c_query_key_product c) ∅)))).

(** A module under the substitutes, the defaults elsewhere. *)
Definition customized (c : customization) (m : @MultiheadAttention F) : CustomizableMultiHead :=
  {| base := m;
     self_kernel_function := default Softmax_kernel (c_kernel_function c);
     self_attn_mask_value := default f_neg_inf (c_attn_mask_value c);
     self_attention_function :=
       default _scaled_dot_product_attention (c_attention_function c);
     self_attn_masking_function := default attn_masking_value (c_attn_masking_function c);
     self_query_key_product := default _scaled_dot_product (c_query_key_product c) |}.

(** The arguments of a call on other inputs. *)
Definition set_inputs (q k v : tensor F) (kpm : option padding_mask) (a : mha_args)
  : mha_args :=
  {| query := q; key := k; value := v;
     embed_dim_to_check := embed_dim_to_check a; num_heads := num_heads a;
     in_proj_weight := in_proj_weight a; in_proj_bias := in_proj_bias a;
     bias_k := bias_k a; bias_v := bias_v a; add_zero_attn := add_zero_attn a;
     dropout_p := dropout_p a;
     out_proj_weight := out_proj_weight a; out_proj_bias := out_proj_bias a;
     training := training a; key_padding_mask := kpm;
     need_weights := need_weights a; attn_mask := attn_mask a;
     use_separate_proj_weight := use_separate_proj_weight a;
     q_proj_weight := q_proj_weight a; k_proj_weight := k_proj_weight a;
     v_proj_weight := v_proj_weight a; static_k := static_k a; static_v := static_v a;
     average_attn_weights := average_attn_weights a;
     kernel_function := kernel_function a; attn_mask_value := attn_mask_value a;
     attention_function := attention_function a;
     attn_masking_function := attn_masking_function a;
     query_key_product := query_key_product a;
     has_torch_function := has_torch_function a |}.

(** The shape variables of a call, taken as batched or not. *)
Definition set_is_batched (b : bool) (s : @shapes F) : shapes :=
  {| is_batched := b; query' := query' s; key' := key' s; value' := value' s;
     key_padding_mask' := key_padding_mask' s; tgt_len := tgt_len s; bsz := bsz s;
     embed_dim := embed_dim s; src_len := src_len s; head_dim := head_dim s |}.

(** The prepared tensors of a call, taken as batched or not. *)
Definition set_prepared_batched (b : bool) (p : @prepared F) : prepared :=
  {| p_shapes := set_is_batched b (p_shapes p); p_q := p_q p; p_k := p_k p; p_v := p_v p;
     p_attn_mask := p_attn_mask p; p_src_len := p_src_len p |}.

(** The squeezes of lines 618-621 and 624-626: what the engine does to the
    output and the weights of an unbatched call. *)
Definition squeeze_results (r : tensor F * option (tensor F) * rng)
  : M (tensor F * option (tensor F) * rng) :=
  let '(attn_output, attn_output_weights, g) := r in
  let* attn_output := call "squeeze" (squeeze attn_output 1) in
  match attn_output_weights with
  | Some w =>
      let* w := call "squeeze" (squeeze w 0) in
      ret (attn_output, Some w, g)
  | None => ret (attn_output, None, g)
  end.

(** A key padding mask as a boolean one: a byte mask is the boolean mask of
    its non-zero entries. *)
Definition kpm_as_bool (m : padding_mask) : padding_mask :=
  match m with
  | KByte t => KBool (to_bool t)
  | KBool t => KBool t
  end.

(** The shape variables of a call, with its key padding mask as a boolean
    one. *)
Definition set_boolean_padding (s : @shapes F) : shapes :=
  {| is_batched := is_batched s; query' := query' s; key' := key' s; value' := value' s;
     key_padding_mask' := kpm_as_bool <$> key_padding_mask' s;
     tgt_len := tgt_len s; bsz := bsz s;
     embed_dim := embed_dim s; src_len := src_len s; head_dim := head_dim s |}.

End Notions.

(** ** The scalars as binary64 floats

    An instance for running the definitions: IEEE 754 binary64 arithmetic,
    sums from left to right, [exp] by argument halving and a truncated power
    series, and a linear congruential generator for dropout. *)
Module Float64.

Definition of_Z (z : Z) : float :=
  match z with
  | Z0 => 0%float
  | Zpos _ => PrimFloat.of_uint63 (Uint63.of_Z z)
  | Zneg _ => PrimFloat.opp (PrimFloat.of_uint63 (Uint63.of_Z (- z)))
  end.

Definition sum (l : list float) : float := fold_left PrimFloat.add l 0%float.

Definition maxl (l : list float) : float :=
  fold_left (fun a b => if PrimFloat.ltb a b then b else a) l neg_infinity.

Fixpoint series (n : nat) (x term acc : float) (k : float) : float :=
  match n with
  | O => acc
  | S n' =>
      let term' := PrimFloat.div (PrimFloat.mul term x) k in
      series n' x term' (PrimFloat.add acc term') (PrimFloat.add k 1%float)
  end.

Fixpoint square_n (n : nat) (y : float) : float :=
  match n with
  | O => y
  | S n' => square_n n' (PrimFloat.mul y y)
  end.

Definition exp (x : float) : float :=
  if PrimFloat.eqb x neg_infinity then 0%float
  else if PrimFloat.eqb x infinity then infinity
  else square_n 10 (series 16 (PrimFloat.div x 1024%float) 1%float 1%float 1%float).

Definition lcg (s : Z) : Z := (s * 1103515245 + 12345) `mod` 2147483648.

Fixpoint keep_bits (n : nat) (s : Z) (p : float) : list bool * Z :=
  match n with
  | O => ([], s)
  | S n' =>
      let s' := lcg s in
      let u := PrimFloat.div (of_Z s') 2147483648%float in
      let '(l, s'') := keep_bits n' s' p in
      (PrimFloat.leb p u :: l, s'')
  end.

Fixpoint uniform_values (n : nat) (s : Z) : list float * Z :=
  match n with
  | O => ([], s)
  | S n' =>
      let s' := lcg s in
      let u := PrimFloat.div (of_Z s') 2147483648%float in
      let '(l, s'') := uniform_values n' s' in
      (PrimFloat.sub u 0.5%float :: l, s'')
  end.

#[global] Instance scalar : Scalar float := {|
  f0 := 0%float;
  f1 := 1%float;
  f_neg_inf := neg_infinity;
  f_of_Z := of_Z;
  fadd := PrimFloat.add;
  fsub := PrimFloat.sub;
  fmul := PrimFloat.mul;
  fdiv := PrimFloat.div;
  fsqrt := PrimFloat.sqrt;
  fexp := exp;
  fsum := sum;
  fmaxl := maxl;
  fgtb := fun a b => PrimFloat.ltb b a;
  fgtb_irrefl_0 := eq_refl;
  rng := Z;
  bernoulli_keep := fun g p n => keep_bits n g p;
  random_fill := fun g n => uniform_values n g;
|}.

End Float64.

(** ** Concrete inputs *)

Definition eye (n : Z) : tensor float :=
  tabulate [n; n] (fun idx => if idx !!! 0%nat =? idx !!! 1%nat then 1%float else 0%float).

Definition iota (sh : list Z) : tensor float :=
  mkT sh (Float64.of_Z <$> seqZ 0 (prod_list sh)).

Definition packed_identity (n : Z) : tensor float :=
  mkT [3 * n; n] (data (eye n) ++ data (eye n) ++ data (eye n)).

(** embed_dim 4, two heads, three positions, a batch of one. *)
Definition example_args : mha_args := {|
  query := iota [3; 1; 4]; key := iota [3; 1; 4]; value := iota [3; 1; 4];
  embed_dim_to_check := 4; num_heads := 2;
  in_proj_weight := Some (packed_identity 4); in_proj_bias := None;
  bias_k := None; bias_v := None; add_zero_attn := false; dropout_p := 0%float;
  out_proj_weight := eye 4; out_proj_bias := None;
  training := false; key_padding_mask := None; need_weights := true; attn_mask := None;
  use_separate_proj_weight := false;
  q_proj_weight := None; k_proj_weight := None; v_proj_weight := None;
  static_k := None; static_v := None; average_attn_weights := true;
  kernel_function := Softmax_kernel; attn_mask_value := neg_infinity;
  attention_function := _scaled_dot_product_attention;
  attn_masking_function := attn_masking_value;
  query_key_product := _scaled_dot_product;
  has_torch_function := false |}.

(** The same call asking for the weights of each head, on plain tensors. *)
Definition per_head_args : mha_args := {|
  query := iota [3; 1; 4]; key := iota [3; 1; 4]; value := iota [3; 1; 4];
  embed_dim_to_check := 4; num_heads := 2;
  in_proj_weight := Some (packed_identity 4); in_proj_bias := None;
  bias_k := None; bias_v := None; add_zero_attn := false; dropout_p := 0%float;
  out_proj_weight := eye 4; out_proj_bias := None;
  training := false; key_padding_mask := None; need_weights := true; attn_mask := None;
  use_separate_proj_weight := false;
  q_proj_weight := None; k_proj_weight := None; v_proj_weight := None;
  static_k := None; static_v := None; average_attn_weights := false;
  kernel_function := Softmax_kernel; attn_mask_value := neg_infinity;
  attention_function := _scaled_dot_product_attention;
  attn_masking_function := attn_masking_value;
  query_key_product := _scaled_dot_product;
  has_torch_function := false |}.

(** And on a query, key and value of a Tensor subclass. *)
Definition per_head_subclass_args : mha_args := {|
  query := iota [3; 1; 4]; key := iota [3; 1; 4]; value := iota [3; 1; 4];
  embed_dim_to_check := 4; num_heads := 2;
  in_proj_weight := Some (packed_identity 4); in_proj_bias := None;
  bias_k := None; bias_v := None; add_zero_attn := false; dropout_p := 0%float;
  out_proj_weight := eye 4; out_proj_bias := None;
  training := false; key_padding_mask := None; need_weights := true; attn_mask := None;
  use_separate_proj_weight := false;
  q_proj_weight := None; k_proj_weight := None; v_proj_weight := None;
  static_k := None; static_v := None; average_attn_weights := false;
  kernel_function := Softmax_kernel; attn_mask_value := neg_infinity;
  attention_function := _scaled_dot_product_attention;
  attn_masking_function := attn_masking_value;
  query_key_product := _scaled_dot_product;
  has_torch_function := true |}.

(** The scenario: tgt_len 3, src_len 3, and a mask of shape [4, 3]. *)
Definition wrong_mask_args : mha_args := {|
  query := iota [3; 1; 4]; key := iota [3; 1; 4]; value := iota [3; 1; 4];
  embed_dim_to_check := 4; num_heads := 2;
  in_proj_weight := Some (packed_identity 4); in_proj_bias := None;
  bias_k := None; bias_v := None; add_zero_attn := false; dropout_p := 0%float;
  out_proj_weight := eye 4; out_proj_bias := None;
  training := false; key_padding_mask := None; need_weights := true;
  attn_mask := Some (MFloat (full [4; 3] 0%float));
  use_separate_proj_weight := false;
  q_proj_weight := None; k_proj_weight := None; v_proj_weight := None;
  static_k := None; static_v := None; average_attn_weights := true;
  kernel_function := Softmax_kernel; attn_mask_value := neg_infinity;
  attention_function := _scaled_dot_product_attention;
  attn_masking_function := attn_masking_value;
  query_key_product := _scaled_dot_product;
  has_torch_function := false |}.

(** embed_dim 4 with three heads. *)
Definition indivisible_args : mha_args := {|
  query := iota [3; 1; 4]; key := iota [3; 1; 4]; value := iota [3; 1; 4];
  embed_dim_to_check := 4; num_heads := 3;
  in_proj_weight := Some (packed_identity 4); in_proj_bias := None;
  bias_k := None; bias_v := None; add_zero_attn := false; dropout_p := 0%float;
  out_proj_weight := eye 4; out_proj_bias := None;
  training := false; key_padding_mask := None; need_weights := true; attn_mask := None;
  use_separate_proj_weight := false;
  q_proj_weight := None; k_proj_weight := None; v_proj_weight := None;
  static_k := None; static_v := None; average_attn_weights := true;
  kernel_function := Softmax_kernel; attn_mask_value := neg_infinity;
  attention_function := _scaled_dot_product_attention;
  attn_masking_function := attn_masking_value;
  query_key_product := _scaled_dot_product;
  has_torch_function := false |}.

Definition attn_masking_example_heap : gmap positive (tensor float) :=
  <[2%positive := mkT [1; 2] [10%float; 20%float]]>
    {[ 1%positive := mkT [2; 2] [1%float; 2%float; 3%float; 4%float] ]}.

(** An [nn.MultiheadAttention] layer: embed_dim 4, two heads, no bias,
    dropout 0.5, in evaluation mode; its two parameters are objects 1 and 2. *)
Definition example_layer : MultiheadAttention := {|
  self_embed_dim := 4; self_kdim := 4; self_vdim := 4; self_qkv_same_embed_dim := true;
  self_num_heads := 2; self_dropout := 0.5%float; self_batch_first := false;
  self_head_dim := 2; self_add_zero_attn := false; self_training := false;
  self_params := <["out_proj.weight" := 2%positive]> {[ "in_proj_weight" := 1%positive ]} |}.

Definition example_heap : gmap positive (tensor float) :=
  <[2%positive := eye 4]> {[ 1%positive := packed_identity 4 ]}.

(** A second layer: embed_dim 6, three heads, batch first. *)
Definition other_layer : MultiheadAttention := {|
  self_embed_dim := 6; self_kdim := 6; self_vdim := 6; self_qkv_same_embed_dim := true;
  self_num_heads := 3; self_dropout := 0%float; self_batch_first := true;
  self_head_dim := 2; self_add_zero_attn := false; self_training := false;
  self_params := <["out_proj.weight" := 4%positive]> {[ "in_proj_weight" := 3%positive ]} |}.

(** A polynomial kernel: the element-wise square. *)
Definition square_kernel : @kernel_fn float := fun t =>
  call "square" (Ok (mkT (shape t) ((fun x => PrimFloat.mul x x) <$> data t))).

(** A call of the engine on identity projections, in evaluation mode:
    [embed_dim] and [num_heads] as given, the weights asked for and
    averaged. *)
Definition call_args (query key value : tensor float) (E H : Z)
    (bias_k bias_v : option (tensor float)) (add_zero_attn : bool)
    (key_padding_mask : option padding_mask) (attn_mask : option mask) : mha_args := {|
  query := query; key := key; value := value;
  embed_dim_to_check := E; num_heads := H;
  in_proj_weight := Some (packed_identity E); in_proj_bias := None;
  bias_k := bias_k; bias_v := bias_v; add_zero_attn := add_zero_attn;
  dropout_p := 0%float;
  out_proj_weight := eye E; out_proj_bias := None;
  training := false; key_padding_mask := key_padding_mask; need_weights := true;
  attn_mask := attn_mask;
  use_separate_proj_weight := false;
  q_proj_weight := None; k_proj_weight := None; v_proj_weight := None;
  static_k := None; static_v := None; average_attn_weights := true;
  kernel_function := Softmax_kernel; attn_mask_value := neg_infinity;
  attention_function := _scaled_dot_product_attention;
  attn_masking_function := attn_masking_value;
  query_key_product := _scaled_dot_product;
  has_torch_function := false |}.

(** Three target positions, two source positions, a batch of two. *)
Definition masked_call : mha_args :=
  call_args (iota [3; 2; 4]) (iota [2; 2; 4]) (iota [2; 2; 4]) 4 2
    (Some (iota [1; 1; 4])) (Some (iota [1; 1; 4])) true
    (Some (KBool (mkT [2; 2] [false; true; false; false])))
    (Some (MByte (mkT [3; 2] [0; 1; 0; 0; 1; 0]))).

(** An unbatched call. *)
Definition unbatched_call : mha_args :=
  call_args (iota [3; 4]) (iota [2; 4]) (iota [2; 4]) 4 2 None None false
    (Some (KByte (mkT [2] [0; 1]))) None.

(** An attention mask of 64-bit integers. *)
Definition int64_mask_call : mha_args :=
  call_args (iota [3; 1; 4]) (iota [3; 1; 4]) (iota [3; 1; 4]) 4 2 None None false None
    (Some (MOther "int64" (mkT [3; 3] [0; 0; 0; 0; 0; 0; 0; 0; 0]))).

(** A three-dimensional mask for one row, with two heads. *)
Definition wrong_3d_mask_call : mha_args :=
  call_args (iota [3; 1; 4]) (iota [3; 1; 4]) (iota [3; 1; 4]) 4 2 None None false None
    (Some (MFloat (full [1; 3; 3] 0%float))).

(** The shape variables of a batch of one with embed_dim 4 and two heads. *)
Definition example_shapes : shapes := {|
  is_batched := true;
  query' := iota [3; 1; 4]; key' := iota [3; 1; 4]; value' := iota [3; 1; 4];
  key_padding_mask' := None;
  tgt_len := 3; bsz := 1; embed_dim := 4; src_len := 3; head_dim := 2 |}.

(** The same layer, batch first. *)
Definition example_layer_batch_first : MultiheadAttention :=
  set_batch_first true example_layer.

(** A model with one attention layer, not yet approximated. *)
Definition example_model : gmap string (@child_module float) :=
  {[ "self_attn" := {| child_object := {| module_id := 5;
                                          module_class := cls_MultiheadAttention |};
                       child_layer := example_layer |} ]}.

(** A key padding mask one position longer than the keys. *)
Definition long_padding_mask_call : mha_args :=
  call_args (iota [3; 2; 4]) (iota [2; 2; 4]) (iota [2; 2; 4]) 4 2 None None false
    (Some (KBool (mkT [2; 3] [false; false; true; false; false; false]))) None.

(** A call on separate projection weights, the key's missing. *)
Definition separate_projection_call : mha_args :=
  {| query := iota [3; 1; 4]; key := iota [3; 1; 4]; value := iota [3; 1; 4];
     embed_dim_to_check := 4; num_heads := 2;
     in_proj_weight := None; in_proj_bias := None;
     bias_k := None; bias_v := None; add_zero_attn := false;
     dropout_p := 0%float;
     out_proj_weight := eye 4; out_proj_bias := None;
     training := false; key_padding_mask := None; need_weights := true;
     attn_mask := None;
     use_separate_proj_weight := true;
     q_proj_weight := Some (eye 4); k_proj_weight := None; v_proj_weight := Some (eye 4);
     static_k := None; static_v := None; average_attn_weights := true;
     kernel_function := Softmax_kernel; attn_mask_value := neg_infinity;
     attention_function := _scaled_dot_product_attention;
     attn_masking_function := attn_masking_value;
     query_key_product := _scaled_dot_product;
  has_torch_function := false |}.

(** A call in training mode with a dropout rate of 1.5. *)
Definition training_call : mha_args :=
  {| query := iota [3; 2; 4]; key := iota [2; 2; 4]; value := iota [2; 2; 4];
     embed_dim_to_check := 4; num_heads := 2;
     in_proj_weight := Some (packed_identity 4); in_proj_bias := None;
     bias_k := None; bias_v := None; add_zero_attn := false;
     dropout_p := 1.5%float;
     out_proj_weight := eye 4; out_proj_bias := None;
     training := true; key_padding_mask := None; need_weights := true;
     attn_mask := None;
     use_separate_proj_weight := false;
     q_proj_weight := None; k_proj_weight := None; v_proj_weight := None;
     static_k := None; static_v := None; average_attn_weights := true;
     kernel_function := Softmax_kernel; attn_mask_value := neg_infinity;
     attention_function := _scaled_dot_product_attention;
     attn_masking_function := attn_masking_value;
     query_key_product := _scaled_dot_product;
  has_torch_function := false |}.

(** * Properties *)

(** ** Indexing *)

Lemma in_range_cons (d i : Z) (sh idx : list Z) :
  in_range (d :: sh) (i :: idx) = true ↔ 0 <= i < d ∧ in_range sh idx = true.
Proof.
  simpl. rewrite !andb_true_iff, Z.leb_le, Z.ltb_lt. tauto.
Qed.

Lemma in_range_length (sh idx : list Z) :
  in_range sh idx = true → length idx = length sh.
Proof.
  revert idx. induction sh as [|d sh IH]; intros [|i idx] Hr; simpl in *; try done.
  apply andb_true_iff in Hr as [_ Hr]. f_equal. by apply IH.
Qed.

Lemma ravel_bounds (sh idx : list Z) :
  in_range sh idx = true → 0 <= ravel sh idx < prod_list sh.
Proof.
  revert idx. induction sh as [|d sh IH]; intros [|i idx] Hr; try discriminate.
  - simpl. lia.
  - apply in_range_cons in Hr as [Hi Hr]. specialize (IH _ Hr). simpl. nia.
Qed.

Lemma unravel_ravel (sh idx : list Z) :
  in_range sh idx = true → unravel sh (ravel sh idx) = idx.
Proof.
  revert idx. induction sh as [|d sh IH]; intros [|i idx] Hr; try discriminate.
  - done.
  - apply in_range_cons in Hr as [Hi Hr].
    pose proof (ravel_bounds _ _ Hr) as Hb. simpl.
    assert (Hq : (i * prod_list sh + ravel sh idx) `div` prod_list sh = i).
    { symmetry. apply (Z.div_unique_pos _ _ i (ravel sh idx)); lia. }
    assert (Hm : (i * prod_list sh + ravel sh idx) `mod` prod_list sh = ravel sh idx).
    { symmetry. apply (Z.mod_unique_pos _ _ i (ravel sh idx)); lia. }
    rewrite Hq, Hm, IH; done.
Qed.

Lemma lookup_tabulate {A} (sh : list Z) (f : list Z → A) (n : Z) :
  0 <= n < prod_list sh →
  data (tabulate sh f) !! Z.to_nat n = Some (f (unravel sh n)).
Proof.
  intros Hn. unfold tabulate. simpl. rewrite list_lookup_fmap.
  assert (Hs : seqZ 0 (prod_list sh) !! Z.to_nat n = Some n).
  { apply lookup_seqZ. lia. }
  by rewrite Hs.
Qed.

Lemma tget_tabulate {A} (sh idx : list Z) (f : list Z → A) :
  in_range sh idx = true → tget (tabulate sh f) idx = Some (f idx).
Proof.
  intros Hr. unfold tget. change (shape (tabulate sh f)) with sh. rewrite Hr.
  rewrite lookup_tabulate by (by apply ravel_bounds).
  by rewrite unravel_ravel.
Qed.

Lemma tget_in_range {A} (t : tensor A) (idx : list Z) (x : A) :
  tget t idx = Some x → in_range (shape t) idx = true.
Proof. unfold tget. by destruct (in_range (shape t) idx). Qed.

Lemma tnth_tget {A} `{Inhabited A} (t : tensor A) (idx : list Z) (x : A) :
  tget t idx = Some x → tnth t idx = x.
Proof.
  unfold tget, tnth. destruct (in_range (shape t) idx); [|done].
  intros Hl. by rewrite list_lookup_total_alt, Hl.
Qed.

Lemma bidx_in_range (sh idx : list Z) :
  in_range sh idx = true → bidx sh idx = idx.
Proof.
  revert idx. induction sh as [|d sh IH]; intros [|i idx] Hr; try discriminate.
  - done.
  - apply in_range_cons in Hr as [Hi Hr]. simpl. rewrite IH by done.
    destruct (Z.eqb_spec d 1); [f_equal; lia | done].
Qed.

Lemma bnth_full_rank {A} `{Inhabited A} (t : tensor A) (idx : list Z) :
  in_range (shape t) idx = true → bnth t idx = tnth t idx.
Proof.
  intros Hr. unfold bnth. rewrite (in_range_length _ _ Hr), Nat.sub_diag. simpl.
  by rewrite bidx_in_range.
Qed.

(** ** Kernel primitives *)

Section KernelPrimitives.

Context {F : Type} {SF : Scalar F}.

#[local] Existing Instance F_inhabited.

Lemma shape_eqb_refl (sh : list Z) : shape_eqb sh sh = true.
Proof. unfold shape_eqb. by apply bool_decide_eq_true. Qed.

Lemma shape_eqb_eq (s1 s2 : list Z) : shape_eqb s1 s2 = true ↔ s1 = s2.
Proof. unfold shape_eqb. apply bool_decide_eq_true. Qed.

(** The in-place sum, element by element. *)
Lemma map2_inplace_elements {A B} `{Inhabited A} `{Inhabited B}
    (f : A → B → A) (a : tensor A) (b : tensor B) :
  broadcast_shapes (shape a) (shape b) = Some (shape a) →
  ∃ a', map2_inplace f a b = Ok a' ∧ shape a' = shape a ∧
        ∀ idx x, tget a idx = Some x → tget a' idx = Some (f x (bnth b idx)).
Proof.
  intros Hb. unfold map2_inplace. rewrite Hb, shape_eqb_refl.
  eexists. split; [done|]. split; [done|].
  intros idx x Hx. pose proof (tget_in_range _ _ _ Hx) as Hr.
  rewrite tget_tabulate by done.
  by rewrite bnth_full_rank, (tnth_tget _ _ _ Hx).
Qed.

(** C10. The default masking function, on objects: without a mask it
    returns the scores object and leaves the heap as it is; with a mask
    (that broadcasts to the scores) it returns the very same scores object,
    which now holds the element-wise sum of the scores and the mask, every
    other object being untouched; and in either case the fill value plays no
    part in the outcome. *)
Theorem attn_masking_in_place (attn : ref) (attn_mask : option ref)
    (attn_mask_value : F) (h : heap F) :
  (attn_mask = None →
     _attn_masking attn attn_mask attn_mask_value h = (Ok (attn, h), []))
  ∧ (∀ (m : ref) (a mk : tensor F),
       attn_mask = Some m → h !! attn = Some a → h !! m = Some mk →
       broadcast_shapes (shape a) (shape mk) = Some (shape a) →
       ∃ a', result (_attn_masking attn attn_mask attn_mask_value h)
               = Ok (attn, <[attn := a']> h)
             ∧ shape a' = shape a
             ∧ (∀ idx x, tget a idx = Some x →
                         tget a' idx = Some (fadd x (bnth mk idx)))
             ∧ (∀ r, r ≠ attn → (<[attn := a']> h) !! r = h !! r))
  ∧ (∀ v' : F, _attn_masking attn attn_mask v' h
               = _attn_masking attn attn_mask attn_mask_value h).
Proof.
  split; [|split].
  - by intros ->.
  - intros m a mk -> Ha Hm Hb.
    destruct (map2_inplace_elements fadd a mk Hb) as (a' & Hadd & Hsh & Hel).
    exists a'. unfold _attn_masking, deref. rewrite Ha, Hm. simpl.
    unfold call. rewrite Hadd. simpl.
    repeat split; [done | done |].
    intros r Hr. by rewrite lookup_insert_ne.
  - intros v'. by destruct attn_mask.
Qed.

End KernelPrimitives.

Lemma attn_masking_in_place_witness :
  ∃ a', result (_attn_masking 1%positive (Some 2%positive) neg_infinity
                  attn_masking_example_heap)
          = Ok (1%positive, <[1%positive := a']> attn_masking_example_heap)
        ∧ shape a' = [2; 2]
        ∧ tget a' [1; 0] = Some 13%float.
Proof.
  destruct (proj1 (proj2 (attn_masking_in_place 1%positive (Some 2%positive)
                            neg_infinity attn_masking_example_heap))
              2%positive
              (mkT [2; 2] [1%float; 2%float; 3%float; 4%float])
              (mkT [1; 2] [10%float; 20%float])
              eq_refl eq_refl eq_refl eq_refl)
    as (a' & Hres & Hsh & Hel & _).
  exists a'. split; [exact Hres|]. split; [exact Hsh|].
  exact (Hel [1; 0] 3%float eq_refl).
Defined.

(** ** Views, expansion and broadcasting *)

Lemma infer_shape_exact (n : Z) (sh : list Z) :
  Forall (fun d => 0 <= d) sh → prod_list sh = n → infer_shape n sh = Ok sh.
Proof.
  intros Hnn Hp. unfold infer_shape.
  assert (He : existsb (fun d => d <? -1) sh = false).
  { apply not_true_is_false. intros He. apply existsb_exists in He as (d & Hin & Hd).
    rewrite Forall_forall in Hnn. apply list_elem_of_In, Hnn in Hin. lia. }
  assert (Hf : filter (fun d => d = -1) sh = []).
  { clear -Hnn. induction Hnn as [|d sh Hd _ IH]; [done|].
    rewrite filter_cons. destruct (decide (d = -1)); [lia | done]. }
  rewrite He, Hf. simpl. by rewrite Hp, Z.eqb_refl.
Qed.

Lemma view_exact {A} (t : tensor A) (sh : list Z) :
  Forall (fun d => 0 <= d) sh → prod_list sh = numel t →
  view t sh = Ok (mkT sh (data t)).
Proof. intros Hnn Hp. unfold view. by rewrite infer_shape_exact. Qed.

Lemma broadcast_mask_shapes (B0 N T S : Z) :
  B0 = 1 ∨ B0 = N → broadcast_shapes [B0; T; S] [N; 1; S] = Some [N; T; S].
Proof.
  intros HB. unfold broadcast_shapes. cbn.
  rewrite Z.eqb_refl. cbn.
  destruct (Z.eqb_spec T 1) as [->|_]; cbn.
  - destruct (Z.eqb_spec B0 N) as [->|Hne]; cbn; [done|].
    destruct HB as [->|?]; [|done]. by rewrite Z.eqb_refl.
  - destruct (Z.eqb_spec B0 N) as [->|Hne]; cbn; [done|].
    destruct HB as [->|?]; [|done]. by rewrite Z.eqb_refl.
Qed.

Lemma bidx_mask (B0 T S i t s : Z) :
  0 <= t < T → 0 <= s < S →
  bidx [B0; T; S] [i; t; s] = [if B0 =? 1 then 0 else i; t; s].
Proof.
  intros Ht Hs. simpl.
  destruct (Z.eqb_spec T 1), (Z.eqb_spec S 1); repeat f_equal; lia.
Qed.

Lemma bidx_padding (N S i t s : Z) :
  0 <= i < N → 0 <= s < S → bidx [N; 1; S] [i; t; s] = [i; 0; s].
Proof.
  intros Hi Hs. simpl.
  destruct (Z.eqb_spec N 1), (Z.eqb_spec S 1); repeat f_equal; lia.
Qed.

Lemma in_range_3 (a b c i j k : Z) :
  0 <= i < a → 0 <= j < b → 0 <= k < c → in_range [a; b; c] [i; j; k] = true.
Proof.
  intros. simpl. repeat (apply andb_true_iff; split); try done; lia.
Qed.

Lemma in_range_4 (a b c d i j k l : Z) :
  0 <= i < a → 0 <= j < b → 0 <= k < c → 0 <= l < d →
  in_range [a; b; c; d] [i; j; k; l] = true.
Proof.
  intros. simpl. repeat (apply andb_true_iff; split); try done; lia.
Qed.

Lemma in_range_2_inv (a b i j : Z) :
  in_range [a; b] [i; j] = true → 0 <= i < a ∧ 0 <= j < b.
Proof.
  simpl. rewrite !andb_true_iff, !Z.leb_le, !Z.ltb_lt. tauto.
Qed.

Lemma in_range_3_inv (a b c i j k : Z) :
  in_range [a; b; c] [i; j; k] = true → 0 <= i < a ∧ 0 <= j < b ∧ 0 <= k < c.
Proof.
  simpl. rewrite !andb_true_iff, !Z.leb_le, !Z.ltb_lt. tauto.
Qed.

(** The row of head [h] of batch item [b], among [bsz * H] rows. *)
Lemma head_row_bounds (b h bsz H : Z) :
  0 <= b < bsz → 0 <= h < H → 0 <= b * H + h < bsz * H.
Proof. nia. Qed.

Section Masks.

Context {F : Type} {SF : Scalar F}.

#[local] Existing Instance F_inhabited.

(** The padding mask, once per head (lines 573-577). *)
Lemma expand_key_padding_mask_spec (kpm : tensor bool) (bsz H S : Z) :
  shape kpm = [bsz; S] → 0 <= bsz → 0 <= H → 0 <= S →
  ∃ e : tensor bool,
    result (expand_key_padding_mask kpm bsz H S) = Ok e
    ∧ shape e = [bsz * H; 1; S]
    ∧ ∀ b h s p, 0 <= b < bsz → 0 <= h < H → tget kpm [b; s] = Some p →
                 tget e [b * H + h; 0; s] = Some p.
Proof.
  intros Hsh Hb HH HS.
  set (m4 := mkT [bsz; 1; 1; S] (data kpm)).
  set (m5 := tabulate [bsz; H; 1; S] (fun idx => bnth m4 idx)).
  exists (mkT [bsz * H; 1; S] (data m5)).
  assert (Hv1 : view kpm [bsz; 1; 1; S] = Ok m4).
  { apply view_exact.
    - repeat constructor; lia.
    - unfold numel. rewrite Hsh. simpl. lia. }
  assert (He : expand m4 [-1; H; -1; -1] = Ok m5).
  { unfold expand. simpl.
    destruct (Z.eqb_spec H (-1)); [lia|]. simpl.
    destruct (Z.eqb_spec H 1) as [->|_]; simpl; [done|].
    destruct (Z.leb_spec 0 H); [done | lia]. }
  assert (Hv2 : view m5 [bsz * H; 1; S] = Ok (mkT [bsz * H; 1; S] (data m5))).
  { apply view_exact.
    - repeat constructor; nia.
    - unfold numel. simpl. lia. }
  split; [|split].
  - unfold expand_key_padding_mask, call. rewrite Hv1. simpl. rewrite He. simpl.
    by rewrite Hv2.
  - done.
  - intros b h s p Hbr Hhr Hp.
    pose proof (tget_in_range _ _ _ Hp) as Hr. rewrite Hsh in Hr.
    apply in_range_2_inv in Hr as [_ Hs].
    pose proof (head_row_bounds b h bsz H Hbr Hhr) as Hrow.
    assert (Hr4 : in_range [bsz; H; 1; S] [b; h; 0; s] = true)
      by (apply in_range_4; lia).
    unfold tget. simpl shape. rewrite in_range_3 by lia.
    replace (ravel [bsz * H; 1; S] [b * H + h; 0; s])
      with (ravel [bsz; H; 1; S] [b; h; 0; s]) by (simpl; ring).
    cbn [data]. unfold m5. rewrite lookup_tabulate by (by apply ravel_bounds).
    rewrite unravel_ravel by done. f_equal.
    unfold bnth. simpl.
    apply tnth_tget. unfold tget. simpl shape.
    replace (if bsz =? 1 then 0 else b) with b by (destruct (Z.eqb_spec bsz 1); lia).
    replace (if S =? 1 then 0 else s) with s by (destruct (Z.eqb_spec S 1); lia).
    rewrite in_range_4 by lia.
    unfold tget in Hp. rewrite Hsh in Hp. simpl in Hp.
    revert Hp. destruct (_ && _); [|done]. intros <-. simpl. f_equal. f_equal. ring.
Qed.

Lemma map2_broadcast_elements {A B C} `{Inhabited A} `{Inhabited B}
    (f : A → B → C) (a : tensor A) (b : tensor B) (sh : list Z) :
  broadcast_shapes (shape a) (shape b) = Some sh →
  ∃ c, map2_broadcast f a b = Ok c ∧ shape c = sh ∧
       ∀ idx, in_range sh idx = true → tget c idx = Some (f (bnth a idx) (bnth b idx)).
Proof.
  intros Hb. unfold map2_broadcast. rewrite Hb.
  eexists. split; [done|]. split; [done|].
  intros idx Hr. by rewrite tget_tabulate.
Qed.

(** An attention mask [m] of shape [B0, T, S] (with [B0] one or the number
    of rows) combined with the expanded padding mask [e]: element
    [(b * H + h, t, s)] of the result is [f] of the mask's element there and
    of the padding mask's element [(b, s)]. *)
Lemma combine_with_padding {A} {IA : Inhabited A} (f : A → bool → A)
    (m : tensor A) (e kpm : tensor bool) (bsz H B0 T S : Z) :
  shape m = [B0; T; S] → B0 = 1 ∨ B0 = bsz * H →
  shape e = [bsz * H; 1; S] →
  (∀ b h s p, 0 <= b < bsz → 0 <= h < H → tget kpm [b; s] = Some p →
              tget e [b * H + h; 0; s] = Some p) →
  ∃ m', map2_broadcast f m e = Ok m'
        ∧ shape m' = [bsz * H; T; S]
        ∧ ∀ b h t s p x,
            0 <= b < bsz → 0 <= h < H →
            tget kpm [b; s] = Some p →
            tget m [if B0 =? 1 then 0 else b * H + h; t; s] = Some x →
            tget m' [b * H + h; t; s] = Some (f x p).
Proof.
  intros Hm HB He Hel.
  destruct (map2_broadcast_elements f m e [bsz * H; T; S]) as (m' & Hok & Hsh & Hget).
  { rewrite Hm, He. by apply broadcast_mask_shapes. }
  exists m'. split; [done|]. split; [done|].
  intros b h t s p x Hb Hh Hp Hx.
  pose proof (head_row_bounds b h bsz H Hb Hh) as Hrow.
  pose proof (tget_in_range _ _ _ Hx) as Hr. rewrite Hm in Hr.
  apply in_range_3_inv in Hr as (_ & Ht & Hs).
  rewrite Hget by (apply in_range_3; lia). f_equal.
  unfold bnth. rewrite Hm, He. cbn [length drop Nat.sub].
  rewrite bidx_mask, bidx_padding by lia.
  rewrite (tnth_tget _ _ _ Hx).
  by rewrite (tnth_tget _ _ _ (Hel b h s p Hb Hh Hp)).
Qed.

(** The merge of lines 567-583 on its own: the padding mask is expanded,
    row [b * num_heads + h] repeating row [b]; without an attention mask the
    expanded mask becomes the attention mask; a boolean attention mask is
    or-ed with it; a floating attention mask is set to the fill value where
    the padding mask is set. *)
Lemma merge_masks_elements (kpm : tensor bool) (attn_mask : option fb_mask)
    (bsz H S T B0 : Z) (attn_mask_value : F) :
  shape kpm = [bsz; S] → 0 <= bsz → 0 <= H → 0 <= S →
  match attn_mask with
  | Some m => fb_shape m = [B0; T; S] ∧ (B0 = 1 ∨ B0 = bsz * H)
  | None => True
  end →
  ∃ e : tensor bool,
    result (expand_key_padding_mask kpm bsz H S) = Ok e
    ∧ shape e = [bsz * H; 1; S]
    ∧ (∀ b h s p, 0 <= b < bsz → 0 <= h < H → tget kpm [b; s] = Some p →
                  tget e [b * H + h; 0; s] = Some p)
    ∧ match attn_mask with
      | None =>
          result (merge_masks (Some kpm) None bsz H S attn_mask_value)
          = Ok (Some (BMask e))
      | Some (BMask m) =>
          ∃ m', result (merge_masks (Some kpm) attn_mask bsz H S attn_mask_value)
                = Ok (Some (BMask m'))
                ∧ shape m' = [bsz * H; T; S]
                ∧ ∀ b h t s p x,
                    0 <= b < bsz → 0 <= h < H →
                    tget kpm [b; s] = Some p →
                    tget m [if B0 =? 1 then 0 else b * H + h; t; s] = Some x →
                    tget m' [b * H + h; t; s] = Some (x || p)
      | Some (FMask m) =>
          ∃ m', result (merge_masks (Some kpm) attn_mask bsz H S attn_mask_value)
                = Ok (Some (FMask m'))
                ∧ shape m' = [bsz * H; T; S]
                ∧ ∀ b h t s p x,
                    0 <= b < bsz → 0 <= h < H →
                    tget kpm [b; s] = Some p →
                    tget m [if B0 =? 1 then 0 else b * H + h; t; s] = Some x →
                    tget m' [b * H + h; t; s]
                    = Some (if p then attn_mask_value else x)
      end.
Proof.
  intros Hsh Hb HH HS Hm.
  destruct (expand_key_padding_mask_spec kpm bsz H S Hsh Hb HH HS)
    as (e & Hexp & Hesh & Hel).
  exists e. split; [done|]. split; [done|]. split; [done|].
  unfold merge_masks. rewrite Hsh, shape_eqb_refl.
  destruct (expand_key_padding_mask kpm bsz H S) as [r evs].
  simpl in Hexp. subst r.
  destruct attn_mask as [[m|m]|].
  - destruct Hm as [Hmsh HB0]. simpl in Hmsh.
    destruct (combine_with_padding (fun x (p : bool) => if p then attn_mask_value else x)
                m e kpm bsz H B0 T S Hmsh HB0 Hesh Hel) as (m' & Hok & Hsh' & Hget).
    exists m'. split; [|done].
    unfold masked_fill, call. simpl. by rewrite Hok.
  - destruct Hm as [Hmsh HB0]. simpl in Hmsh.
    destruct (combine_with_padding orb m e kpm bsz H B0 T S Hmsh HB0 Hesh Hel)
      as (m' & Hok & Hsh' & Hget).
    exists m'. split; [|done].
    unfold logical_or, call. simpl. by rewrite Hok.
  - done.
Qed.

End Masks.

(** ** The dispatch on tensor subclasses *)

Section Dispatch.

Context {F : Type} {SF : Scalar F}.

(** Past the dispatch of lines 368-400 the function runs on the arguments
    of the call, but for the weight reduction, which reads
    [average_attn_weights] as the dispatch left it. *)
Lemma engine_dispatch (a : mha_args) (g : rng) :
  _multi_head_attention_forward a g
  = let* p := prepare a in
    attend (set_average_attn_weights (averaged a) a) p
      (adjust_dropout (training a) (dropout_p a)) g.
Proof.
  unfold _multi_head_attention_forward, averaged. by destruct (has_torch_function a).
Qed.

End Dispatch.

(** ** Output reassembly and weight reduction *)

Section Reduction.

Context {F : Type} {SF : Scalar F}.

#[local] Existing Instance F_inhabited.

Lemma tget_div_scalar (t : tensor F) (c : F) (idx : list Z) :
  tget (div_scalar t c) idx = (fun x => fdiv x c) <$> tget t idx.
Proof.
  unfold tget, div_scalar. cbn [shape data].
  destruct (in_range (shape t) idx); [|done]. by rewrite list_lookup_fmap.
Qed.

(** The per-head weights [(B * H, T, S)] seen as [(B, H, T, S)]: head [h] of
    batch item [b] is row [b * H + h]. *)
Lemma tnth_heads_view (W : tensor F) (B H T S b h t s : Z) :
  shape W = [B * H; T; S] →
  tnth (mkT [B; H; T; S] (data W)) [b; h; t; s] = tnth W [b * H + h; t; s].
Proof.
  intros HW. unfold tnth. rewrite HW. cbn [shape data]. f_equal. f_equal.
  simpl. ring.
Qed.

Lemma tget_heads_view (W : tensor F) (B H T S b h t s : Z) :
  shape W = [B * H; T; S] →
  0 <= b < B → 0 <= h < H → 0 <= t < T → 0 <= s < S →
  tget (mkT [B; H; T; S] (data W)) [b; h; t; s] = tget W [b * H + h; t; s].
Proof.
  intros HW Hb Hh Ht Hs. unfold tget. rewrite HW. cbn [shape data].
  rewrite in_range_4, in_range_3 by (try apply head_row_bounds; lia).
  f_equal. f_equal. simpl. ring.
Qed.

(** [sum(dim=1)] of the four-dimensional weights. *)
Lemma sum_over_heads (W4 : tensor F) (B H T S : Z) :
  shape W4 = [B; H; T; S] →
  ∃ w, sum_dim W4 1 = Ok w ∧ shape w = [B; T; S] ∧
       ∀ b t s, 0 <= b < B → 0 <= t < T → 0 <= s < S →
         tget w [b; t; s] = Some (fsum ((fun h => tnth W4 [b; h; t; s]) <$> range H)).
Proof.
  intros HW. unfold sum_dim. rewrite HW. cbn [lookup list_lookup take drop app].
  eexists. split; [done|]. split; [done|].
  intros b t s Hb Ht Hs. by rewrite tget_tabulate by (apply in_range_3; lia).
Qed.

(** Lines 609-610 succeed on an attention output of the expected shape. *)
Lemma out_projection_ok (a : mha_args) (s : shapes) (ao : tensor F) (Eo : Z) :
  shape ao = [bsz s * num_heads a; tgt_len s; head_dim s] →
  head_dim s * num_heads a = embed_dim s →
  0 <= tgt_len s → 0 <= bsz s → 0 <= embed_dim s →
  shape (out_proj_weight a) = [Eo; embed_dim s] →
  match out_proj_bias a with Some b => shape b = [Eo] | None => True end →
  ∃ out, result (out_projection a s ao) = Ok out ∧ shape out = [tgt_len s; bsz s; Eo].
Proof.
  intros Hao Hhd HT HB HE Hw Hb. unfold out_projection, call.
  assert (Htr : ∃ x, transpose ao 0 1 = Ok x
                     ∧ shape x = [tgt_len s; bsz s * num_heads a; head_dim s]).
  { unfold transpose. rewrite Hao. simpl. eauto. }
  destruct Htr as (x & -> & Hx). cbn [bind].
  rewrite (view_exact x [tgt_len s; bsz s; embed_dim s]).
  2: { repeat constructor; lia. }
  2: { unfold numel. rewrite Hx. simpl. rewrite <- Hhd. ring. }
  cbn [bind]. unfold linear. rewrite Hw. cbn [shape reverse rev_append].
  rewrite Z.eqb_refl.
  assert (Hbias : match out_proj_bias a with
                  | Some bt => shape_eqb (shape bt) [Eo]
                  | None => true
                  end = true).
  { destruct (out_proj_bias a); [|done]. by apply shape_eqb_eq. }
  rewrite Hbias. simpl. eauto.
Qed.

(** The weights returned for a batched call that asks for them. *)
Lemma reduce_weights_batched (a : mha_args) (s : shapes) (S : Z) (out W : tensor F) :
  need_weights a = true → is_batched s = true →
  shape W = [bsz s * num_heads a; tgt_len s; S] →
  0 <= bsz s → 0 <= num_heads a → 0 <= tgt_len s → 0 <= S →
  ∃ w, result (reduce_weights a s S out W) = Ok (out, Some w)
       ∧ if average_attn_weights a then
           shape w = [bsz s; tgt_len s; S]
           ∧ ∀ b t j, 0 <= b < bsz s → 0 <= t < tgt_len s → 0 <= j < S →
               tget w [b; t; j]
               = Some (fdiv (fsum ((fun h => tnth W [b * num_heads a + h; t; j])
                                     <$> range (num_heads a)))
                            (f_of_Z (num_heads a)))
         else
           shape w = [bsz s; num_heads a; tgt_len s; S]
           ∧ ∀ b h t j, 0 <= b < bsz s → 0 <= h < num_heads a →
               0 <= t < tgt_len s → 0 <= j < S →
               tget w [b; h; t; j] = tget W [b * num_heads a + h; t; j].
Proof.
  intros Hnw Hib HW HB HH HT HS. unfold reduce_weights, call. rewrite Hnw, Hib.
  rewrite (view_exact W [bsz s; num_heads a; tgt_len s; S]).
  2: { repeat constructor; lia. }
  2: { unfold numel. rewrite HW. simpl. ring. }
  cbn [bind negb].
  destruct (average_attn_weights a).
  - destruct (sum_over_heads (mkT [bsz s; num_heads a; tgt_len s; S] (data W))
                (bsz s) (num_heads a) (tgt_len s) S eq_refl) as (w3 & Hsum & Hsh & Hel).
    rewrite Hsum. simpl. eexists. split; [done|]. split; [done|].
    intros b t j Hb Ht Hj. rewrite tget_div_scalar, Hel by done. simpl. do 3 f_equal.
    apply list_fmap_ext. intros _ h _. by apply tnth_heads_view.
  - simpl. eexists. split; [done|]. split; [done|].
    intros b h t j Hb Hh Ht Hj. by apply tget_heads_view.
Qed.

(** X27. A batched forward call that asks for the weights returns, when
    averaging, a tensor of shape [batch, tgt_len, src_len] whose elements are
    the sums over the heads of the per-head weights divided by [num_heads],
    and otherwise the per-head weights themselves in shape
    [batch, heads, tgt_len, src_len]. The per-head weights [W] are what the
    attention function returned, of shape [batch * heads, tgt_len, src_len].
    The call averages when [average_attn_weights] is set, and on operands of
    a Tensor subclass also when it is not. *)
Theorem attention_weights_reduction (a : mha_args) (p : prepared) (g g' : rng)
    (ao W : tensor F) (evs0 evs1 : list event) (Eo : Z) :
  let s := p_shapes p in
  let B := bsz s in
  let H := num_heads a in
  let T := tgt_len s in
  let S := p_src_len p in
  prepare a = (Ok p, evs0) →
  attention_function a (p_q p) (p_k p) (p_v p) (p_attn_mask p)
    (adjust_dropout (training a) (dropout_p a)) (kernel_function a)
    (attn_mask_value a) (attn_masking_function a) (query_key_product a) g
  = (Ok (ao, W, g'), evs1) →
  need_weights a = true → is_batched s = true →
  shape ao = [B * H; T; head_dim s] → shape W = [B * H; T; S] →
  head_dim s * H = embed_dim s →
  0 <= B → 0 <= H → 0 <= T → 0 <= S → 0 <= embed_dim s →
  shape (out_proj_weight a) = [Eo; embed_dim s] →
  match out_proj_bias a with Some b => shape b = [Eo] | None => True end →
  ∃ out w,
    result (_multi_head_attention_forward a g) = Ok (out, Some w, g')
    ∧ if averaged a then
        shape w = [B; T; S]
        ∧ ∀ b t j, 0 <= b < B → 0 <= t < T → 0 <= j < S →
            tget w [b; t; j]
            = Some (fdiv (fsum ((fun h => tnth W [b * H + h; t; j]) <$> range H))
                         (f_of_Z H))
      else
        shape w = [B; H; T; S]
        ∧ ∀ b h t j, 0 <= b < B → 0 <= h < H → 0 <= t < T → 0 <= j < S →
            tget w [b; h; t; j] = tget W [b * H + h; t; j].
Proof.
  intros s B H T S Hprep Hatt Hnw Hib Hao HW Hhd HB HH HT HS HE Hw Hbias.
  destruct (out_projection_ok a s ao Eo Hao Hhd HT HB HE Hw Hbias) as (out & Hout & _).
  destruct (reduce_weights_batched (set_average_attn_weights (averaged a) a) s S out W
              Hnw Hib HW HB HH HT HS) as (w & Hred & Hspec).
  exists out, w. split; [|exact Hspec].
  rewrite engine_dispatch, Hprep. cbn [bind].
  unfold attend.
  cbn [attention_function kernel_function attn_mask_value attn_masking_function
       query_key_product set_average_attn_weights].
  rewrite Hatt. cbn [bind].
  change (out_projection (set_average_attn_weights (averaged a) a)) with (out_projection a).
  fold s S.
  destruct (out_projection a s ao) as [r1 e1]. simpl in Hout. subst r1. cbn [bind].
  destruct (reduce_weights _ s S out W) as [r2 e2]. simpl in Hred. subst r2. done.
Qed.

End Reduction.

Lemma attention_weights_reduction_witness :
  ∃ out w, result (_multi_head_attention_forward example_args 1) = Ok (out, Some w, 1)
           ∧ shape w = [1; 3; 3].
Proof.
  eassert (Hprep : prepare example_args = (Ok _, _)) by (vm_compute; reflexivity).
  match type of Hprep with
  | _ = (Ok ?p, _) =>
      eassert (Hatt : attention_function example_args (p_q p) (p_k p) (p_v p)
                        (p_attn_mask p)
                        (adjust_dropout (training example_args) (dropout_p example_args))
                        (kernel_function example_args) (attn_mask_value example_args)
                        (attn_masking_function example_args)
                        (query_key_product example_args) 1 = (Ok (_, _, _), _))
        by (vm_compute; reflexivity)
  end.
  pose proof (attention_weights_reduction example_args _ 1 _ _ _ _ _ 4 Hprep Hatt
              eq_refl eq_refl eq_refl eq_refl eq_refl
              ltac:(simpl; lia) ltac:(simpl; lia) ltac:(simpl; lia) ltac:(simpl; lia)
              ltac:(simpl; lia) eq_refl I) as HH.
  destruct HH as (out & w & Hres & Hsh & _).
  exists out, w. split; [exact Hres | exact Hsh].
Defined.

(** C5, where the code departs from it. On operands of a Tensor subclass the
    call is handed on without [average_attn_weights] (lines 369-400), which
    every other argument is passed with. Asked for the weights of each head,
    of shape [batch, heads, tgt_len, src_len], the engine and [forward]
    return averaged weights of shape [batch, tgt_len, src_len]: what the call
    that asks for the average returns. On plain tensors the same call
    returns the weights of each head. *)
Lemma per_head_weights_lost_on_subclass :
  (∃ out w g',
     result (_multi_head_attention_forward per_head_subclass_args 1) = Ok (out, Some w, g')
     ∧ shape w = [1; 3; 3])
  ∧ result (_multi_head_attention_forward per_head_subclass_args 1)
    = result (_multi_head_attention_forward example_args 1)
  ∧ (∃ out w g',
       result (_multi_head_attention_forward per_head_args 1) = Ok (out, Some w, g')
       ∧ shape w = [1; 2; 3; 3])
  ∧ (∃ out w g',
       result (forward (with_defaults example_layer) example_heap true
                 (iota [3; 1; 4]) (iota [3; 1; 4]) (iota [3; 1; 4]) None true None false 1)
       = Ok (out, Some w, g')
       ∧ shape w = [1; 3; 3])
  ∧ (∃ out w g',
       result (forward (with_defaults example_layer) example_heap false
                 (iota [3; 1; 4]) (iota [3; 1; 4]) (iota [3; 1; 4]) None true None false 1)
       = Ok (out, Some w, g')
       ∧ shape w = [1; 2; 3; 3]).
Proof.
  split_and!.
  - eexists _, _, _. split; vm_compute; reflexivity.
  - vm_compute. reflexivity.
  - eexists _, _, _. split; vm_compute; reflexivity.
  - eexists _, _, _. split; vm_compute; reflexivity.
  - eexists _, _, _. split; vm_compute; reflexivity.
Qed.

(** ** Validation order *)

Section Validation.

Context {F : Type} {SF : Scalar F}.

(** C3, as the code has it. When the inputs pass the shape set-up and the
    in-projection succeeds, a two-dimensional attention mask (float, bool or
    byte) whose shape is not [tgt_len, src_len] makes the call raise
    RuntimeError; by then the in-projection has been computed (and a byte
    mask converted), and nothing else: no bias injection, no reshaping, no
    attention, no output projection. *)
Theorem mask_shape_error_follows_in_projection (a : mha_args) (g : rng) (s : shapes)
    (qkv : tensor F * tensor F * tensor F) (evs0 evs1 : list event) (m : mask) :
  shape_setup a = (Ok s, evs0) →
  compute_in_projection a s = (Ok qkv, evs1) →
  attn_mask a = Some m →
  supported_mask_dtype m = true →
  mask_dim m = 2 →
  mask_shape m ≠ [tgt_len s; src_len s] →
  _multi_head_attention_forward a g
  = (Raise (RuntimeError "The shape of the 2D attn_mask is wrong"),
     evs0 ++ evs1 ++ mask_conversion_events m).
Proof.
  intros Hsetup Hproj Hmask Hdt Hdim Hshape.
  assert (Hne : ∀ sh, sh = mask_shape m → shape_eqb sh [tgt_len s; src_len s] = false).
  { intros sh ->. apply not_true_is_false. by rewrite shape_eqb_eq. }
  rewrite engine_dispatch. unfold prepare.
  rewrite Hsetup. cbn [bind]. rewrite Hproj. destruct qkv as [[q k] v]. cbn [bind].
  unfold prep_attention_mask. rewrite Hmask.
  destruct m as [t|t|t|dt t]; try discriminate;
    unfold mask_dim in Hdim; cbn [mask_shape] in Hdim;
    cbn [bind ret warn call]; unfold fb_dim; cbn [fb_shape to_bool shape];
    rewrite Hdim; cbn [Z.eqb Pos.eqb];
    rewrite (Hne (shape t)) by done; cbn; by rewrite ?app_nil_r.
Qed.

End Validation.

(** C3, as stated, fails: the error of the [4, 3] mask is raised once the
    in-projection has run. *)
Lemma mask_shape_error_not_before_operations :
  _multi_head_attention_forward wrong_mask_args 1
  = (Raise (RuntimeError "The shape of the 2D attn_mask is wrong"),
     [Op "_in_projection_packed"])
  ∧ ¬ raises_before_any_operation (_multi_head_attention_forward wrong_mask_args 1).
Proof.
  assert (Hrun : _multi_head_attention_forward wrong_mask_args 1
                 = (Raise (RuntimeError "The shape of the 2D attn_mask is wrong"),
                    [Op "_in_projection_packed"])) by (vm_compute; reflexivity).
  split; [exact Hrun|].
  intros [_ Hops]. rewrite Hrun in Hops. discriminate Hops.
Qed.

Lemma mask_shape_error_follows_in_projection_witness :
  _multi_head_attention_forward wrong_mask_args 1
  = (Raise (RuntimeError "The shape of the 2D attn_mask is wrong"),
     [] ++ [Op "_in_projection_packed"] ++ []).
Proof.
  eassert (Hsetup : shape_setup wrong_mask_args = (Ok _, [])) by (vm_compute; reflexivity).
  match type of Hsetup with
  | _ = (Ok ?s, _) =>
      eassert (Hproj : compute_in_projection wrong_mask_args s
                       = (Ok _, [Op "_in_projection_packed"]))
        by (vm_compute; reflexivity)
  end.
  exact (mask_shape_error_follows_in_projection wrong_mask_args 1 _ _ _ _
           (MFloat (full [4; 3] 0%float)) Hsetup Hproj eq_refl eq_refl eq_refl
           ltac:(discriminate)).
Defined.

(** ** Failing early *)

Lemma only_ret {A} (P : event → Prop) (x : A) : only P (ret x).
Proof. constructor. Qed.

Lemma only_raise {A} (P : event → Prop) (e : exn) : only P (@raise A e).
Proof. constructor. Qed.

Lemma only_assert (P : event → Prop) (c : bool) (msg : string) : only P (assert c msg).
Proof. destruct c; constructor. Qed.

Lemma only_call {A} (P : event → Prop) (name : string) (r : Res A) :
  P (Op name) → only P (call name r).
Proof. intros HP. by repeat constructor. Qed.

Lemma only_bind {A B} (P : event → Prop) (m : M A) (f : A → M B) :
  only P m → (∀ x, only P (f x)) → only P (bind m f).
Proof.
  unfold only, events, bind. destruct m as [[x|e] l]; simpl; [|done].
  intros Hm Hf. specialize (Hf x). destruct (f x) as [r l']. simpl in *.
  by apply Forall_app.
Qed.

Lemma bind_ret_l {A B} (x : A) (f : A → M B) : bind (ret x) f = f x.
Proof. unfold bind, ret. by destruct (f x). Qed.

Lemma fails_raise {A} (P : event → Prop) (e : exn) : fails P (@raise A e).
Proof. split; [by exists e | constructor]. Qed.

Lemma fails_bind {A B} (P : event → Prop) (m : M A) (f : A → M B) :
  only P m → (∀ x, fails P (f x)) → fails P (bind m f).
Proof.
  intros Hm Hf. split.
  - unfold result, bind. destruct m as [[x|e] l]; simpl; [|by exists e].
    destruct (Hf x) as [[e He] _]. destruct (f x) as [r l']. simpl in *. by exists e.
  - apply only_bind; [done|]. intros x. apply Hf.
Qed.

Lemma fails_bind_l {A B} (P : event → Prop) (m : M A) (f : A → M B) :
  fails P m → fails P (bind m f).
Proof.
  intros [[e He] Hm]. unfold fails, only, events, result, bind in *.
  destruct m as [[x|e'] l]; simpl in *; [done|]. split; [by exists e' | done].
Qed.

Ltac fails_now := apply fails_bind_l; apply fails_raise.

Section Divisibility.

Context {F : Type} {SF : Scalar F}.

Lemma only_mha_shape_check (P : event → Prop) (q k v : tensor F)
    (kpm : option padding_mask) (m : option mask) (nh : Z) :
  only P (_mha_shape_check q k v kpm m nh).
Proof.
  unfold _mha_shape_check.
  repeat first
    [ apply only_ret | apply only_raise | apply only_assert
    | apply only_bind; [|intros ?]
    | match goal with |- only _ (if ?c then _ else _) => destruct c end
    | match goal with |- only _ (match ?o with Some _ => _ | None => _ end) => destruct o end ].
Qed.

Lemma only_unpack3 (P : event → Prop) (sh : list Z) : only P (unpack3 sh).
Proof. destruct sh as [|?[|?[|?[|??]]]]; constructor. Qed.

Lemma indivisible_not_product (E nh : Z) :
  nh ≠ 0 → E `mod` nh ≠ 0 → (E `div` nh * nh =? E) = false.
Proof.
  intros Hnh Hmod. apply Z.eqb_neq. intros Heq. apply Hmod.
  rewrite Z.mod_eq by done. lia.
Qed.

(** Lines 402-430 never get past the divisibility assertion. *)
Lemma shape_setup_fails (a : mha_args) :
  embed_dim_to_check a `mod` num_heads a ≠ 0 → fails layout_only (shape_setup a).
Proof.
  intros Hmod. unfold shape_setup.
  apply fails_bind; [apply only_mha_shape_check|]. intros is_batched.
  apply fails_bind.
  { destruct is_batched; cbn [negb]; [apply only_ret|].
    repeat first
      [ apply only_ret
      | apply only_call; by right
      | apply only_bind; [|intros ?]
      | match goal with |- only _ (match ?o with Some _ => _ | None => _ end) => destruct o end ]. }
  intros [[[q k] v] kpm].
  apply fails_bind; [apply only_unpack3|].
  intros [[T B] E].
  apply fails_bind; [apply only_unpack3|].
  intros [[S ?] ?].
  destruct (Z.eqb_spec E (embed_dim_to_check a)) as [->|Hne]; [|fails_now].
  apply fails_bind; [apply only_assert|]. intros _.
  unfold floordiv. destruct (Z.eqb_spec (num_heads a) 0) as [Hz|Hnz].
  { fails_now. }
  cbv iota. rewrite bind_ret_l, indivisible_not_product by done.
  fails_now.
Qed.

Lemma engine_fails (a : mha_args) (g : rng) :
  embed_dim_to_check a `mod` num_heads a ≠ 0 →
  fails layout_only (_multi_head_attention_forward a g).
Proof.
  intros Hmod. rewrite engine_dispatch. unfold prepare.
  by apply fails_bind_l, fails_bind_l, shape_setup_fails.
Qed.

Lemma only_kwarg {A} (P : event → Prop) (proj : pyval → option A)
    (kw : gmap string pyval) (name : string) (dflt : option A) :
  only P (kwarg proj kw name dflt).
Proof.
  unfold kwarg. destruct (kw !! name) as [v|].
  - destruct (proj v); constructor.
  - destruct dflt; constructor.
Qed.

Lemma MultiheadAttention_init_fails (E nh : Z) (dropout : F)
    (bias add_bias_kv add_zero_attn : bool) (kdim vdim : option Z) (batch_first : bool)
    (h : heap F) (g : rng) :
  E `mod` nh ≠ 0 →
  fails (fun _ => False)
    (MultiheadAttention_init E nh dropout bias add_bias_kv add_zero_attn kdim vdim
       batch_first h g).
Proof.
  intros Hmod. unfold MultiheadAttention_init, floordiv.
  destruct (Z.eqb_spec nh 0) as [Hz|Hnz].
  { fails_now. }
  cbv iota. rewrite bind_ret_l, indivisible_not_product by done.
  fails_now.
Qed.

(** C4. With [embed_dim] not a multiple of [num_heads], the constructor
    raises; and on any adapter holding such a configuration [forward]
    raises, as does the engine itself, before anything but transpositions
    and unsqueezes of the inputs: no in-projection, no attention. *)
Theorem indivisible_embed_dim_raises :
  (∀ (kw : gmap string pyval) (h : heap F) (g : rng) (E nh : Z),
     kw !! "embed_dim" = Some (VInt E) → kw !! "num_heads" = Some (VInt nh) →
     E `mod` nh ≠ 0 →
     ∃ e, result (CustomizableMultiHead_init kw h g) = Raise e)
  ∧ (∀ (a : mha_args) (g : rng),
       embed_dim_to_check a `mod` num_heads a ≠ 0 →
       fails layout_only (_multi_head_attention_forward a g))
  ∧ (∀ (self : CustomizableMultiHead) (h : heap F) (tensor_subclass : bool)
       (query key value : tensor F) (key_padding_mask : option padding_mask) (need_weights : bool)
       (attn_mask : option mask) (average_attn_weights : bool) (g : rng),
       self_embed_dim (base self) `mod` self_num_heads (base self) ≠ 0 →
       fails layout_only
         (forward self h tensor_subclass query key value key_padding_mask need_weights attn_mask
            average_attn_weights g)).
Proof.
  split; [|split].
  - intros kw h g E nh HE Hnh Hmod.
    enough (Hf : fails (fun _ => False) (CustomizableMultiHead_init kw h g)) by apply Hf.
    unfold CustomizableMultiHead_init.
    destruct (negb _); [apply fails_raise|].
    unfold kwarg at 1 2. rewrite HE, Hnh. cbn [as_int]. rewrite !bind_ret_l.
    repeat (apply fails_bind; [apply only_kwarg | intros ?]).
    by apply fails_bind_l, MultiheadAttention_init_fails.
  - intros a g. apply engine_fails.
  - intros self h sub q k v kpm nw am avg g Hmod. unfold forward.
    apply fails_bind.
    { destruct (_ && _); [|apply only_ret]. unfold transpose_qkv.
      repeat first [ apply only_ret | apply only_call; by left
                   | apply only_bind; [|intros ?] ]. }
    intros [[q' k'] v'].
    apply fails_bind; [destruct (param _ _ _); constructor|]. intros w.
    apply fails_bind_l.
    destruct (negb _); by apply engine_fails.
Qed.

End Divisibility.

Lemma indivisible_embed_dim_raises_witness :
  fails layout_only (_multi_head_attention_forward indivisible_args 1)
  ∧ _multi_head_attention_forward indivisible_args 1
    = (Raise (AssertionError "embed_dim not divisible by num_heads"), []).
Proof.
  split.
  - apply (proj1 (proj2 indivisible_embed_dim_raises) indivisible_args 1).
    vm_compute. discriminate.
  - vm_compute. reflexivity.
Defined.

(** ** Evaluation mode *)

Section Evaluation.

Context {F : Type} {SF : Scalar F}.

Lemma default_attention_deterministic :
  deterministic_without_dropout _scaled_dot_product_attention.
Proof.
  intros q k v m kf mv mf pf g1 g2. unfold _scaled_dot_product_attention.
  rewrite fgtb_irrefl_0.
  destruct (pf q k) as [[attn|e] l1]; [|done]. cbn [bind].
  destruct (mf attn m mv) as [[attn'|e] l2]; [|done]. cbn [bind].
  destruct (kf attn') as [[w|e] l3]; [|done]. cbn [bind ret].
  unfold call. by destruct (bmm w v).
Qed.

Lemma strip_bind {A B R} (m : M A) (f1 f2 : A → M (B * R)) :
  (∀ x, strip (f1 x) = strip (f2 x)) → strip (bind m f1) = strip (bind m f2).
Proof.
  intros Hf. destruct m as [[x|e] l]; [|done]. specialize (Hf x).
  unfold strip, result, events, bind in *.
  destruct (f1 x) as [r1 l1], (f2 x) as [r2 l2]. simpl in *.
  by injection Hf as -> ->.
Qed.

(** The part of the engine after the dropout adjustment, with dropout off. *)
Lemma attend_deterministic (a : mha_args) (p : prepared) (g1 g2 : rng) :
  deterministic_without_dropout (attention_function a) →
  strip (attend a p f0 g1) = strip (attend a p f0 g2).
Proof.
  intros Hdet. unfold attend.
  specialize (Hdet (p_q p) (p_k p) (p_v p) (p_attn_mask p) (kernel_function a)
                (attn_mask_value a) (attn_masking_function a) (query_key_product a) g1 g2).
  destruct (attention_function a _ _ _ _ _ _ _ _ _ g1) as [[[[ao W] g1']|e1] l1];
    destruct (attention_function a _ _ _ _ _ _ _ _ _ g2) as [[[[ao2 W2] g2']|e2] l2];
    unfold strip in Hdet; simpl in Hdet; try discriminate.
  - injection Hdet as <- <- <-. cbn [bind].
    destruct (out_projection a (p_shapes p) ao) as [[out|e] l3]; [|done]. cbn [bind].
    by destruct (reduce_weights a (p_shapes p) (p_src_len p) out W) as [[[o w]|e] l4].
  - by injection Hdet as <- <-.
Qed.

Lemma engine_deterministic (a : mha_args) (d : F) (g1 g2 : rng) :
  training a = false →
  deterministic_without_dropout (attention_function a) →
  strip (_multi_head_attention_forward a g1)
  = strip (_multi_head_attention_forward (set_dropout_p d a) g2).
Proof.
  intros Htr Hdet. rewrite !engine_dispatch.
  change (prepare (set_dropout_p d a)) with (prepare a).
  apply strip_bind. intros p.
  change (training (set_dropout_p d a)) with (training a).
  change (attend (set_average_attn_weights (averaged (set_dropout_p d a))
                    (set_dropout_p d a)) p)
    with (attend (set_average_attn_weights (averaged a) a) p).
  rewrite Htr. cbn [adjust_dropout negb].
  by apply (attend_deterministic (set_average_attn_weights (averaged a) a) p g1 g2).
Qed.

Lemma strip_bind_strip {A B R} (m1 m2 : M (A * R)) (f : A * R → M (B * R)) :
  strip m1 = strip m2 →
  (∀ x g1 g2, strip (f (x, g1)) = strip (f (x, g2))) →
  strip (bind m1 f) = strip (bind m2 f).
Proof.
  intros Hm Hf. destruct m1 as [[[x1 g1]|e1] l1], m2 as [[[x2 g2]|e2] l2];
    unfold strip in Hm; simpl in Hm; try discriminate.
  - injection Hm as <- <-. specialize (Hf x1 g1 g2).
    unfold strip, result, events, bind in *.
    destruct (f (x1, g1)) as [r1 l1'], (f (x1, g2)) as [r2 l2']. simpl in *.
    by injection Hf as -> ->.
  - by injection Hm as <- <-.
Qed.

(** C6. In evaluation mode the dropout probability handed to the attention
    function is zero whatever rate is configured, and two calls of [forward]
    on the same inputs and weights return the same output and weights (and
    log the same events), whatever the random state each starts from and
    whatever the configured rate. The attention function is the default one,
    or any that draws nothing when dropout is off. *)
Theorem evaluation_mode_deterministic (self : CustomizableMultiHead) (h : heap F)
    (tensor_subclass : bool) (query key value : tensor F)
    (key_padding_mask : option padding_mask)
    (need_weights : bool) (attn_mask : option mask) (average_attn_weights : bool) :
  self_training (base self) = false →
  deterministic_without_dropout (self_attention_function self) →
  adjust_dropout (self_training (base self)) (self_dropout (base self)) = f0
  ∧ ∀ (d : F) (g1 g2 : rng),
      strip (forward self h tensor_subclass query key value key_padding_mask need_weights attn_mask
               average_attn_weights g1)
      = strip (forward (with_dropout d self) h tensor_subclass query key value key_padding_mask
                 need_weights attn_mask average_attn_weights g2).
Proof.
  intros Htr Hdet. split; [by rewrite Htr|].
  intros d g1 g2. unfold forward.
  apply strip_bind. intros [[q' k'] v'].
  apply strip_bind. intros w.
  apply strip_bind_strip.
  - change (self_qkv_same_embed_dim (base (with_dropout d self)))
      with (self_qkv_same_embed_dim (base self)).
    destruct (negb _);
      match goal with
      | |- strip (_multi_head_attention_forward ?a g1) = _ =>
          exact (engine_deterministic a d g1 g2 Htr Hdet)
      end.
  - intros [ao ws] g g'.
    change (self_batch_first (base (with_dropout d self)))
      with (self_batch_first (base self)).
    destruct (_ && _); [|done].
    unfold call. by destruct (transpose ao 1 0).
Qed.

End Evaluation.

Lemma evaluation_mode_deterministic_witness :
  strip (forward (with_defaults example_layer) example_heap false
           (iota [3; 1; 4]) (iota [3; 1; 4]) (iota [3; 1; 4]) None true None true 1)
  = strip (forward (with_dropout 0.75%float (with_defaults example_layer)) example_heap false
             (iota [3; 1; 4]) (iota [3; 1; 4]) (iota [3; 1; 4]) None true None true 42).
Proof.
  exact (proj2 (evaluation_mode_deterministic (with_defaults example_layer) example_heap
                  false (iota [3; 1; 4]) (iota [3; 1; 4]) (iota [3; 1; 4]) None true None true
                  eq_refl default_attention_deterministic) 0.75%float 1 42).
Defined.

(** ** The pretrained form *)

(** C8. [get_pretrained_approximation] returns its argument, the same
    object, when it is an instance of [CustomizableMultiHead] (or of a class
    derived from it), and raises (ValueError) otherwise; it raises exactly
    when the argument is not such an instance. *)
Theorem get_pretrained_approximation_passthrough (module : nn_Module) :
  (isinstance module cls_CustomizableMultiHead = true →
     get_pretrained_approximation module = (Ok module, []))
  ∧ (isinstance module cls_CustomizableMultiHead = false →
       get_pretrained_approximation module
       = (Raise (ValueError "module is not a CustomizableMultiHead"), []))
  ∧ (is_ok (result (get_pretrained_approximation module)) = false
     ↔ isinstance module cls_CustomizableMultiHead = false).
Proof.
  unfold get_pretrained_approximation.
  destruct (isinstance module cls_CustomizableMultiHead); simpl; repeat split; done.
Qed.

Lemma get_pretrained_approximation_passthrough_witness :
  get_pretrained_approximation
    {| module_id := 7; module_class := cls_derived "MyHead" cls_CustomizableMultiHead |}
  = (Ok {| module_id := 7; module_class := cls_derived "MyHead" cls_CustomizableMultiHead |}, [])
  ∧ get_pretrained_approximation {| module_id := 8; module_class := cls_MultiheadAttention |}
    = (Raise (ValueError "module is not a CustomizableMultiHead"), []).
Proof.
  split.
  - exact (proj1 (get_pretrained_approximation_passthrough
                    {| module_id := 7;
                       module_class := cls_derived "MyHead" cls_CustomizableMultiHead |})
             eq_refl).
  - exact (proj1 (proj2 (get_pretrained_approximation_passthrough
                           {| module_id := 8; module_class := cls_MultiheadAttention |}))
             eq_refl).
Defined.

(** ** Construction and extraction *)

Section Extraction.

Context {F : Type} {SF : Scalar F}.

Lemma grows_refl (st : gmap string ref * heap F * rng) : grows ∅ st st.
Proof. split; [set_solver | done]. Qed.

Lemma grows_trans (A B : gset string) (st1 st2 st3 : gmap string ref * heap F * rng) :
  grows A st1 st2 → grows B st2 st3 → grows (A ∪ B) st1 st3.
Proof.
  intros [Hd1 Hh1] [Hd2 Hh2]. split.
  - rewrite Hd2, Hd1. set_solver.
  - by etrans.
Qed.

Lemma alloc_fresh (h : heap F) (t : tensor F) : h ⊆ (alloc h t).2.
Proof.
  unfold alloc. simpl. apply insert_subseteq.
  apply not_elem_of_dom. apply is_fresh.
Qed.

Lemma nonneg_forallb (sh : list Z) :
  Forall (fun d => 0 <= d) sh → forallb (fun d => 0 <=? d) sh = true.
Proof.
  intros Hf. apply forallb_forall. intros d Hin.
  rewrite Forall_forall in Hf. apply Z.leb_le, Hf. by apply list_elem_of_In.
Qed.

Lemma new_random_ok (name : string) (sh : list Z) (st : gmap string ref * heap F * rng) :
  Forall (fun d => 0 <= d) sh →
  ∃ st', new_random name sh st = ret st' ∧ grows {[name]} st st'.
Proof.
  intros Hsh. destruct st as [[ps h] g]. unfold new_random.
  rewrite nonneg_forallb by done.
  destruct (random_fill g (Z.to_nat (prod_list sh))) as [vals g'].
  pose proof (alloc_fresh h (mkT sh vals)) as Ha.
  destruct (alloc h (mkT sh vals)) as [r h'].
  eexists. split; [done|]. split; simpl in *; [|done].
  rewrite dom_insert_L. set_solver.
Qed.

Lemma new_zero_ok (name : string) (sh : list Z) (st : gmap string ref * heap F * rng) :
  Forall (fun d => 0 <= d) sh →
  ∃ st', new_zero name sh st = ret st' ∧ grows {[name]} st st'.
Proof.
  intros Hsh. destruct st as [[ps h] g]. unfold new_zero.
  rewrite nonneg_forallb by done.
  pose proof (alloc_fresh h (full sh f0)) as Ha.
  destruct (alloc h (full sh f0)) as [r h'].
  eexists. split; [done|]. split; simpl in *; [|done].
  rewrite dom_insert_L. set_solver.
Qed.

(** The parent constructor succeeds on non-negative dimensions with
    [embed_dim] a multiple of [num_heads], and builds the module the
    arguments describe. *)
Lemma MultiheadAttention_init_ok (E nh : Z) (dropout : F)
    (bias add_bias_kv add_zero_attn : bool) (kdim vdim : option Z) (batch_first : bool)
    (h : heap F) (g : rng) :
  nh ≠ 0 → E `mod` nh = 0 → 0 <= E → 0 <= default E kdim → 0 <= default E vdim →
  ∃ ps h' g',
    MultiheadAttention_init E nh dropout bias add_bias_kv add_zero_attn kdim vdim
      batch_first h g
    = ret ({| self_embed_dim := E; self_kdim := default E kdim;
              self_vdim := default E vdim;
              self_qkv_same_embed_dim := (default E kdim =? E) && (default E vdim =? E);
              self_num_heads := nh; self_dropout := dropout;
              self_batch_first := batch_first; self_head_dim := E `div` nh;
              self_add_zero_attn := add_zero_attn; self_training := true;
              self_params := ps |}, h', g')
    ∧ dom ps = expected_parameters ((default E kdim =? E) && (default E vdim =? E))
                 bias add_bias_kv
    ∧ h ⊆ h'.
Proof.
  intros Hnh Hmod HE Hk Hv. unfold MultiheadAttention_init, floordiv.
  destruct (Z.eqb_spec nh 0); [done|]. rewrite bind_ret_l.
  assert (Hprod : (E `div` nh * nh =? E) = true).
  { apply Z.eqb_eq. rewrite (Z.div_mod E nh) at 2 by done. lia. }
  rewrite Hprod. cbn [assert]. rewrite bind_ret_l.
  set (same := (default E kdim =? E) && (default E vdim =? E)).
  assert (Hstep1 : ∃ st1, (if negb same
             then bind (new_random "q_proj_weight" [E; E] (∅, h, g))
                    (fun st => bind (new_random "k_proj_weight" [E; default E kdim] st)
                       (fun st => new_random "v_proj_weight" [E; default E vdim] st))
             else new_random "in_proj_weight" [3 * E; E] (∅, h, g)) = ret st1
           ∧ grows (if same then {["in_proj_weight"]}
                    else {["q_proj_weight"; "k_proj_weight"; "v_proj_weight"]})
               (∅, h, g) st1).
  { destruct same; cbn [negb].
    - apply new_random_ok. repeat constructor; lia.
    - destruct (new_random_ok "q_proj_weight" [E; E] (∅, h, g)) as (s1 & -> & G1);
        [repeat constructor; lia|]. rewrite bind_ret_l.
      destruct (new_random_ok "k_proj_weight" [E; default E kdim] s1) as (s2 & -> & G2);
        [repeat constructor; lia|]. rewrite bind_ret_l.
      destruct (new_random_ok "v_proj_weight" [E; default E vdim] s2) as (s3 & -> & G3);
        [repeat constructor; lia|].
      exists s3. split; [done|].
      pose proof (grows_trans _ _ _ _ _ (grows_trans _ _ _ _ _ G1 G2) G3) as G.
      destruct G as [Gd Gh]. split; [|done]. rewrite Gd. set_solver. }
  destruct Hstep1 as (st1 & -> & G1). rewrite bind_ret_l.
  assert (Hstep2 : ∃ st2, (if bias then new_zero "in_proj_bias" [3 * E] st1 else ret st1)
                          = ret st2
                          ∧ grows (if bias then {["in_proj_bias"]} else ∅) st1 st2).
  { destruct bias; [apply new_zero_ok; repeat constructor; lia|].
    exists st1. split; [done | apply grows_refl]. }
  destruct Hstep2 as (st2 & -> & G2). rewrite bind_ret_l.
  destruct (new_random_ok "out_proj.weight" [E; E] st2) as (st3 & -> & G3);
    [repeat constructor; lia|]. rewrite bind_ret_l.
  assert (Hstep4 : ∃ st4, (if bias then new_zero "out_proj.bias" [E] st3 else ret st3)
                          = ret st4
                          ∧ grows (if bias then {["out_proj.bias"]} else ∅) st3 st4).
  { destruct bias; [apply new_zero_ok; repeat constructor; lia|].
    exists st3. split; [done | apply grows_refl]. }
  destruct Hstep4 as (st4 & -> & G4). rewrite bind_ret_l.
  assert (Hstep5 : ∃ st5, (if add_bias_kv
             then bind (new_random "bias_k" [1; 1; E] st4)
                    (fun st => new_random "bias_v" [1; 1; E] st)
             else ret st4) = ret st5
           ∧ grows (if add_bias_kv then {["bias_k"; "bias_v"]} else ∅) st4 st5).
  { destruct add_bias_kv; [|exists st4; split; [done | apply grows_refl]].
    destruct (new_random_ok "bias_k" [1; 1; E] st4) as (s1 & -> & G5);
      [repeat constructor; lia|]. rewrite bind_ret_l.
    destruct (new_random_ok "bias_v" [1; 1; E] s1) as (s2 & -> & G6);
      [repeat constructor; lia|].
    exists s2. split; [done|].
    destruct (grows_trans _ _ _ _ _ G5 G6) as [Gd Gh]. split; [|done].
    rewrite Gd. set_solver. }
  destruct Hstep5 as (st5 & -> & G5). rewrite bind_ret_l.
  destruct st5 as [[ps h'] g'].
  exists ps, h', g'. split; [done|].
  destruct (grows_trans _ _ _ _ _ (grows_trans _ _ _ _ _ (grows_trans _ _ _ _ _
              (grows_trans _ _ _ _ _ G1 G2) G3) G4) G5) as [Gd Gh].
  simpl in Gd, Gh. split; [|done].
  rewrite Gd. unfold expected_parameters. destruct same, bias, add_bias_kv; set_solver.
Qed.

(** *** The stored configuration *)

Lemma store_default_union (k : string) (v : pyval) (ps : gmap string pyval) :
  store_default k v ps = ps ∪ {[k := v]}.
Proof.
  unfold store_default. apply map_eq. intros k'.
  rewrite lookup_union. destruct (decide (k = k')) as [<-|Hne].
  - rewrite lookup_insert_eq, lookup_singleton_eq. by destruct (ps !! k).
  - rewrite lookup_insert_ne, lookup_singleton_ne by done. by destruct (ps !! k').
Qed.

(** Each key is written unless it is already there. *)
Lemma store_configuration_union (l : @MultiheadAttention F) (ps : gmap string pyval) :
  store_configuration l ps = ps ∪ layer_configuration l.
Proof.
  unfold store_configuration. rewrite !store_default_union.
  rewrite <- !(assoc_L (∪)). f_equal.
Qed.

(** *** Loading the weights *)

Lemma load_parameter_ok (a : CustomizableMultiHead) (name : string) (r : ref) :
  name ∈ parameter_names → load_parameter a (name, r) = ret (set_param a name r).
Proof.
  unfold parameter_names. rewrite !elem_of_cons, elem_of_nil.
  intros [->|[->|[->|[->|[->|[->|[->|[->|[->|[]]]]]]]]]]; reflexivity.
Qed.

(** The loop of lines 100-106 never raises on the parameters of a layer,
    and stores each under its name. *)
Lemma load_parameters_ok (a : CustomizableMultiHead) (entries : list (string * ref)) :
  Forall (fun e => e.1 ∈ parameter_names) entries →
  load_parameters a entries = ret (foldl (fun a e => set_param a e.1 e.2) a entries).
Proof.
  intros Hall. revert a. induction Hall as [|[name r] entries Hin _ IH]; intros a.
  - done.
  - cbn [load_parameters foldl]. rewrite load_parameter_ok by done.
    rewrite bind_ret_l. apply IH.
Qed.

Lemma named_parameters_names (l : @MultiheadAttention F) :
  Forall (fun e => e.1 ∈ parameter_names) (named_parameters l).
Proof.
  unfold named_parameters. apply Forall_forall. intros [name r] Hin.
  apply list_elem_of_omap in Hin as (n & Hn & Heq).
  destruct (self_params l !! n); [|done]. simpl in Heq. by injection Heq as <- <-.
Qed.

Lemma named_parameters_lookup (l : @MultiheadAttention F) (name : string) (r : ref) :
  (name, r) ∈ named_parameters l ↔ name ∈ parameter_names ∧ self_params l !! name = Some r.
Proof.
  unfold named_parameters. rewrite list_elem_of_omap. split.
  - intros (n & Hn & Heq). destruct (self_params l !! n) eqn:Hl; [|done].
    simpl in Heq. injection Heq as <- <-. done.
  - intros [Hn Hl]. exists name. split; [done|]. by rewrite Hl.
Qed.

(** Loading changes the parameters only. *)
Lemma foldl_set_param (a : CustomizableMultiHead) (entries : list (string * ref)) :
  foldl (fun a e => set_param a e.1 e.2) a entries
  = {| base := {| self_embed_dim := self_embed_dim (base a);
                  self_kdim := self_kdim (base a); self_vdim := self_vdim (base a);
                  self_qkv_same_embed_dim := self_qkv_same_embed_dim (base a);
                  self_num_heads := self_num_heads (base a);
                  self_dropout := self_dropout (base a);
                  self_batch_first := self_batch_first (base a);
                  self_head_dim := self_head_dim (base a);
                  self_add_zero_attn := self_add_zero_attn (base a);
                  self_training := self_training (base a);
                  self_params := foldl (fun ps e => <[e.1 := e.2]> ps)
                                   (self_params (base a)) entries |};
       self_kernel_function := self_kernel_function a;
       self_attn_mask_value := self_attn_mask_value a;
       self_attention_function := self_attention_function a;
       self_attn_masking_function := self_attn_masking_function a;
       self_query_key_product := self_query_key_product a |}.
Proof.
  revert a. induction entries as [|e entries IH]; intros a.
  - by destruct a as [[]].
  - cbn [foldl]. by rewrite IH.
Qed.

(** A map overwritten with entries that are all lookups of [L]. *)
Lemma foldl_insert_lookup (L ps : gmap string ref) (entries : list (string * ref))
    (name : string) :
  (∀ n r, (n, r) ∈ entries → L !! n = Some r) →
  foldl (fun ps e => <[e.1 := e.2]> ps) ps entries !! name
  = if bool_decide (name ∈ entries.*1) then L !! name else ps !! name.
Proof.
  revert ps. induction entries as [|[n r] entries IH]; intros ps HL.
  - done.
  - cbn [foldl]. rewrite IH by (intros ???; apply HL; by right).
    rewrite fmap_cons. cbn [fst snd].
    destruct (decide (name ∈ entries.*1)) as [Hin|Hnin].
    + rewrite !bool_decide_eq_true_2; [done | by right | done].
    + rewrite (bool_decide_eq_false_2 _ Hnin).
      destruct (decide (name = n)) as [->|Hne].
      * rewrite lookup_insert_eq, bool_decide_eq_true_2 by left.
        symmetry. apply HL. by left.
      * rewrite lookup_insert_ne by done.
        rewrite bool_decide_eq_false_2; [done|]. by intros [?|?]%elem_of_cons.
Qed.

Lemma expected_are_parameter_names (same bias add_bias_kv : bool) (name : string) :
  name ∈ expected_parameters same bias add_bias_kv → name ∈ parameter_names.
Proof.
  unfold expected_parameters, parameter_names.
  destruct same, bias, add_bias_kv; set_solver.
Qed.

(** The parameters of a layer loaded over those of a module built for the
    same configuration are the layer's. *)
Lemma loaded_parameters (l : @MultiheadAttention F) (ps : gmap string ref)
    (same bias add_bias_kv : bool) :
  dom (self_params l) = expected_parameters same bias add_bias_kv →
  dom ps = expected_parameters same bias add_bias_kv →
  foldl (fun ps e => <[e.1 := e.2]> ps) ps (named_parameters l) = self_params l.
Proof.
  intros Hl Hps. apply map_eq. intros name.
  rewrite (foldl_insert_lookup (self_params l))
    by (intros n r Hin; by apply named_parameters_lookup in Hin as [_ ?]).
  case_bool_decide as Hin; [done|].
  destruct (self_params l !! name) as [r|] eqn:Hlook.
  - exfalso. apply Hin. apply list_elem_of_fmap. exists (name, r). split; [done|].
    apply named_parameters_lookup. split; [|done].
    apply (expected_are_parameter_names same bias add_bias_kv).
    rewrite <- Hl. by apply elem_of_dom.
  - apply not_elem_of_dom. rewrite Hps, <- Hl. by apply not_elem_of_dom.
Qed.

(** *** The constructor on a stored configuration *)

Lemma layer_configuration_dom (l : @MultiheadAttention F) :
  dom (layer_configuration l)
  = list_to_set ["embed_dim"; "num_heads"; "batch_first"; "dropout"; "bias";
                 "add_bias_kv"; "add_zero_attn"; "kdim"; "vdim"].
Proof. reflexivity. Qed.

(** With nothing but a layer's configuration as keyword arguments, the
    adapter's constructor is the parent's on that configuration, with the
    default functions. *)
Lemma init_from_configuration (l : @MultiheadAttention F) (h : heap F) (g : rng) :
  CustomizableMultiHead_init (layer_configuration l) h g
  = bind (MultiheadAttention_init (self_embed_dim l) (self_num_heads l) (self_dropout l)
            (is_some (self_params l !! "in_proj_bias"))
            (is_some (self_params l !! "bias_k"))
            (self_add_zero_attn l) (Some (self_kdim l)) (Some (self_vdim l))
            (self_batch_first l) h g)
      (fun '(m, h, g) => ret (with_defaults m, h, g)).
Proof.
  unfold CustomizableMultiHead_init.
  assert (Hdom : bool_decide (dom (layer_configuration l) ⊆ list_to_set known_kwargs) = true)
    by reflexivity.
  rewrite Hdom. cbn [negb]. unfold kwarg.
  change (layer_configuration l !! "embed_dim") with (Some (VInt (self_embed_dim l))).
  change (layer_configuration l !! "num_heads") with (Some (VInt (self_num_heads l))).
  change (layer_configuration l !! "dropout") with (Some (VFloat (self_dropout l))).
  change (layer_configuration l !! "bias")
    with (Some (VBool (is_some (self_params l !! "in_proj_bias")))).
  change (layer_configuration l !! "add_bias_kv")
    with (Some (VBool (is_some (self_params l !! "bias_k")))).
  change (layer_configuration l !! "add_zero_attn")
    with (Some (VBool (self_add_zero_attn l))).
  change (layer_configuration l !! "kdim") with (Some (VInt (self_kdim l))).
  change (layer_configuration l !! "vdim") with (Some (VInt (self_vdim l))).
  change (layer_configuration l !! "batch_first")
    with (Some (VBool (self_batch_first l))).
  change (layer_configuration l !! "kernel_function") with (@None pyval).
  change (layer_configuration l !! "attn_mask_value") with (@None pyval).
  change (layer_configuration l !! "attention_function") with (@None pyval).
  change (layer_configuration l !! "attn_masking_function") with (@None pyval).
  change (layer_configuration l !! "query_key_product") with (@None pyval).
  cbn [as_int as_float as_bool as_opt_int]. rewrite !bind_ret_l. reflexivity.
Qed.

(** *** Two layers through one approximator *)

(** The outcome of [get_trainable_approximation] is that of the
    constructor on the stored parameters, followed by the loading loop. *)
Lemma get_trainable_approximation_outcome (self : CustomizableMultiHeadApproximator)
    (l : @MultiheadAttention F) (h : heap F) (g : rng) :
  (get_trainable_approximation self l h g).1
  = bind (CustomizableMultiHead_init (parameters self ∪ layer_configuration l) h g)
      (fun '(a, h, g) =>
         bind (load_parameters a (named_parameters l)) (fun a => ret (a, h, g))).
Proof.
  unfold get_trainable_approximation. cbn [fst]. by rewrite store_configuration_union.
Qed.

(** On a configuration alone the call succeeds, and the approximation has
    that configuration, whatever layer the weights come from. *)
Lemma approximation_of_configuration (self : CustomizableMultiHeadApproximator)
    (l0 l : @MultiheadAttention F) (h : heap F) (g : rng) :
  parameters self ∪ layer_configuration l = layer_configuration l0 →
  valid_configuration l0 →
  ∃ ps h' g',
    (get_trainable_approximation self l h g).1
    = ret (with_defaults
             {| self_embed_dim := self_embed_dim l0; self_kdim := self_kdim l0;
                self_vdim := self_vdim l0;
                self_qkv_same_embed_dim :=
                  (self_kdim l0 =? self_embed_dim l0) && (self_vdim l0 =? self_embed_dim l0);
                self_num_heads := self_num_heads l0; self_dropout := self_dropout l0;
                self_batch_first := self_batch_first l0;
                self_head_dim := self_embed_dim l0 `div` self_num_heads l0;
                self_add_zero_attn := self_add_zero_attn l0; self_training := true;
                self_params :=
                  foldl (fun ps e => <[e.1 := e.2]> ps) ps (named_parameters l) |},
           h', g')
    ∧ dom ps = expected_parameters
                 ((self_kdim l0 =? self_embed_dim l0) && (self_vdim l0 =? self_embed_dim l0))
                 (is_some (self_params l0 !! "in_proj_bias"))
                 (is_some (self_params l0 !! "bias_k"))
    ∧ h ⊆ h'.
Proof.
  intros Hkw (Hnh & Hmod & HE & Hk & Hv).
  rewrite get_trainable_approximation_outcome, Hkw, init_from_configuration.
  destruct (MultiheadAttention_init_ok (self_embed_dim l0) (self_num_heads l0)
              (self_dropout l0) (is_some (self_params l0 !! "in_proj_bias"))
              (is_some (self_params l0 !! "bias_k")) (self_add_zero_attn l0)
              (Some (self_kdim l0)) (Some (self_vdim l0)) (self_batch_first l0) h g
              Hnh Hmod HE Hk Hv) as (ps & h' & g' & -> & Hdom & Hsub).
  exists ps, h', g'. split; [|done].
  rewrite !bind_ret_l.
  rewrite load_parameters_ok by apply named_parameters_names.
  by rewrite bind_ret_l, foldl_set_param.
Qed.

Lemma second_configuration_absorbed (ps : gmap string pyval) (l1 l2 : @MultiheadAttention F) :
  (ps ∪ layer_configuration l1) ∪ layer_configuration l2 = ps ∪ layer_configuration l1.
Proof.
  apply map_eq. intros k. rewrite lookup_union.
  destruct ((ps ∪ layer_configuration l1) !! k) as [v|] eqn:Hk.
  - by destruct (layer_configuration l2 !! k).
  - apply lookup_union_None in Hk as [_ Hk].
    apply not_elem_of_dom in Hk. rewrite layer_configuration_dom in Hk.
    rewrite <- (layer_configuration_dom l2) in Hk. apply not_elem_of_dom in Hk.
    by rewrite Hk.
Qed.

(** C9. [get_trainable_approximation] writes the configuration of the
    source layer into [self.parameters] under every key that is not there
    yet. A second call, with another layer, then finds every key present: it
    leaves [self.parameters] as they are and builds its approximation from
    them; so with a fresh approximator (empty parameters) the second
    approximation has the configuration of the first layer, whatever the
    second layer's. *)
Theorem stored_configuration_is_reused (self : CustomizableMultiHeadApproximator)
    (l1 l2 : @MultiheadAttention F) (h h' : heap F) (g g' : rng) :
  let r1 := get_trainable_approximation self l1 h g in
  let r2 := get_trainable_approximation r1.2 l2 h' g' in
  parameters r1.2 = parameters self ∪ layer_configuration l1
  ∧ parameters r2.2 = parameters r1.2
  ∧ r2.1 = bind (CustomizableMultiHead_init (parameters r1.2) h' g')
             (fun '(a, h, g) =>
                bind (load_parameters a (named_parameters l2)) (fun a => ret (a, h, g)))
  ∧ (parameters self = ∅ → valid_configuration l1 →
     ∃ a2 h2 g2,
       r2.1 = ret (a2, h2, g2)
       ∧ self_embed_dim (base a2) = self_embed_dim l1
       ∧ self_num_heads (base a2) = self_num_heads l1
       ∧ self_batch_first (base a2) = self_batch_first l1
       ∧ self_dropout (base a2) = self_dropout l1
       ∧ self_add_zero_attn (base a2) = self_add_zero_attn l1
       ∧ self_kdim (base a2) = self_kdim l1
       ∧ self_vdim (base a2) = self_vdim l1
       ∧ self_head_dim (base a2) = self_embed_dim l1 `div` self_num_heads l1).
Proof.
  intros r1 r2.
  assert (H1 : parameters r1.2 = parameters self ∪ layer_configuration l1).
  { unfold r1, get_trainable_approximation. cbn [snd parameters].
    apply store_configuration_union. }
  assert (H2 : parameters r1.2 ∪ layer_configuration l2 = parameters r1.2).
  { rewrite H1. apply second_configuration_absorbed. }
  split; [exact H1|]. split; [|split].
  - unfold r2, get_trainable_approximation. cbn [snd parameters].
    by rewrite store_configuration_union.
  - unfold r2. by rewrite get_trainable_approximation_outcome, H2.
  - intros Hfresh Hvalid.
    destruct (approximation_of_configuration r1.2 l1 l2 h' g') as (ps & h2 & g2 & Hrun & _).
    { rewrite H2, H1, Hfresh. apply (left_id_L ∅ (∪)). }
    { done. }
    eexists _, h2, g2. split; [exact Hrun|]. done.
Qed.

End Extraction.

(** *** Concrete runs *)

Lemma example_layer_valid : valid_configuration example_layer.
Proof. repeat split; simpl; lia. Defined.

Lemma example_layer_well_formed : well_formed_layer example_layer example_heap.
Proof.
  split; [exact example_layer_valid|]. repeat split.
  intros name r Hl. simpl in Hl.
  apply lookup_insert_Some in Hl as [[_ <-]|[_ Hl]]; [by eexists|].
  apply lookup_singleton_Some in Hl as [_ <-]. by eexists.
Defined.

Lemma stored_configuration_is_reused_witness :
  ∃ a2 h2 g2,
    (get_trainable_approximation
       (get_trainable_approximation {| parameters := ∅; approximations := [] |}
          example_layer example_heap 1).2
       other_layer example_heap 2).1 = ret (a2, h2, g2)
    ∧ self_embed_dim (base a2) = 4
    ∧ self_num_heads (base a2) = 2
    ∧ self_batch_first (base a2) = false.
Proof.
  destruct (proj2 (proj2 (proj2 (@stored_configuration_is_reused float Float64.scalar
              {| parameters := ∅; approximations := [] |} example_layer other_layer
              example_heap example_heap 1 2))) eq_refl example_layer_valid)
    as (a2 & h2 & g2 & Hrun & HE & Hnh & Hbf & _).
  exists a2, h2, g2. split; [exact Hrun|]. split; [exact HE|]. split; [exact Hnh|exact Hbf].
Defined.

(** ** More indexing *)

Lemma tnth_tabulate {A} `{Inhabited A} (sh idx : list Z) (f : list Z → A) :
  in_range sh idx = true → tnth (tabulate sh f) idx = f idx.
Proof. intros Hr. apply tnth_tget. by apply tget_tabulate. Qed.

Lemma prod_list_nonneg (sh : list Z) :
  Forall (fun d => 0 <= d) sh → 0 <= prod_list sh.
Proof. induction 1; simpl; [lia | nia]. Qed.

Lemma in_range_unravel (sh : list Z) (n : Z) :
  Forall (fun d => 0 <= d) sh → 0 <= n < prod_list sh →
  in_range sh (unravel sh n) = true ∧ ravel sh (unravel sh n) = n.
Proof.
  intros Hnn. revert n. induction Hnn as [|d sh Hd Hnn IH]; intros n Hn.
  - simpl in *. split; [done | lia].
  - simpl in Hn.
    assert (Hp : 0 < prod_list sh).
    { pose proof (prod_list_nonneg sh Hnn). nia. }
    destruct (IH (n `mod` prod_list sh)) as [Hr Hv].
    { apply Z.mod_pos_bound. lia. }
    cbn [unravel in_range ravel]. rewrite Hr, Hv. split.
    + rewrite andb_true_r. apply andb_true_iff. split.
      * apply Z.leb_le. apply Z.div_pos; lia.
      * apply Z.ltb_lt. apply Z.div_lt_upper_bound; lia.
    + rewrite (Z.div_mod n (prod_list sh)) at 3 by lia. lia.
Qed.

(** Reading every position of a well-formed tensor gives the tensor. *)
Lemma tabulate_tnth {A} `{Inhabited A} (t : tensor A) (sh : list Z) :
  Forall (fun d => 0 <= d) sh → length (data t) = Z.to_nat (prod_list sh) →
  tabulate sh (fun idx => data t !!! Z.to_nat (ravel sh idx)) = mkT sh (data t).
Proof.
  intros Hnn Hlen. unfold tabulate. f_equal.
  apply list_eq. intros i. rewrite list_lookup_fmap.
  destruct (decide (i < length (data t))%nat) as [Hi|Hi].
  - assert (Hs : seqZ 0 (prod_list sh) !! i = Some (Z.of_nat i)).
    { apply lookup_seqZ. lia. }
    rewrite Hs. simpl.
    destruct (in_range_unravel sh (Z.of_nat i) Hnn) as [_ ->]; [lia|].
    rewrite Nat2Z.id. symmetry. apply list_lookup_lookup_total_lt. done.
  - rewrite (lookup_ge_None_2 (data t)) by lia.
    rewrite lookup_ge_None_2; [done|]. rewrite length_seqZ. lia.
Qed.

(** Two tabulations that agree on every index in range. *)
Lemma tabulate_ext {A} (sh : list Z) (f g : list Z → A) :
  Forall (fun d => 0 <= d) sh →
  (∀ idx, in_range sh idx = true → f idx = g idx) → tabulate sh f = tabulate sh g.
Proof.
  intros Hnn Hfg. unfold tabulate. f_equal. apply list_eq. intros i.
  rewrite !list_lookup_fmap.
  destruct (seqZ 0 (prod_list sh) !! i) as [n|] eqn:Hs; [|done]. simpl. f_equal.
  apply lookup_seqZ in Hs as [-> Hi]. apply Hfg.
  apply in_range_unravel; [done | lia].
Qed.

(** ** The effect monad *)

Lemma bind_assoc {A B C} (m : M A) (f : A → M B) (k : B → M C) :
  bind (bind m f) k = bind m (fun x => bind (f x) k).
Proof.
  destruct m as [[x|e] l]; [|done]. simpl.
  destruct (f x) as [[y|e] l1]; simpl; [|done].
  destruct (k y) as [r l2]. by rewrite app_assoc.
Qed.

Lemma bind_ext {A B} (m : M A) (f g : A → M B) :
  (∀ x, f x = g x) → bind m f = bind m g.
Proof. intros Hfg. destruct m as [[x|e] l]; [|done]. simpl. by rewrite Hfg. Qed.

Lemma result_bind {A B} (m : M A) (f : A → M B) :
  result (bind m f) = match result m with Ok x => result (f x) | Raise e => Raise e end.
Proof. destruct m as [[x|e] l]; [|done]. simpl. by destruct (f x). Qed.

Lemma events_bind {A B} (m : M A) (f : A → M B) :
  events (bind m f)
  = events m ++ match result m with Ok x => events (f x) | Raise _ => [] end.
Proof.
  destruct m as [[x|e] l]; simpl; [|by rewrite app_nil_r]. by destruct (f x).
Qed.

(** A successful bind is two successful steps. *)
Lemma bind_Ok_inv {A B} (m : M A) (f : A → M B) (y : B) (l : list event) :
  bind m f = (Ok y, l) →
  ∃ x l1 l2, m = (Ok x, l1) ∧ f x = (Ok y, l2) ∧ l = l1 ++ l2.
Proof.
  destruct m as [[x|e] l1]; [|done]. simpl.
  destruct (f x) as [r l2] eqn:Hf. intros [= -> <-]. by exists x, l1, l2.
Qed.

(** ** The query-key product and the attention function *)

Section Kernel.

Context {F : Type} {SF : Scalar F}.

#[local] Existing Instance F_inhabited.

Lemma shape_tabulate {A} (sh : list Z) (f : list Z → A) : shape (tabulate sh f) = sh.
Proof. reflexivity. Qed.

Lemma shape_div_scalar (t : tensor F) (c : F) : shape (div_scalar t c) = shape t.
Proof. reflexivity. Qed.

Lemma tnth_div_scalar (t : tensor F) (c : F) (idx : list Z) :
  wf_tensor t → in_range (shape t) idx = true →
  tnth (div_scalar t c) idx = fdiv (tnth t idx) c.
Proof.
  intros Hwf Hr. unfold tnth, div_scalar. cbn [shape data].
  apply (list_lookup_total_fmap (fun x => fdiv x c)).
  pose proof (ravel_bounds _ _ Hr). unfold wf_tensor, numel in Hwf. lia.
Qed.

(** X1. On a query of shape [B, Nt, E] and a key of shape [B, Ns, E] the
    default query-key product divides the query by the square root of [E],
    transposes the key and multiplies: the result has shape [B, Nt, Ns] and
    its element [(b, i, j)] is the sum over [e] of
    [query[b, i, e] / sqrt(E) * key[b, j, e]]. *)
Theorem scaled_dot_product_elements (query key : tensor F) (B Nt Ns E : Z) :
  shape query = [B; Nt; E] → shape key = [B; Ns; E] → wf_tensor query →
  ∃ attn,
    _scaled_dot_product query key = (Ok attn, [Op "div"; Op "transpose"; Op "bmm"])
    ∧ shape attn = [B; Nt; Ns]
    ∧ ∀ b i j, 0 <= b < B → 0 <= i < Nt → 0 <= j < Ns →
        tget attn [b; i; j]
        = Some (fsum ((fun e => fmul (fdiv (tnth query [b; i; e]) (fsqrt (f_of_Z E)))
                                     (tnth key [b; j; e])) <$> range E)).
Proof.
  intros Hq Hk Hwf. unfold _scaled_dot_product, transpose_last2, transpose, bmm, call.
  rewrite Hq, Hk. cbn -[tabulate div_scalar range Z.eqb].
  rewrite shape_div_scalar, shape_tabulate, Hq, !Z.eqb_refl.
  cbn -[tabulate div_scalar range]. eexists. split; [reflexivity|]. split; [reflexivity|].
  intros b i j Hb Hi Hj. rewrite tget_tabulate by (apply in_range_3; lia).
  f_equal. f_equal. apply list_fmap_ext. intros n e He.
  apply lookup_seqZ in He as [-> Hn].
  cbn [lookup_total list_lookup_total].
  rewrite tnth_div_scalar by (try rewrite Hq; try apply in_range_3; auto; lia).
  rewrite tnth_tabulate by (apply in_range_3; lia). reflexivity.
Qed.

(** X2. The default query-key product refuses its inputs as Python and
    torch do: a query that is not three-dimensional cannot be unpacked
    (ValueError, before any operation); a key of fewer than two dimensions
    cannot be transposed (IndexError, after the division); and a key whose
    batch or embedding size differs from the query's is refused by the
    product itself (RuntimeError). *)
Theorem scaled_dot_product_errors (query key : tensor F) :
  (length (shape query) ≠ 3%nat →
     ∃ msg, _scaled_dot_product query key = (Raise (ValueError msg), []))
  ∧ (length (shape query) = 3%nat → (length (shape key) < 2)%nat →
       ∃ msg, _scaled_dot_product query key
              = (Raise (IndexError msg), [Op "div"; Op "transpose"]))
  ∧ (∀ B Nt E B' Ns E',
       shape query = [B; Nt; E] → shape key = [B'; Ns; E'] → B ≠ B' ∨ E ≠ E' →
       ∃ msg, _scaled_dot_product query key
              = (Raise (RuntimeError msg), [Op "div"; Op "transpose"; Op "bmm"])).
Proof.
  split; [|split].
  - intros Hlen. unfold _scaled_dot_product.
    destruct (shape query) as [|?[|?[|?[|??]]]]; try done; by eexists.
  - intros Hq Hk. unfold _scaled_dot_product, transpose_last2, call.
    destruct (shape query) as [|B[|Nt[|E[|??]]]]; try done.
    destruct (shape key) as [|?[|??]]; simpl in Hk; try lia; by eexists.
  - intros B Nt E B' Ns E' Hq Hk Hne.
    unfold _scaled_dot_product, transpose_last2, transpose, bmm, call.
    rewrite Hq, Hk. cbn -[tabulate div_scalar range Z.eqb].
    rewrite shape_div_scalar, shape_tabulate, Hq.
    assert (Hc : (B =? B') && (E =? E') = false).
    { apply andb_false_iff. destruct Hne; [left | right]; by apply Z.eqb_neq. }
    rewrite Hc. by eexists.
Qed.

(** X3. What a successful call of the attention function returns: the
    output is the product of the returned weights with the values, so the
    weights handed back are the ones that were applied, dropout included.
    With a dropout probability that is not positive (zero, or negative) no
    dropout runs: the weights are what the kernel function returned, the
    random state comes back untouched, and the log is that of the three
    pluggable functions followed by the final product. With a positive
    probability the weights are the dropout of the kernel's. *)
Theorem attention_returns_applied_weights (q k v : tensor F) (mask : option (tensor F))
    (p : F) (kf : kernel_fn) (mv : F) (mf : masking_fn) (pf : product_fn) (g g' : rng)
    (out attn : tensor F) (evs : list event) :
  _scaled_dot_product_attention q k v mask p kf mv mf pf g = (Ok (out, attn, g'), evs) →
  bmm attn v = Ok out
  ∧ ∃ s s' w e1 e2 e3,
      pf q k = (Ok s, e1) ∧ mf s mask mv = (Ok s', e2) ∧ kf s' = (Ok w, e3)
      ∧ if fgtb p f0
        then dropout w p g = Ok (attn, g')
             ∧ evs = e1 ++ e2 ++ e3 ++ [Op "dropout"; Op "bmm"]
        else attn = w ∧ g' = g ∧ evs = e1 ++ e2 ++ e3 ++ [Op "bmm"].
Proof.
  unfold _scaled_dot_product_attention. intros Hrun.
  apply bind_Ok_inv in Hrun as (s & e1 & l1 & Hpf & Hrun & ->).
  apply bind_Ok_inv in Hrun as (s' & e2 & l2 & Hmf & Hrun & ->).
  apply bind_Ok_inv in Hrun as (w & e3 & l3 & Hkf & Hrun & ->).
  apply bind_Ok_inv in Hrun as ([w' g1] & e4 & l4 & Hdrop & Hrun & ->).
  apply bind_Ok_inv in Hrun as (o & e5 & l5 & Hbmm & Hret & ->).
  injection Hret as <- <- <- <-. unfold call in Hbmm. injection Hbmm as Hbmm <-.
  split; [done|]. exists s, s', w, e1, e2, e3. repeat (split; [done|]).
  destruct (fgtb p f0).
  - unfold call in Hdrop. injection Hdrop as Hdrop <-. split; [done|].
    by rewrite app_nil_r.
  - injection Hdrop as <- <- <-. by rewrite app_nil_r.
Qed.

End Kernel.

(** ** The shape set-up and the checks of the engine *)

Section Checks.

Context {F : Type} {SF : Scalar F}.

#[local] Existing Instance F_inhabited.

Lemma shape_setup_unfold (a : mha_args) :
  shape_setup a
  = let* is_batched :=
      _mha_shape_check (query a) (key a) (value a) (key_padding_mask a) (attn_mask a)
        (num_heads a) in
    let* (query, key, value, key_padding_mask) := promote_unbatched a is_batched in
    shape_variables a is_batched query key value key_padding_mask.
Proof. reflexivity. Qed.

Lemma assert_Ok_inv (c : bool) (msg : string) (u : unit) (l : list event) :
  assert c msg = (Ok u, l) → c = true ∧ l = [].
Proof. destruct c; [|done]. by intros [= <- <-]. Qed.

Lemma dim_length {A} (t : tensor A) (n : nat) :
  (dim t =? Z.of_nat n) = true → length (shape t) = n.
Proof. unfold dim. intros H%Z.eqb_eq. lia. Qed.

(** What a passed shape check says of its arguments. *)
Lemma mha_shape_check_inv (q k v : tensor F) (kpm : option padding_mask)
    (m : option mask) (nh : Z) (b : bool) (l : list event) :
  _mha_shape_check q k v kpm m nh = (Ok b, l) →
  l = []
  ∧ length (shape q) = (if b then 3 else 2)%nat
  ∧ length (shape k) = length (shape q)
  ∧ length (shape v) = length (shape q)
  ∧ (∀ m0, m = Some m0 → mask_dim m0 = 2 ∨ mask_dim m0 = 3).
Proof.
  unfold _mha_shape_check. intros Hrun.
  assert (Hmask : ∀ (msg : string) u l0,
            match m with
            | Some m0 => assert ((mask_dim m0 =? 2) || (mask_dim m0 =? 3)) msg
            | None => ret tt
            end = (Ok u, l0) →
            l0 = [] ∧ ∀ m0, m = Some m0 → mask_dim m0 = 2 ∨ mask_dim m0 = 3).
  { intros msg u l0 Hm. destruct m as [m0|].
    - apply assert_Ok_inv in Hm as [Hm ->]. split; [done|]. intros ? [= <-].
      apply orb_true_iff in Hm as [?%Z.eqb_eq|?%Z.eqb_eq]; auto.
    - injection Hm as <-. split; [done|]. by intros. }
  assert (Hkpm : ∀ (n : Z) (msg : string) u l0,
            match kpm with
            | Some m0 => assert (kpm_dim m0 =? n) msg
            | None => ret tt
            end = (Ok u, l0) → l0 = []).
  { intros n msg u l0 Hm. destruct kpm as [m0|].
    - by apply assert_Ok_inv in Hm as [_ ->].
    - by injection Hm as <-. }
  destruct (dim q =? 3) eqn:Hq3; [|destruct (dim q =? 2) eqn:Hq2; [|done]].
  - apply bind_Ok_inv in Hrun as (? & l1 & l2 & Hkv & Hrun & ->).
    apply assert_Ok_inv in Hkv as [[Hk Hv]%andb_true_iff ->].
    apply bind_Ok_inv in Hrun as (? & l3 & l4 & Hp & Hrun & ->).
    apply Hkpm in Hp as ->.
    apply bind_Ok_inv in Hrun as (? & l5 & l6 & Hm & Hrun & ->).
    apply Hmask in Hm as [-> Hm]. injection Hrun as <- <-.
    apply (dim_length _ 3) in Hq3, Hk, Hv. rewrite Hq3. done.
  - apply bind_Ok_inv in Hrun as (? & l1 & l2 & Hkv & Hrun & ->).
    apply assert_Ok_inv in Hkv as [[Hk Hv]%andb_true_iff ->].
    apply bind_Ok_inv in Hrun as (? & l3 & l4 & Hp & Hrun & ->).
    apply Hkpm in Hp as ->.
    apply bind_Ok_inv in Hrun as (? & l5 & l6 & Hm & Hrun & ->).
    injection Hrun as <- <-.
    apply (dim_length _ 2) in Hq2, Hk, Hv. rewrite Hq2.
    assert (Hm' : l5 = [] ∧ ∀ m0, m = Some m0 → mask_dim m0 = 2 ∨ mask_dim m0 = 3).
    { destruct m as [m0|].
      - apply bind_Ok_inv in Hm as (? & l7 & l8 & Hm & Hrest & ->).
        apply (Hmask _ _ _) in Hm as [-> Hm]. split; [|done].
        destruct (mask_dim m0 =? 3).
        + by apply assert_Ok_inv in Hrest as [_ ->].
        + by injection Hrest as <-.
      - injection Hm as <-. split; [done|]. by intros. }
    destruct Hm' as [-> Hm']. done.
Qed.

Lemma only_promote_unbatched (a : mha_args) (b : bool) :
  only layout_only (promote_unbatched a b).
Proof.
  unfold promote_unbatched. destruct b; cbn [negb]; [apply only_ret|].
  repeat first
    [ apply only_ret
    | apply only_call; by right
    | apply only_bind; [|intros ?]
    | match goal with |- only _ (match ?o with Some _ => _ | None => _ end) => destruct o end ].
Qed.

(** The promotion never fails on inputs that passed the shape check, and
    leaves three-dimensional query, key and value: the given ones when
    batched, and otherwise the given ones with a batch dimension of one. *)
Lemma promote_unbatched_ok (a : mha_args) (b : bool) :
  length (shape (query a)) = (if b then 3 else 2)%nat →
  length (shape (key a)) = length (shape (query a)) →
  length (shape (value a)) = length (shape (query a)) →
  ∃ q k v kpm evs,
    promote_unbatched a b = (Ok (q, k, v, kpm), evs)
    ∧ Forall layout_only evs
    ∧ (b = true → evs = [] ∧ kpm = key_padding_mask a)
    ∧ (shape q = promoted_shape b (shape (query a)) ∧ data q = data (query a))
    ∧ (shape k = promoted_shape b (shape (key a)) ∧ data k = data (key a))
    ∧ (shape v = promoted_shape b (shape (value a)) ∧ data v = data (value a)).
Proof.
  intros Hq Hk Hv. pose proof (only_promote_unbatched a b) as Honly.
  unfold promote_unbatched in *. destruct b; cbn [negb] in *.
  { eexists _, _, _, _, _. split; [reflexivity|]. by repeat split. }
  rewrite Hq in Hk, Hv. unfold unsqueeze, call in *. rewrite Hq, Hk, Hv in *.
  destruct (key_padding_mask a) as [[t|t]|]; cbn -[take drop] in *;
    (eexists _, _, _, _, _; split; [reflexivity|]; split; [exact Honly|]; by repeat split).
Qed.

Lemma promoted_shape_length (b : bool) (sh : list Z) :
  length sh = (if b then 3 else 2)%nat → length (promoted_shape b sh) = 3%nat.
Proof. destruct b; [done|]. by destruct sh as [|?[|?[|??]]]. Qed.

Lemma promoted_shape_last (b : bool) (sh : list Z) :
  length sh = (if b then 3 else 2)%nat → last (promoted_shape b sh) = last sh.
Proof. destruct b; [done|]. by destruct sh as [|?[|?[|??]]]. Qed.

Lemma promoted_shape_inj (b : bool) (s1 s2 : list Z) :
  promoted_shape b s1 = promoted_shape b s2 → s1 = s2.
Proof.
  destruct b; [done|]. unfold promoted_shape.
  destruct s1 as [|x s1], s2 as [|y s2]; simpl; rewrite ?drop_0; congruence.
Qed.

Lemma engine_raises_in_setup (a : mha_args) (g : rng) (e : exn) (l : list event) :
  shape_setup a = (Raise e, l) → _multi_head_attention_forward a g = (Raise e, l).
Proof. intros H. rewrite engine_dispatch. unfold prepare. by rewrite H. Qed.

Lemma fails_result {A} (P : event → Prop) (m : M A) (e : exn) (l : list event) :
  m = (Raise e, l) → Forall P l → fails P m.
Proof. intros -> Hl. split; [by exists e | done]. Qed.

(** The shape set-up on inputs that passed the shape check: the promotion
    succeeds, and the outcome is that of the shape variables on the promoted
    inputs. *)
Lemma shape_setup_checked (a : mha_args) (b : bool) (l : list event) :
  _mha_shape_check (query a) (key a) (value a) (key_padding_mask a) (attn_mask a)
    (num_heads a) = (Ok b, l) →
  ∃ q k v kpm evs,
    promote_unbatched a b = (Ok (q, k, v, kpm), evs)
    ∧ Forall layout_only evs
    ∧ (b = true → evs = [] ∧ kpm = key_padding_mask a)
    ∧ (shape q = promoted_shape b (shape (query a)) ∧ data q = data (query a))
    ∧ (shape k = promoted_shape b (shape (key a)) ∧ data k = data (key a))
    ∧ (shape v = promoted_shape b (shape (value a)) ∧ data v = data (value a))
    ∧ length (shape q) = 3%nat ∧ length (shape k) = 3%nat ∧ length (shape v) = 3%nat
    ∧ last (shape q) = last (shape (query a))
    ∧ shape_setup a
      = (result (shape_variables a b q k v kpm),
         evs ++ events (shape_variables a b q k v kpm)).
Proof.
  intros Hcheck. pose proof (mha_shape_check_inv _ _ _ _ _ _ _ _ Hcheck)
    as (-> & Hq & Hk & Hv & _).
  destruct (promote_unbatched_ok a b Hq Hk Hv)
    as (q & k & v & kpm & evs & Hpro & Hev & Hb & [Hsq Hdq] & [Hsk Hdk] & [Hsv Hdv]).
  exists q, k, v, kpm, evs. repeat (split; [done|]).
  rewrite Hsq, Hsk, Hsv. rewrite Hq in Hk, Hv.
  rewrite !promoted_shape_length, promoted_shape_last by done.
  repeat (split; [done|]).
  rewrite shape_setup_unfold, Hcheck. cbn [bind]. rewrite Hpro. cbn [bind].
  by destruct (shape_variables a b q k v kpm).
Qed.

Lemma unpack3_length (sh : list Z) :
  length sh = 3%nat → ∃ x y z, sh = [x; y; z] ∧ unpack3 sh = ret (x, y, z).
Proof. destruct sh as [|x[|y[|z[|??]]]]; try done. by exists x, y, z. Qed.

(** X4. The query's embedding dimension must be the one the module was
    built for: a call whose query has another last dimension raises, and
    nothing but the promotion of unbatched inputs has run by then (no
    in-projection, no attention); when the inputs have passed the rank check
    the exception is the AssertionError of lines 420-422. *)
Theorem embed_dim_mismatch_raises (a : mha_args) (g : rng) :
  last (shape (query a)) ≠ Some (embed_dim_to_check a) →
  fails layout_only (_multi_head_attention_forward a g)
  ∧ (is_ok (result (_mha_shape_check (query a) (key a) (value a) (key_padding_mask a)
                      (attn_mask a) (num_heads a))) = true →
     result (_multi_head_attention_forward a g)
     = Raise (AssertionError "was expecting embedding dimension of embed_dim_to_check")).
Proof.
  intros Hne.
  destruct (_mha_shape_check (query a) (key a) (value a) (key_padding_mask a)
              (attn_mask a) (num_heads a)) as [[b|e] l] eqn:Hcheck.
  - destruct (shape_setup_checked a b l Hcheck)
      as (q & k & v & kpm & evs & _ & Hev & _ & _ & _ & _ & Hq & Hk & _ & Hlast & Hrun).
    destruct (unpack3_length _ Hq) as (T & B & E & HqE & Hu1).
    destruct (unpack3_length _ Hk) as (S & B' & E' & _ & Hu2).
    assert (Hvars : shape_variables a b q k v kpm
                    = (Raise (AssertionError
                         "was expecting embedding dimension of embed_dim_to_check"), [])).
    { unfold shape_variables. rewrite Hu1, Hu2, !bind_ret_l.
      rewrite HqE in Hlast. cbn in Hlast.
      destruct (Z.eqb_spec E (embed_dim_to_check a)) as [->|_]; [|done].
      by rewrite <- Hlast in Hne. }
    rewrite Hvars in Hrun. cbn [result events] in Hrun. rewrite app_nil_r in Hrun.
    rewrite (engine_raises_in_setup a g _ _ Hrun). split; [|done].
    by apply (fails_result _ _ _ _ eq_refl).
  - assert (Hrun : shape_setup a = (Raise e, l)).
    { by rewrite shape_setup_unfold, Hcheck. }
    rewrite (engine_raises_in_setup a g _ _ Hrun). split; [|done].
    apply (fails_result _ _ _ _ eq_refl).
    pose proof (only_mha_shape_check layout_only (query a) (key a) (value a)
                  (key_padding_mask a) (attn_mask a) (num_heads a)) as Ho.
    by rewrite Hcheck in Ho.
Qed.

(** X5. Key and value must agree in shape when the packed projection is
    used (in sequence and batch sizes when the projections are separate):
    with an embedding dimension that passes its two checks, a call that has
    passed the rank check and whose key and value differ there raises
    AssertionError, before any in-projection. *)
Theorem key_value_shape_mismatch_raises (a : mha_args) (g : rng) (b : bool) (l : list event) :
  _mha_shape_check (query a) (key a) (value a) (key_padding_mask a) (attn_mask a)
    (num_heads a) = (Ok b, l) →
  last (shape (query a)) = Some (embed_dim_to_check a) →
  num_heads a ≠ 0 → embed_dim_to_check a `mod` num_heads a = 0 →
  (if use_separate_proj_weight a
   then take 1 (shape (key a)) ≠ take 1 (shape (value a))
        ∨ (b = true ∧ take 2 (shape (key a)) ≠ take 2 (shape (value a)))
   else shape (key a) ≠ shape (value a)) →
  fails layout_only (_multi_head_attention_forward a g)
  ∧ result (_multi_head_attention_forward a g)
    = Raise (AssertionError
               (if use_separate_proj_weight a
                then "key's sequence and batch dims do not match value's"
                else "key shape does not match value shape")).
Proof.
  intros Hcheck HE Hnh Hmod Hkv.
  destruct (shape_setup_checked a b l Hcheck)
    as (q & k & v & kpm & evs & _ & Hev & _ & _ & [Hsk _] & [Hsv _]
        & Hq & Hk & _ & Hlast & Hrun).
  destruct (unpack3_length _ Hq) as (T & B & E & HqE & Hu1).
  destruct (unpack3_length _ Hk) as (S & B' & E' & _ & Hu2).
  rewrite HqE in Hlast. cbn in Hlast. rewrite HE in Hlast. injection Hlast as ->.
  assert (Hvars : shape_variables a b q k v kpm
                  = (Raise (AssertionError
                       (if use_separate_proj_weight a
                        then "key's sequence and batch dims do not match value's"
                        else "key shape does not match value shape")), [])).
  { unfold shape_variables, floordiv. rewrite Hu1, Hu2, !bind_ret_l.
    rewrite Z.eqb_refl. cbn [assert]. rewrite bind_ret_l.
    destruct (Z.eqb_spec (num_heads a) 0); [done|]. rewrite bind_ret_l.
    assert (Hprod : (embed_dim_to_check a `div` num_heads a * num_heads a
                     =? embed_dim_to_check a) = true).
    { apply Z.eqb_eq. rewrite (Z.div_mod (embed_dim_to_check a) (num_heads a)) at 2 by done.
      lia. }
    rewrite Hprod. cbn [assert]. rewrite bind_ret_l.
    destruct (use_separate_proj_weight a).
    - assert (Hc : shape_eqb (take 2 (shape k)) (take 2 (shape v)) = false).
      { apply not_true_is_false. rewrite shape_eqb_eq, Hsk, Hsv. intros Heq.
        destruct b.
        - destruct Hkv as [Hkv|[_ Hkv]]; [|done]. apply Hkv.
          simpl in Heq. apply (f_equal (take 1%nat)) in Heq.
          by rewrite !take_take in Heq.
        - destruct Hkv as [Hkv|[? _]]; [|done]. apply Hkv. unfold promoted_shape in Heq.
          destruct (shape (key a)) as [|x ?], (shape (value a)) as [|y ?];
            simpl in *; rewrite ?take_0 in *; congruence. }
      by rewrite Hc.
    - assert (Hc : shape_eqb (shape k) (shape v) = false).
      { apply not_true_is_false. rewrite shape_eqb_eq, Hsk, Hsv.
        by intros ?%promoted_shape_inj. }
      by rewrite Hc. }
  rewrite Hvars in Hrun. cbn [result events] in Hrun. rewrite app_nil_r in Hrun.
  rewrite (engine_raises_in_setup a g _ _ Hrun). split; [|done].
  by apply (fails_result _ _ _ _ eq_refl).
Qed.

End Checks.

(** ** What each stage of the preparation can log *)

Lemma only_warn (P : event → Prop) (msg : string) : P (Warn msg) → only P (warn msg).
Proof. intros HP. by repeat constructor. Qed.

Ltac only_steps solve_event :=
  repeat first
    [ apply only_ret | apply only_raise | apply only_assert
    | apply only_call; solve_event
    | apply only_warn; solve_event
    | apply only_bind; [|intros ?]
    | match goal with
      | |- only _ (if ?c then _ else _) => destruct c
      | |- only _ (match ?o with Some _ => _ | None => _ end) => destruct o
      | |- only _ (match ?x with (_, _) => _ end) => destruct x
      | |- only _ (match ?m with MFloat _ => _ | MBool _ => _ | MByte _ => _
                                 | MOther _ _ => _ end) => destruct m
      | |- only _ (match ?m with KBool _ => _ | KByte _ => _ end) => destruct m
      | |- only _ (match ?m with FMask _ => _ | BMask _ => _ end) => destruct m
      end ].

Section StageEvents.

Context {F : Type} {SF : Scalar F}.

#[local] Existing Instance F_inhabited.

Lemma only_shape_setup (P : event → Prop) (a : mha_args) :
  P (Op "unsqueeze") → only P (shape_setup a).
Proof.
  intros HP. rewrite shape_setup_unfold.
  apply only_bind; [apply only_mha_shape_check|]. intros b.
  apply only_bind.
  { unfold promote_unbatched. only_steps ltac:(exact HP). }
  intros [[[q k] v] kpm]. unfold shape_variables, floordiv.
  apply only_bind; [apply only_unpack3|]. intros [[T B] E].
  apply only_bind; [apply only_unpack3|]. intros [[S ?] ?].
  only_steps ltac:(exact HP).
Qed.

Lemma only_compute_in_projection (P : event → Prop) (a : mha_args) (s : shapes) :
  P (Op "_in_projection_packed") → P (Op "chunk") → P (Op "_in_projection") →
  only P (compute_in_projection a s).
Proof.
  intros H1 H2 H3. unfold compute_in_projection, not_none.
  only_steps ltac:(assumption).
Qed.

Lemma only_prep_attention_mask (P : event → Prop) (a : mha_args) (s : shapes) :
  P (Warn "Byte tensor for attn_mask in nn.MultiheadAttention is deprecated. Use bool tensor instead.") →
  P (Op "to") → P (Op "unsqueeze") →
  only P (prep_attention_mask a s).
Proof.
  intros H1 H2 H3. unfold prep_attention_mask.
  only_steps ltac:(assumption).
Qed.

Lemma only_prep_key_padding_mask (P : event → Prop) (kpm : option padding_mask) :
  P (Warn "Byte tensor for key_padding_mask in nn.MultiheadAttention is deprecated. Use bool tensor instead.") →
  P (Op "to") →
  only P (prep_key_padding_mask kpm).
Proof.
  intros H1 H2. unfold prep_key_padding_mask.
  only_steps ltac:(assumption).
Qed.

End StageEvents.

(** ** The mask checks and the bias guards *)

Section MaskChecks.

Context {F : Type} {SF : Scalar F}.

#[local] Existing Instance F_inhabited.

(** X6. The third branch of the dimension test of the attention mask
    (lines 497-500) is dead code: in a call that got through the shape
    set-up, the shape check has already refused every mask that is neither
    two- nor three-dimensional, so the mask preparation never raises
    "attn_mask's dimension is not supported". *)
Theorem unsupported_mask_dimension_unreachable (a : mha_args) (s : shapes)
    (evs : list event) :
  shape_setup a = (Ok s, evs) →
  result (prep_attention_mask a s)
  ≠ Raise (RuntimeError "attn_mask's dimension is not supported").
Proof.
  intros Hsetup. rewrite shape_setup_unfold in Hsetup.
  apply bind_Ok_inv in Hsetup as (b & l1 & l2 & Hcheck & _ & _).
  apply mha_shape_check_inv in Hcheck as (_ & _ & _ & _ & Hdim).
  unfold prep_attention_mask. destruct (attn_mask a) as [am|]; [|done].
  specialize (Hdim am eq_refl).
  assert (Hfb : ∀ (m' : @fb_mask F) (l : list event),
            fb_shape m' = mask_shape am →
            result (bind (@pair (Res (@fb_mask F)) _ (Ok m') l)
                      (fun m : @fb_mask F =>
                         if fb_dim m =? 2 then
                           if negb (shape_eqb (fb_shape m) [tgt_len s; src_len s])
                           then raise (RuntimeError "The shape of the 2D attn_mask is wrong")
                           else let* m := call "unsqueeze" (fb_unsqueeze m 0) in ret (Some m)
                         else if fb_dim m =? 3 then
                           if negb (shape_eqb (fb_shape m)
                                      [bsz s * num_heads a; tgt_len s; src_len s])
                           then raise (RuntimeError "The shape of the 3D attn_mask is wrong")
                           else ret (Some m)
                         else raise (RuntimeError "attn_mask's dimension is not supported")))
            ≠ Raise (RuntimeError "attn_mask's dimension is not supported")).
  { intros m' l Hsh. rewrite result_bind. cbn [result fst]. unfold fb_dim. rewrite Hsh.
    fold (mask_dim am).
    destruct Hdim as [-> | ->]; cbn [Z.eqb Pos.eqb].
    - destruct (negb _); [done|]. rewrite result_bind. unfold call. cbn [result fst].
      by destruct m'.
    - by destruct (negb _). }
  destruct am as [t|t|t|dt t].
  - by apply (Hfb (FMask t) []).
  - by apply (Hfb (BMask t) []).
  - apply (Hfb (BMask (to_bool t))). done.
  - done.
Qed.

(** X7. An attention mask of a dtype other than float, bool and byte is
    refused with AssertionError (lines 480-482); by then the inputs have
    passed the shape set-up and the in-projection has been computed, and
    nothing else has run. *)
Theorem unsupported_mask_dtype_raises (a : mha_args) (g : rng) (s : shapes)
    (qkv : tensor F * tensor F * tensor F) (evs0 evs1 : list event)
    (dtype : string) (t : tensor Z) :
  shape_setup a = (Ok s, evs0) →
  compute_in_projection a s = (Ok qkv, evs1) →
  attn_mask a = Some (MOther dtype t) →
  _multi_head_attention_forward a g
  = (Raise (AssertionError "Only float, byte, and bool types are supported for attn_mask"),
     evs0 ++ evs1).
Proof.
  intros Hsetup Hproj Hmask.
  rewrite engine_dispatch. unfold prepare.
  rewrite Hsetup. cbn [bind]. rewrite Hproj. destruct qkv as [[q k] v]. cbn [bind].
  unfold prep_attention_mask. rewrite Hmask. cbn. by rewrite app_nil_r.
Qed.

(** X8. A three-dimensional attention mask must have the shape
    [bsz * num_heads, tgt_len, src_len]: any other shape makes the call
    raise RuntimeError (lines 491-496), once the in-projection has been
    computed (and a byte mask converted) and before anything else runs. *)
Theorem mask_3d_shape_error (a : mha_args) (g : rng) (s : shapes)
    (qkv : tensor F * tensor F * tensor F) (evs0 evs1 : list event) (m : mask) :
  shape_setup a = (Ok s, evs0) →
  compute_in_projection a s = (Ok qkv, evs1) →
  attn_mask a = Some m →
  supported_mask_dtype m = true →
  mask_dim m = 3 →
  mask_shape m ≠ [bsz s * num_heads a; tgt_len s; src_len s] →
  _multi_head_attention_forward a g
  = (Raise (RuntimeError "The shape of the 3D attn_mask is wrong"),
     evs0 ++ evs1 ++ mask_conversion_events m).
Proof.
  intros Hsetup Hproj Hmask Hdt Hdim Hshape.
  assert (Hne : ∀ sh, sh = mask_shape m →
            shape_eqb sh [bsz s * num_heads a; tgt_len s; src_len s] = false).
  { intros sh ->. apply not_true_is_false. by rewrite shape_eqb_eq. }
  rewrite engine_dispatch. unfold prepare.
  rewrite Hsetup. cbn [bind]. rewrite Hproj. destruct qkv as [[q k] v]. cbn [bind].
  unfold prep_attention_mask. rewrite Hmask.
  destruct m as [t|t|t|dt t]; try discriminate;
    unfold mask_dim in Hdim; cbn [mask_shape] in Hdim;
    cbn [bind ret warn call]; unfold fb_dim; cbn [fb_shape to_bool shape];
    rewrite Hdim; cbn [Z.eqb Pos.eqb];
    rewrite (Hne (shape t)) by done; cbn; by rewrite ?app_nil_r.
Qed.

(** X9. The key and value biases come as a pair, and not with static keys
    or values: a call with only one of [bias_k], [bias_v], or with both and
    a static key or value, raises (the assertions of lines 511-512 and
    520-521, unless an earlier check fails), and by then nothing of the bias
    injection or of what follows has run: the log holds the promotion of
    unbatched inputs, the in-projection and the mask conversions only. *)
Theorem bias_injection_guards (a : mha_args) (g : rng) :
  is_some (bias_k a) ≠ is_some (bias_v a)
  ∨ (is_some (bias_k a) && is_some (bias_v a)
     && (is_some (static_k a) || is_some (static_v a)) = true) →
  fails preparation_event (_multi_head_attention_forward a g).
Proof.
  intros Hbias. rewrite engine_dispatch. unfold prepare, preparation_event.
  apply fails_bind_l.
  apply fails_bind; [apply only_shape_setup; repeat constructor|]. intros s.
  apply fails_bind; [apply only_compute_in_projection; repeat constructor|].
  intros [[q k] v].
  apply fails_bind; [apply only_prep_attention_mask; repeat constructor|]. intros m.
  apply fails_bind; [apply only_prep_key_padding_mask; repeat constructor|]. intros kpm.
  apply fails_bind_l. unfold add_bias_kv.
  destruct Hbias as [Hx|Hs].
  - destruct (bias_k a) as [bk|], (bias_v a) as [bv|]; cbn in Hx; try congruence.
    + fails_now.
    + cbn [is_none assert]. rewrite bind_ret_l. fails_now.
  - destruct (bias_k a) as [bk|], (bias_v a) as [bv|]; cbn in Hs; try discriminate.
    destruct (static_k a); [fails_now|]. destruct (static_v a); [|done].
    cbn [is_none assert]. rewrite bind_ret_l. fails_now.
Qed.

End MaskChecks.

(** ** Heads: split, merge, and the extra position *)

Lemma in_range_3_elim (a b c : Z) (idx : list Z) :
  in_range [a; b; c] idx = true →
  ∃ i j k, idx = [i; j; k] ∧ 0 <= i < a ∧ 0 <= j < b ∧ 0 <= k < c.
Proof.
  intros Hr. pose proof (in_range_length _ _ Hr) as Hl.
  destruct idx as [|i[|j[|k[|??]]]]; try done.
  exists i, j, k. split; [done|]. by apply in_range_3_inv.
Qed.

Lemma broadcast_rev_refl (sh : list Z) : broadcast_rev sh sh = Some sh.
Proof.
  induction sh as [|d sh IH]; [done|]. simpl. by rewrite Z.eqb_refl, IH.
Qed.

Lemma broadcast_shapes_refl (sh : list Z) : broadcast_shapes sh sh = Some sh.
Proof.
  unfold broadcast_shapes. rewrite broadcast_rev_refl. simpl.
  by rewrite reverse_involutive.
Qed.

Section Heads.

Context {F : Type} {SF : Scalar F}.

#[local] Existing Instance F_inhabited.

(** The run of the head split (line 526) on a tensor of [n] positions. *)
Lemma to_heads_run (x : tensor F) (n B H hd : Z) :
  shape x = [n; B; H * hd] → 0 <= n → 0 <= B → 0 <= H → 0 <= hd →
  to_heads x n (B * H) hd
  = (Ok (tabulate [B * H; n; hd]
           (fun idx => tnth (mkT [n; B * H; hd] (data x)) (swap_list 0 1 idx))),
     [Op "contiguous"; Op "view"; Op "transpose"]).
Proof.
  intros Hx Hn HB HH Hhd. unfold to_heads, call. cbn [bind].
  rewrite (view_exact x [n; B * H; hd]).
  2: { repeat constructor; nia. }
  2: { unfold numel. rewrite Hx. simpl. ring. }
  reflexivity.
Qed.

(** X10. The head split [x.contiguous().view(n, bsz * num_heads,
    head_dim).transpose(0, 1)] of a tensor of shape [n, bsz, embed_dim]:
    the result has shape [bsz * num_heads, n, head_dim], and row
    [b * num_heads + h] holds, for each position [i], the [head_dim]
    columns of [x[i, b]] that start at [h * head_dim]. *)
Theorem head_split_layout (x : tensor F) (n B H hd : Z) :
  shape x = [n; B; H * hd] → 0 <= n → 0 <= B → 0 <= H → 0 <= hd →
  ∃ y, to_heads x n (B * H) hd = (Ok y, [Op "contiguous"; Op "view"; Op "transpose"])
       ∧ shape y = [B * H; n; hd]
       ∧ ∀ b h i d, 0 <= b < B → 0 <= h < H → 0 <= i < n → 0 <= d < hd →
           tget y [b * H + h; i; d] = Some (tnth x [i; b; h * hd + d]).
Proof.
  intros Hx Hn HB HH Hhd. eexists. split; [by apply to_heads_run|]. split; [done|].
  intros b h i d Hb Hh Hi Hd.
  rewrite tget_tabulate by (apply in_range_3; [by apply head_row_bounds | lia | lia]).
  f_equal. unfold tnth. rewrite Hx. cbn [shape data swap_list].
  f_equal. f_equal. simpl. ring.
Qed.

(** X11. The merge of the heads before the output projection (line 609)
    undoes the split of line 526: on the head split of a well-formed tensor
    [x] of shape [tgt_len, bsz, embed_dim], the output projection is the
    linear map of [x] itself. *)
Theorem head_merge_inverts_split (a : mha_args) (s : shapes) (x y : tensor F)
    (evs : list event) :
  shape x = [tgt_len s; bsz s; embed_dim s] → wf_tensor x →
  embed_dim s = num_heads a * head_dim s →
  0 <= tgt_len s → 0 <= bsz s → 0 <= num_heads a → 0 <= head_dim s →
  to_heads x (tgt_len s) (bsz s * num_heads a) (head_dim s) = (Ok y, evs) →
  out_projection a s y
  = (linear x (out_proj_weight a) (out_proj_bias a),
     [Op "transpose"; Op "contiguous"; Op "view"; Op "linear"]).
Proof.
  intros Hx Hwf HE HT HB HH Hhd Hsplit.
  rewrite HE in Hx. rewrite (to_heads_run x _ _ _ _ Hx) in Hsplit by done.
  injection Hsplit as <- <-.
  set (T := tgt_len s) in *. set (N := bsz s * num_heads a) in *. set (hd := head_dim s) in *.
  assert (Hnn : Forall (fun d => 0 <= d) [T; N; hd]) by (repeat constructor; subst T N hd; nia).
  assert (Hlen : length (data x) = Z.to_nat (prod_list [T; N; hd])).
  { unfold wf_tensor, numel in Hwf. rewrite Hwf, Hx. f_equal. subst T N hd. simpl. ring. }
  assert (Hback : transpose (tabulate [N; T; hd]
                     (fun idx => tnth (mkT [T; N; hd] (data x)) (swap_list 0 1 idx))) 0 1
                  = Ok (mkT [T; N; hd] (data x))).
  { unfold transpose. rewrite shape_tabulate. cbn [length Nat.ltb Nat.leb andb swap_list].
    f_equal. etrans; [|apply (tabulate_tnth x [T; N; hd] Hnn Hlen)].
    apply tabulate_ext; [done|]. intros idx Hr.
    apply in_range_3_elim in Hr as (i & j & k & -> & Hi & Hj & Hk).
    change (swap_list 0 1 [i; j; k]) with [j; i; k].
    rewrite tnth_tabulate by (apply in_range_3; lia). reflexivity. }
  unfold out_projection, call. rewrite Hback. cbn [bind].
  rewrite (view_exact _ [T; bsz s; embed_dim s]).
  2: { repeat constructor; subst T N hd; nia. }
  2: { unfold numel. cbn [shape]. rewrite HE. subst T N hd. simpl. ring. }
  cbn [bind data]. rewrite HE. rewrite <- Hx. destruct x as [shx dx]. cbn [shape data].
  by destruct (linear _ _ _).
Qed.

Lemma cat_run {A} {IA : Inhabited A} (x z : tensor A) (N S S' hd : Z) :
  shape x = [N; S; hd] → shape z = [N; S'; hd] →
  cat x z 1 = Ok (tabulate [N; S + S'; hd]
                    (fun idx => if idx !!! 1%nat <? S then tnth x idx
                                else tnth z (<[1%nat := idx !!! 1%nat - S]> idx))).
Proof.
  intros Hx Hz. unfold cat. rewrite Hx, Hz. cbn.
  rewrite bool_decide_eq_true_2 by done. reflexivity.
Qed.

(** X12. With [add_zero_attn] the keys and the values of every head get one
    more source position, holding zeros (lines 550-558): from shape
    [bsz * num_heads, src_len, head_dim] to
    [bsz * num_heads, src_len + 1, head_dim], the first [src_len] positions
    as they were; without it they are returned as they are, and no
    operation runs. *)
Theorem zero_attention_appends_position (a : mha_args) (s : shapes) (k v : tensor F)
    (S : Z) :
  shape k = [bsz s * num_heads a; S; head_dim s] →
  shape v = [bsz s * num_heads a; S; head_dim s] →
  0 <= bsz s * num_heads a → 0 <= head_dim s →
  if add_zero_attn a then
    ∃ k' v',
      add_zero_attention a s k v None None
      = (Ok (k', v', None, None), [Op "zeros"; Op "cat"; Op "zeros"; Op "cat"])
      ∧ shape k' = [bsz s * num_heads a; S + 1; head_dim s]
      ∧ shape v' = [bsz s * num_heads a; S + 1; head_dim s]
      ∧ ∀ n j d, 0 <= n < bsz s * num_heads a → 0 <= j <= S → 0 <= d < head_dim s →
          tget k' [n; j; d] = Some (if j <? S then tnth k [n; j; d] else f0)
          ∧ tget v' [n; j; d] = Some (if j <? S then tnth v [n; j; d] else f0)
  else add_zero_attention a s k v None None = (Ok (k, v, None, None), []).
Proof.
  intros Hk Hv HN Hhd. unfold add_zero_attention.
  destruct (add_zero_attn a); [|done].
  unfold zeros, call.
  assert (Hnn : forallb (fun d => 0 <=? d) [bsz s * num_heads a; 1; head_dim s] = true).
  { apply nonneg_forallb. repeat constructor; lia. }
  rewrite Hnn. cbn [bind].
  rewrite (cat_run k (full [bsz s * num_heads a; 1; head_dim s] f0) _ S 1 _ Hk eq_refl).
  cbn [bind].
  rewrite (cat_run v (full [bsz s * num_heads a; 1; head_dim s] f0) _ S 1 _ Hv eq_refl).
  cbn [bind pad_masks ret app]. eexists _, _. split; [reflexivity|].
  split; [done|]. split; [done|].
  intros n j d Hn Hj Hd.
  rewrite !tget_tabulate by (apply in_range_3; lia).
  cbn [lookup_total list_lookup_total list_insert insert].
  destruct (Z.ltb_spec j S); [done|].
  replace (j - S) with 0 by lia. unfold full.
  by rewrite tnth_tabulate by (apply in_range_3; lia).
Qed.

(** X13. The conversion of the merged mask to float (lines 585-589): a
    boolean mask becomes a float tensor of the same shape that holds the
    fill value where the mask is set and zero elsewhere; a float mask, and
    no mask, are handed on as they are. *)
Theorem boolean_mask_becomes_additive (attn_mask : option fb_mask) (attn_mask_value : F) :
  match attn_mask with
  | Some (BMask m) =>
      ∃ m', convert_mask_to_float attn_mask attn_mask_value
            = (Ok (Some m'), [Op "zeros_like"; Op "masked_fill_"])
            ∧ shape m' = shape m
            ∧ ∀ idx (x : bool), tget m idx = Some x →
                tget m' idx = Some (if x then attn_mask_value else f0)
  | Some (FMask m) => convert_mask_to_float attn_mask attn_mask_value = (Ok (Some m), [])
  | None => convert_mask_to_float attn_mask attn_mask_value = (Ok None, [])
  end.
Proof.
  destruct attn_mask as [[m|m]|]; [done| |done].
  unfold convert_mask_to_float, masked_fill_, map2_inplace, call. cbn [bind].
  change (shape (full (shape m) f0)) with (shape m).
  rewrite broadcast_shapes_refl, shape_eqb_refl. cbn [bind ret app].
  eexists. split; [reflexivity|]. split; [done|].
  intros idx x Hx. pose proof (tget_in_range _ _ _ Hx) as Hr.
  rewrite tget_tabulate by done. f_equal.
  rewrite !bnth_full_rank by done. rewrite (tnth_tget _ _ _ Hx).
  unfold full. by rewrite tnth_tabulate.
Qed.

End Heads.

(** ** A call that goes through *)

Section Success.

Context {F : Type} {SF : Scalar F}.

#[local] Existing Instance F_inhabited.

Lemma chunk3_packed {A} (t : tensor A) (E : Z) (rest : list Z) :
  shape t = 3 * E :: rest → 0 < E →
  ∃ t1 t2 t3, chunk3 t = Ok (t1, t2, t3)
              ∧ shape t1 = E :: rest ∧ shape t2 = E :: rest ∧ shape t3 = E :: rest.
Proof.
  intros Ht HE. unfold chunk3. rewrite Ht.
  assert (Hc : (3 * E + 2) `div` 3 = E).
  { symmetry. apply (Z.div_unique_pos _ _ E 2); lia. }
  rewrite Hc.
  assert (Hcond : (2 * E <? 3 * E) && (3 * E <=? 3 * E) = true).
  { apply andb_true_iff. split; [apply Z.ltb_lt | apply Z.leb_le]; lia. }
  rewrite Hcond. eexists _, _, _. split; [reflexivity|].
  unfold slice0. rewrite Ht. cbn [shape insert list_insert].
  repeat split; f_equal; lia.
Qed.

Lemma linear_shape (x w : tensor F) (b : option (tensor F)) (pre : list Z) (n_in n_out : Z) :
  shape x = pre ++ [n_in] → shape w = [n_out; n_in] →
  match b with Some bt => shape bt = [n_out] | None => True end →
  ∃ y, linear x w b = Ok y ∧ shape y = pre ++ [n_out].
Proof.
  intros Hx Hw Hb. unfold linear. rewrite Hw, Hx, reverse_snoc. rewrite Z.eqb_refl.
  assert (Hbias : match b with Some bt => shape_eqb (shape bt) [n_out] | None => true end
                  = true).
  { destruct b; [|done]. by apply shape_eqb_eq. }
  rewrite Hbias. cbn [andb]. rewrite reverse_involutive. eauto.
Qed.

(** The packed in-projection on inputs of the embedding dimension. *)
Lemma in_projection_packed_ok (q k v w : tensor F) (b : option (tensor F)) (T B S E : Z) :
  shape q = [T; B; E] → shape k = [S; B; E] → shape v = [S; B; E] →
  shape w = [3 * E; E] → 0 < E →
  match b with Some bt => shape bt = [3 * E] | None => True end →
  ∃ q' k' v', _in_projection_packed q k v w b = Ok (q', k', v')
              ∧ shape q' = [T; B; E] ∧ shape k' = [S; B; E] ∧ shape v' = [S; B; E].
Proof.
  intros Hq Hk Hv Hw HE Hb. unfold _in_projection_packed.
  destruct (chunk3_packed w E [E] Hw HE) as (w1 & w2 & w3 & -> & Hw1 & Hw2 & Hw3).
  assert (Hbs : ∃ b1 b2 b3,
            match b with
            | None => Ok (None, None, None)
            | Some bt => match chunk3 bt with
                         | Ok (b_q, b_k, b_v) => Ok (Some b_q, Some b_k, Some b_v)
                         | Raise e => Raise e
                         end
            end = Ok (b1, b2, b3)
            ∧ match b1 with Some bt => shape bt = [E] | None => True end
            ∧ match b2 with Some bt => shape bt = [E] | None => True end
            ∧ match b3 with Some bt => shape bt = [E] | None => True end).
  { destruct b as [bt|].
    - destruct (chunk3_packed bt E [] Hb HE) as (b1 & b2 & b3 & -> & ? & ? & ?).
      by exists (Some b1), (Some b2), (Some b3).
    - by exists None, None, None. }
  destruct Hbs as (b1 & b2 & b3 & -> & Hb1 & Hb2 & Hb3).
  destruct (linear_shape q w1 b1 [T; B] E E Hq Hw1 Hb1) as (q' & -> & Hq').
  destruct (linear_shape k w2 b2 [S; B] E E Hk Hw2 Hb2) as (k' & -> & Hk').
  destruct (linear_shape v w3 b3 [S; B] E E Hv Hw3 Hb3) as (v' & -> & Hv').
  by exists q', k', v'.
Qed.

End Success.

Section Success2.

Context {F : Type} {SF : Scalar F}.

#[local] Existing Instance F_inhabited.

Lemma mha_shape_check_ok (q k v : tensor F) (kpm : option padding_mask) (m : option mask)
    (nh : Z) (batched : bool) (T B S E Bk Sk : Z) :
  shape q = input_shape batched T B E → shape k = input_shape batched S B E →
  shape v = input_shape batched S B E →
  match kpm with
  | Some p => kpm_shape p = if batched then [Bk; Sk] else [Sk]
  | None => True
  end →
  match m with Some m0 => mask_shape m0 = [T; S] | None => True end →
  _mha_shape_check q k v kpm m nh = (Ok batched, []).
Proof.
  intros Hq Hk Hv Hkpm Hm. unfold _mha_shape_check, dim, kpm_dim, mask_dim.
  rewrite Hq, Hk, Hv.
  destruct batched, kpm as [p|], m as [m0|]; cbn [input_shape length Z.of_nat];
    rewrite ?Hkpm, ?Hm; reflexivity.
Qed.

Lemma divisible_product (E H : Z) : H ≠ 0 → E `mod` H = 0 → (E `div` H * H =? E) = true.
Proof.
  intros HH Hmod. apply Z.eqb_eq. rewrite (Z.div_mod E H) at 2 by done. lia.
Qed.

(** The shape set-up of a well-shaped call. *)
Lemma shape_setup_ok (a : mha_args) (batched : bool) (T B S E Bk Sk : Z) :
  shaped_call a batched T B S E Bk Sk →
  ∃ s, result (shape_setup a) = Ok s
       ∧ is_batched s = batched
       ∧ shape (query' s) = [T; B; E] ∧ shape (key' s) = [S; B; E]
       ∧ shape (value' s) = [S; B; E]
       ∧ tgt_len s = T ∧ bsz s = B ∧ embed_dim s = E ∧ src_len s = S
       ∧ head_dim s = E `div` num_heads a
       ∧ match key_padding_mask' s with
         | Some m => kpm_shape m = [Bk; Sk]
         | None => True
         end
       ∧ (key_padding_mask' s = None → key_padding_mask a = None).
Proof.
  intros (Hq & Hk & Hv & HB1 & HT & HB & HS & HE & HE0 & HH & Hmod & Hsep & _ & _ & _ & _
          & _ & _ & _ & Hkpm & Hm & HBk1).
  assert (Hm' : match attn_mask a with Some m0 => mask_shape m0 = [T; S] | None => True end).
  { destruct (attn_mask a); [apply Hm | done]. }
  rewrite shape_setup_unfold, result_bind,
    (mha_shape_check_ok _ _ _ _ _ _ batched T B S E Bk Sk Hq Hk Hv Hkpm Hm').
  cbn [result fst].
  assert (Hpro : ∃ q k v kpm evs,
            promote_unbatched a batched = (Ok (q, k, v, kpm), evs)
            ∧ shape q = [T; B; E] ∧ shape k = [S; B; E] ∧ shape v = [S; B; E]
            ∧ match kpm with Some m => kpm_shape m = [Bk; Sk] | None => True end
            ∧ (kpm = None → key_padding_mask a = None)).
  { unfold promote_unbatched, call, unsqueeze. destruct batched; cbn [negb].
    - by eexists _, _, _, _, _.
    - rewrite (HB1 eq_refl), (HBk1 eq_refl) in *. rewrite Hq, Hk, Hv. cbn -[kpm_unsqueeze].
      destruct (key_padding_mask a) as [[t|t]|]; cbn in Hkpm |- *;
        try rewrite Hkpm; cbn; by eexists _, _, _, _, _. }
  destruct Hpro as (q & k & v & kpm & evs & Hpro & Hsq & Hsk & Hsv & Hkpm' & Hnone).
  rewrite result_bind, Hpro. cbn [result fst].
  unfold shape_variables, floordiv. rewrite Hsq, Hsk, Hsv. cbn [unpack3].
  rewrite !bind_ret_l, HE0, Z.eqb_refl. cbn [assert]. rewrite bind_ret_l.
  destruct (Z.eqb_spec (num_heads a) 0) as [?|Hnz]; [lia|]. rewrite bind_ret_l.
  rewrite divisible_product by done. cbn [assert]. rewrite bind_ret_l.
  rewrite Hsep, shape_eqb_refl. cbn [assert]. rewrite bind_ret_l.
  eexists. split; [reflexivity|]. by repeat split.
Qed.

End Success2.

Section Success3.

Context {F : Type} {SF : Scalar F}.

#[local] Existing Instance F_inhabited.

Lemma compute_in_projection_ok (a : mha_args) (s : shapes) (T B S E : Z) :
  use_separate_proj_weight a = false →
  (∃ w, in_proj_weight a = Some w ∧ shape w = [3 * E; E]) →
  match in_proj_bias a with Some b => shape b = [3 * E] | None => True end →
  0 < E →
  shape (query' s) = [T; B; E] → shape (key' s) = [S; B; E] →
  shape (value' s) = [S; B; E] →
  ∃ q k v, result (compute_in_projection a s) = Ok (q, k, v)
           ∧ shape q = [T; B; E] ∧ shape k = [S; B; E] ∧ shape v = [S; B; E].
Proof.
  intros Hsep (w & Hw & Hsw) Hb HE Hq Hk Hv. unfold compute_in_projection.
  rewrite Hsep, Hw. cbn [negb]. unfold call. cbn [result fst].
  by apply (in_projection_packed_ok _ _ _ _ _ T B S E).
Qed.

Lemma prep_attention_mask_ok (a : mha_args) (s : shapes) (T S : Z) :
  tgt_len s = T → src_len s = S →
  match attn_mask a with
  | Some m => supported_mask_dtype m = true ∧ mask_shape m = [T; S]
  | None => True
  end →
  ∃ m', result (prep_attention_mask a s) = Ok m'
        ∧ match m' with Some fb => fb_shape fb = [1; T; S] | None => True end.
Proof.
  intros HT HS Hm. unfold prep_attention_mask. rewrite HT, HS.
  destruct (attn_mask a) as [[t|t|t|dt t]|]; [| | | |by exists None];
    destruct Hm as [Hdt Hsh]; try discriminate; cbn [mask_shape] in Hsh.
  - exists (Some (FMask (mkT (1 :: shape t) (data t)))).
    rewrite bind_ret_l. unfold fb_dim. cbn [fb_shape]. rewrite Hsh.
    cbn [length Z.of_nat Pos.of_succ_nat Pos.succ Z.eqb Pos.eqb].
    rewrite shape_eqb_refl. cbn. by rewrite Hsh.
  - exists (Some (BMask (mkT (1 :: shape t) (data t)))).
    rewrite bind_ret_l. unfold fb_dim. cbn [fb_shape]. rewrite Hsh.
    cbn [length Z.of_nat Pos.of_succ_nat Pos.succ Z.eqb Pos.eqb].
    rewrite shape_eqb_refl. cbn. by rewrite Hsh.
  - exists (Some (BMask (mkT (1 :: shape t) (data (to_bool t))))).
    rewrite result_bind. cbn [warn call bind ret result fst].
    unfold fb_dim. cbn [fb_shape to_bool shape]. rewrite Hsh.
    cbn [length Z.of_nat Pos.of_succ_nat Pos.succ Z.eqb Pos.eqb].
    rewrite shape_eqb_refl. cbn. by rewrite Hsh.
Qed.

Lemma prep_key_padding_mask_ok (kpm : option padding_mask) (sh : list Z) :
  match kpm with Some m => kpm_shape m = sh | None => True end →
  ∃ k', result (prep_key_padding_mask kpm) = Ok k'
        ∧ match k' with Some t => shape t = sh | None => True end
        ∧ (k' = None → kpm = None).
Proof.
  intros Hk. destruct kpm as [[t|t]|]; cbn in *; eexists; (split; [reflexivity|]); done.
Qed.

Lemma reshape_qkv_ok (a : mha_args) (s : shapes) (q k v : tensor F) (T B S H hd : Z) :
  static_k a = None → static_v a = None →
  tgt_len s = T → bsz s = B → head_dim s = hd → num_heads a = H →
  shape q = [T; B; H * hd] → shape k = [S; B; H * hd] → shape v = [S; B; H * hd] →
  0 <= T → 0 <= B → 0 <= S → 0 <= H → 0 <= hd →
  ∃ q' k' v', result (reshape_qkv a s q k v) = Ok (q', k', v')
              ∧ shape q' = [B * H; T; hd] ∧ shape k' = [B * H; S; hd]
              ∧ shape v' = [B * H; S; hd].
Proof.
  intros Hsk Hsv HT HB Hhd HH Hq Hk Hv ? ? ? ? ?. unfold reshape_qkv, tsize.
  rewrite Hsk, Hsv, HT, HB, Hhd, HH, Hk, Hv. cbn [lookup list_lookup].
  rewrite (to_heads_run q T B H hd), !bind_ret_l, (to_heads_run k S B H hd),
    (to_heads_run v S B H hd) by done.
  eexists _, _, _. split; [reflexivity|]. done.
Qed.

Lemma pad_last_shape {A} {IA : Inhabited A} (z : A) (t : tensor A) (pre : list Z) (n : Z) :
  shape t = pre ++ [n] →
  ∃ t', pad_last z t = Ok t' ∧ shape t' = pre ++ [n + 1].
Proof.
  intros Ht. unfold pad_last. rewrite Ht, length_app, Nat.add_comm. cbn [length Nat.add].
  eexists. split; [reflexivity|]. rewrite shape_tabulate.
  rewrite list_lookup_total_middle by done.
  rewrite insert_app_r_alt by lia. by rewrite Nat.sub_diag.
Qed.

Lemma pad_masks_ok (m : option fb_mask) (kpm : option (tensor bool)) (T S Bk Sk : Z) :
  match m with Some fb => fb_shape fb = [1; T; S] | None => True end →
  match kpm with Some t => shape t = [Bk; Sk] | None => True end →
  ∃ m' kpm',
    result (pad_masks m kpm) = Ok (m', kpm')
    ∧ match m' with Some fb => fb_shape fb = [1; T; S + 1] | None => True end
    ∧ match kpm' with Some t => shape t = [Bk; Sk + 1] | None => True end
    ∧ (kpm' = None → kpm = None).
Proof.
  intros Hm Hkpm. unfold pad_masks, call, fb_pad.
  destruct m as [[t|t]|], kpm as [p|]; cbn [fb_shape] in Hm;
    try (destruct (pad_last_shape f0 t [1; T] S Hm) as (t' & -> & Ht'));
    try (destruct (pad_last_shape false t [1; T] S Hm) as (t' & -> & Ht'));
    try (destruct (pad_last_shape false p [Bk] Sk Hkpm) as (p' & -> & Hp'));
    cbn; eexists _, _; (split; [reflexivity|]); done.
Qed.

Lemma cat_run0 {A} {IA : Inhabited A} (x z : tensor A) (S S' B E : Z) :
  shape x = [S; B; E] → shape z = [S'; B; E] →
  ∃ y, cat x z 0 = Ok y ∧ shape y = [S + S'; B; E].
Proof.
  intros Hx Hz. unfold cat. rewrite Hx, Hz. cbn.
  rewrite bool_decide_eq_true_2 by done. eauto.
Qed.

Lemma repeat_bias (b : tensor F) (B E : Z) :
  shape b = [1; 1; E] → 0 <= B →
  ∃ b', repeat_ b [1; B; 1] = Ok b' ∧ shape b' = [1; B; E].
Proof.
  intros Hb HB. unfold repeat_. rewrite Hb. cbn -[Z.mul tabulate].
  destruct (Z.leb_spec 0 B); [|lia]. cbn -[Z.mul tabulate].
  eexists. split; [reflexivity|]. rewrite shape_tabulate.
  by rewrite !Z.mul_1_l, Z.mul_1_r.
Qed.

Lemma add_bias_kv_ok (a : mha_args) (s : shapes) (k v : tensor F)
    (m : option fb_mask) (kpm : option (tensor bool)) (T B S E Bk Sk : Z) :
  bsz s = B → static_k a = None → static_v a = None →
  shape k = [S; B; E] → shape v = [S; B; E] → 0 <= B →
  match bias_k a, bias_v a with
  | Some bk, Some bv => shape bk = [1; 1; E] ∧ shape bv = [1; 1; E]
  | None, None => True
  | _, _ => False
  end →
  match m with Some fb => fb_shape fb = [1; T; S] | None => True end →
  match kpm with Some t => shape t = [Bk; Sk] | None => True end →
  ∃ k' v' m' kpm',
    result (add_bias_kv a s k v m kpm) = Ok (k', v', m', kpm')
    ∧ shape k' = [biased_src_len a S; B; E]
    ∧ shape v' = [biased_src_len a S; B; E]
    ∧ match m' with Some fb => fb_shape fb = [1; T; biased_src_len a S] | None => True end
    ∧ match kpm' with Some t => shape t = [Bk; biased_src_len a Sk] | None => True end
    ∧ (kpm' = None → kpm = None).
Proof.
  intros HB Hsk Hsv Hk Hv HB0 Hbias Hm Hkpm. unfold add_bias_kv, biased_src_len.
  destruct (bias_k a) as [bk|], (bias_v a) as [bv|]; try done.
  2: { by exists k, v, m, kpm. }
  destruct Hbias as [Hbk Hbv]. rewrite Hsk, Hsv, HB. cbn [is_none assert is_some negb].
  rewrite !bind_ret_l. unfold call.
  destruct (repeat_bias bk B E Hbk HB0) as (bk' & Hrk & Hbk').
  destruct (repeat_bias bv B E Hbv HB0) as (bv' & Hrv & Hbv').
  destruct (cat_run0 k bk' S 1 B E Hk Hbk') as (k' & Hck & Hk').
  destruct (cat_run0 v bv' S 1 B E Hv Hbv') as (v' & Hcv & Hv').
  destruct (pad_masks_ok m kpm T S Bk Sk Hm Hkpm)
    as (m' & kpm' & Hpad & Hm' & Hkpm' & Hnone).
  rewrite result_bind. cbn [result fst]. rewrite Hrk.
  rewrite result_bind. cbn [result fst]. rewrite Hck.
  rewrite result_bind. cbn [result fst]. rewrite Hrv.
  rewrite result_bind. cbn [result fst]. rewrite Hcv.
  rewrite result_bind, Hpad. cbn [ret result fst].
  by exists k', v', m', kpm'.
Qed.

Lemma add_zero_attention_ok (a : mha_args) (s : shapes) (k v : tensor F)
    (m : option fb_mask) (kpm : option (tensor bool)) (T B S H hd Bk Sk : Z) :
  bsz s = B → head_dim s = hd → num_heads a = H →
  shape k = [B * H; S; hd] → shape v = [B * H; S; hd] →
  0 <= B → 0 <= H → 0 <= hd →
  match m with Some fb => fb_shape fb = [1; T; S] | None => True end →
  match kpm with Some t => shape t = [Bk; Sk] | None => True end →
  ∃ k' v' m' kpm',
    result (add_zero_attention a s k v m kpm) = Ok (k', v', m', kpm')
    ∧ shape k' = [B * H; if add_zero_attn a then S + 1 else S; hd]
    ∧ shape v' = [B * H; if add_zero_attn a then S + 1 else S; hd]
    ∧ match m' with
      | Some fb => fb_shape fb = [1; T; if add_zero_attn a then S + 1 else S]
      | None => True
      end
    ∧ match kpm' with
      | Some t => shape t = [Bk; if add_zero_attn a then Sk + 1 else Sk]
      | None => True
      end
    ∧ (kpm' = None → kpm = None).
Proof.
  intros HB Hhd HH Hk Hv ? ? ? Hm Hkpm. unfold add_zero_attention.
  destruct (add_zero_attn a); [|by exists k, v, m, kpm].
  rewrite HB, Hhd, HH. unfold zeros, call.
  rewrite nonneg_forallb by (repeat constructor; nia).
  rewrite result_bind. cbn [result fst]. rewrite result_bind.
  rewrite (cat_run k (full [B * H; 1; hd] f0) _ S 1 _ Hk eq_refl). cbn [result fst].
  rewrite result_bind. cbn [result fst]. rewrite result_bind.
  rewrite (cat_run v (full [B * H; 1; hd] f0) _ S 1 _ Hv eq_refl). cbn [result fst].
  destruct (pad_masks_ok m kpm T S Bk Sk Hm Hkpm)
    as (m' & kpm' & Hpad & Hm' & Hkpm' & Hnone).
  rewrite result_bind, Hpad. cbn [result fst ret].
  eexists _, _, m', kpm'. split; [reflexivity|]. done.
Qed.

Lemma mask_fits_broadcast (N T S : Z) (sh : list Z) :
  mask_fits N T S sh →
  broadcast_shapes [N; T; S] sh = Some [N; T; S]
  ∧ broadcast_shapes sh [N; T; S] = Some [N; T; S].
Proof.
  intros [->|[->| ->]]; unfold broadcast_shapes; cbn -[Z.eqb];
    rewrite ?Z.eqb_refl; cbn -[Z.eqb];
    repeat match goal with
           | |- context [?x =? ?y] => destruct (Z.eqb_spec x y); subst; cbn -[Z.eqb]
           end; try done; try lia.
Qed.

Lemma merge_masks_ok (kpm : option (tensor bool)) (m : option fb_mask)
    (B H T S : Z) (mv : F) :
  0 <= B → 0 <= H → 0 <= S →
  match m with Some fb => fb_shape fb = [1; T; S] | None => True end →
  match kpm with Some t => shape t = [B; S] | None => True end →
  ∃ m', result (merge_masks kpm m B H S mv) = Ok m'
        ∧ match m' with Some fb => mask_fits (B * H) T S (fb_shape fb) | None => True end.
Proof.
  intros HB HH HS Hm Hkpm. unfold merge_masks.
  destruct kpm as [p|].
  2: { exists m. split; [done|]. destruct m; [|done]. by left. }
  rewrite Hkpm, shape_eqb_refl. cbn [assert]. rewrite bind_ret_l.
  destruct (expand_key_padding_mask_spec p B H S Hkpm HB HH HS) as (e & He & Hesh & _).
  rewrite result_bind, He.
  destruct m as [[t|t]|]; cbn [fb_shape] in Hm.
  - destruct (map2_broadcast_elements (fun x (b : bool) => if b then mv else x)
                t e [B * H; T; S]) as (t' & Ht' & Hsh & _).
    { rewrite Hm, Hesh. apply broadcast_mask_shapes. by left. }
    exists (Some (FMask t')). unfold masked_fill, call. rewrite result_bind, Ht'.
    split; [done|]. right. by right.
  - destruct (map2_broadcast_elements orb t e [B * H; T; S]) as (t' & Ht' & Hsh & _).
    { rewrite Hm, Hesh. apply broadcast_mask_shapes. by left. }
    exists (Some (BMask t')). unfold logical_or, call. rewrite result_bind, Ht'.
    split; [done|]. right. by right.
  - exists (Some (BMask e)). split; [done|]. right. by left.
Qed.

Lemma convert_mask_to_float_ok (m : option fb_mask) (mv : F) (N T S : Z) :
  match m with Some fb => mask_fits N T S (fb_shape fb) | None => True end →
  ∃ m', result (convert_mask_to_float m mv) = Ok m'
        ∧ match m' with Some t => mask_fits N T S (shape t) | None => True end.
Proof.
  intros Hm. destruct m as [[t|t]|]; [by exists (Some t) | | by exists None].
  unfold convert_mask_to_float, masked_fill_, map2_inplace, call. rewrite result_bind.
  cbn [result fst]. rewrite result_bind.
  change (shape (full (shape t) f0)) with (shape t).
  rewrite broadcast_shapes_refl, shape_eqb_refl. cbn [result fst ret].
  eexists. split; [reflexivity|]. done.
Qed.

End Success3.

Section Success4.

Context {F : Type} {SF : Scalar F}.

#[local] Existing Instance F_inhabited.

(** The run of the default query-key product. *)
Lemma scaled_dot_product_run (query key : tensor F) (B Nt Ns E : Z) :
  shape query = [B; Nt; E] → shape key = [B; Ns; E] →
  ∃ attn, _scaled_dot_product query key = (Ok attn, [Op "div"; Op "transpose"; Op "bmm"])
          ∧ shape attn = [B; Nt; Ns].
Proof.
  intros Hq Hk. unfold _scaled_dot_product, transpose_last2, transpose, bmm, call.
  rewrite Hq, Hk. cbn -[tabulate div_scalar range Z.eqb].
  rewrite shape_div_scalar, shape_tabulate, Hq, !Z.eqb_refl.
  cbn -[tabulate div_scalar range]. eauto.
Qed.

(** The default masking on scores a mask broadcasts to. *)
Lemma attn_masking_value_ok (attn : tensor F) (mask : option (tensor F)) (mv : F)
    (N T S : Z) :
  shape attn = [N; T; S] →
  match mask with Some m => mask_fits N T S (shape m) | None => True end →
  ∃ attn', result (attn_masking_value attn mask mv) = Ok attn' ∧ shape attn' = [N; T; S].
Proof.
  intros Ha Hm. unfold attn_masking_value, _attn_masking, deref.
  destruct mask as [m|].
  - rewrite lookup_insert_ne, lookup_singleton_eq, lookup_insert_eq by done.
    rewrite !bind_ret_l. unfold map2_inplace, call.
    rewrite Ha. destruct (mask_fits_broadcast N T S (shape m) Hm) as [-> _].
    rewrite shape_eqb_refl. cbn [bind ret app].
    rewrite lookup_insert_eq. eauto.
  - rewrite bind_ret_l, lookup_singleton_eq. eauto.
Qed.

Lemma Softmax_shape (t : tensor F) (N T S : Z) :
  shape t = [N; T; S] → ∃ w, Softmax t = Ok w ∧ shape w = [N; T; S].
Proof. intros Ht. unfold Softmax. rewrite Ht. cbn -[tabulate range]. eauto. Qed.

Lemma bmm_shape (x y : tensor F) (N T S P : Z) :
  shape x = [N; T; S] → shape y = [N; S; P] →
  ∃ z, bmm x y = Ok z ∧ shape z = [N; T; P].
Proof.
  intros Hx Hy. unfold bmm. rewrite Hx, Hy, !Z.eqb_refl. cbn -[tabulate range]. eauto.
Qed.

(** The default attention function on prepared tensors. *)
Lemma default_attention_ok (q k v : tensor F) (mask : option (tensor F)) (d mv : F)
    (g : rng) (N T S hd : Z) :
  shape q = [N; T; hd] → shape k = [N; S; hd] → shape v = [N; S; hd] →
  match mask with Some m => mask_fits N T S (shape m) | None => True end →
  (fgtb d f0 = true → fgtb f0 d || fgtb d f1 = false) →
  ∃ ao W g',
    result (_scaled_dot_product_attention q k v mask d Softmax_kernel mv
              attn_masking_value _scaled_dot_product g) = Ok (ao, W, g')
    ∧ shape ao = [N; T; hd] ∧ shape W = [N; T; S].
Proof.
  intros Hq Hk Hv Hm Hd. unfold _scaled_dot_product_attention.
  destruct (scaled_dot_product_run q k N T S hd Hq Hk) as (s0 & Hs0 & Hsh0).
  rewrite result_bind, Hs0. cbn [result fst].
  destruct (attn_masking_value_ok s0 mask mv N T S Hsh0 Hm) as (s1 & Hs1 & Hsh1).
  rewrite result_bind, Hs1.
  destruct (Softmax_shape s1 N T S Hsh1) as (w & Hw & Hshw).
  rewrite result_bind. unfold Softmax_kernel, call at 1. cbn [result fst]. rewrite Hw.
  assert (Hdrop : ∃ w' g',
            result (if fgtb d f0 then call "dropout" (dropout w d g) else ret (w, g))
            = Ok (w', g') ∧ shape w' = [N; T; S]).
  { destruct (fgtb d f0); [|by exists w, g].
    unfold dropout, call. rewrite (Hd eq_refl). cbn [result fst].
    destruct (bernoulli_keep g d (length (data w))) as [keep g']. eauto. }
  destruct Hdrop as (w' & g' & Hdrop & Hshw').
  rewrite result_bind, Hdrop.
  destruct (bmm_shape w' v N T S hd Hshw' Hv) as (ao & Hao & Hshao).
  rewrite result_bind. unfold call. cbn [result fst]. rewrite Hao. cbn [ret result fst].
  by exists ao, w', g'.
Qed.

Lemma squeeze_at {A} (t : tensor A) (pre post : list Z) :
  shape t = pre ++ 1 :: post →
  squeeze t (length pre) = Ok (mkT (pre ++ post) (data t)).
Proof.
  intros Ht. unfold squeeze. rewrite Ht.
  rewrite list_lookup_middle by done. cbn [Z.eqb Pos.eqb].
  rewrite take_app_length. replace (S (length pre)) with (length pre + 1)%nat by lia.
  by rewrite drop_app_add.
Qed.

(** The returned pair, for every combination of the flags. *)
Lemma reduce_weights_shapes (a : mha_args) (s : shapes) (out W : tensor F)
    (batched : bool) (T B S E : Z) :
  is_batched s = batched → (batched = false → B = 1) →
  tgt_len s = T → bsz s = B →
  shape out = [T; B; E] → shape W = [B * num_heads a; T; S] →
  0 <= B → 0 <= num_heads a → 0 <= T → 0 <= S →
  ∃ out' w',
    result (reduce_weights a s S out W) = Ok (out', w')
    ∧ shape out' = input_shape batched T B E
    ∧ match w' with
      | Some ws =>
          need_weights a = true
          ∧ shape ws = weights_shape batched (average_attn_weights a) B (num_heads a) T S
      | None => need_weights a = false
      end.
Proof.
  intros Hib HB1 HT HB Hout HW ? ? ? ?. unfold reduce_weights. rewrite Hib, HT, HB.
  assert (Hsq : batched = false →
                squeeze out 1 = Ok (mkT [T; E] (data out))).
  { intros Hb. rewrite (HB1 Hb) in Hout. apply (squeeze_at out [T] [E] Hout). }
  destruct (need_weights a).
  - unfold call. rewrite result_bind. cbn [result fst].
    rewrite (view_exact W [B; num_heads a; T; S]).
    2: { repeat constructor; lia. }
    2: { unfold numel. rewrite HW. simpl. ring. }
    rewrite result_bind.
    assert (Havg : ∃ w,
              result (if average_attn_weights a
                      then let* w := (sum_dim (mkT [B; num_heads a; T; S] (data W)) 1,
                                      [Op "sum"]) in
                           (Ok (div_scalar w (f_of_Z (num_heads a))), [Op "div"])
                      else ret (mkT [B; num_heads a; T; S] (data W))) = Ok w
              ∧ shape w = weights_shape true (average_attn_weights a) B (num_heads a) T S).
    { destruct (average_attn_weights a); [|by eexists].
      destruct (sum_over_heads (mkT [B; num_heads a; T; S] (data W)) B (num_heads a) T S
                  eq_refl) as (w3 & Hsum & Hsh & _).
      rewrite Hsum. cbn. eauto. }
    destruct Havg as (w & Havg & Hw). rewrite Havg.
    destruct batched; cbn [negb].
    + exists out, (Some w). by repeat split.
    + rewrite result_bind. cbn [result fst]. rewrite (Hsq eq_refl).
      rewrite result_bind. cbn [result fst].
      rewrite (HB1 eq_refl) in Hw.
      assert (Hsq' : ∃ w', squeeze w 0 = Ok w'
                ∧ shape w' = weights_shape false (average_attn_weights a) B (num_heads a) T S).
      { destruct (average_attn_weights a); cbn [weights_shape] in *.
        - eexists. split; [apply (squeeze_at w [] [T; S] Hw) | done].
        - eexists. split; [apply (squeeze_at w [] [num_heads a; T; S] Hw) | done]. }
      destruct Hsq' as (w' & -> & Hw'). cbn [ret result fst].
      exists (mkT [T; E] (data out)), (Some w'). by repeat split.
  - destruct batched; cbn [negb].
    + exists out, None. by repeat split.
    + unfold call. rewrite result_bind. cbn [result fst]. rewrite (Hsq eq_refl).
      cbn [ret result fst]. exists (mkT [T; E] (data out)), None. by repeat split.
Qed.

End Success4.

Section Success5.

Context {F : Type} {SF : Scalar F}.

#[local] Existing Instance F_inhabited.

(** Lines 402-565 on a call of the documented shapes, whatever the shape
    of its key padding mask: the preparation reaches the merge of the masks
    at lines 567-583, with these tensors. *)
Lemma prepare_reaches_merge (a : mha_args) (batched : bool) (T B S E Bk Sk : Z) :
  shaped_call a batched T B S E Bk Sk →
  ∃ s q k v m kpm,
    result (shape_setup a) = Ok s
    ∧ result (prepare a)
      = result (let* attn_mask :=
                  merge_masks kpm m B (num_heads a) (extended_src_len a S)
                    (attn_mask_value a) in
                let* attn_mask := convert_mask_to_float attn_mask (attn_mask_value a) in
                ret {| p_shapes := s; p_q := q; p_k := k; p_v := v;
                       p_attn_mask := attn_mask;
                       p_src_len := extended_src_len a S |})
    ∧ is_batched s = batched
    ∧ tgt_len s = T ∧ bsz s = B ∧ embed_dim s = E
    ∧ head_dim s = E `div` num_heads a
    ∧ shape q = [B * num_heads a; T; E `div` num_heads a]
    ∧ shape k = [B * num_heads a; extended_src_len a S; E `div` num_heads a]
    ∧ shape v = [B * num_heads a; extended_src_len a S; E `div` num_heads a]
    ∧ match m with
      | Some fb => fb_shape fb = [1; T; extended_src_len a S]
      | None => True
      end
    ∧ match kpm with
      | Some t => shape t = [Bk; extended_src_len a Sk]
      | None => key_padding_mask a = None
      end.
Proof.
  intros Hcall.
  destruct (shape_setup_ok a batched T B S E Bk Sk Hcall)
    as (s & Hsetup & Hib & Hsq & Hsk & Hsv & HsT & HsB & HsE & HsS & Hshd & Hskpm & Hn0).
  destruct Hcall as (_ & _ & _ & HB1 & HT & HB & HS & HE & HE0 & HH & Hmod & Hsep & Hw & Hb
                     & _ & _ & Hbias & Hstk & Hstv & _ & Hm & _).
  set (H := num_heads a) in *. set (hd := E `div` H) in *.
  assert (HEhd : E = H * hd).
  { unfold hd. rewrite (Z.div_mod E H) at 1 by lia. lia. }
  assert (Hhd : 0 <= hd) by (apply Z.div_pos; lia).
  assert (HS1 : 0 <= biased_src_len a S).
  { unfold biased_src_len. destruct (is_some (bias_k a)); lia. }
  assert (HS' : 0 <= extended_src_len a S).
  { unfold extended_src_len. destruct (add_zero_attn a); lia. }
  unfold prepare. rewrite result_bind, Hsetup.
  destruct (compute_in_projection_ok a s T B S E Hsep Hw Hb HE Hsq Hsk Hsv)
    as (q & k & v & Hproj & Hq & Hk & Hv).
  rewrite result_bind, Hproj.
  destruct (prep_attention_mask_ok a s T S HsT HsS Hm) as (m1 & Hm1 & Hm1sh).
  rewrite result_bind, Hm1.
  destruct (prep_key_padding_mask_ok (key_padding_mask' s) [Bk; Sk] Hskpm)
    as (kpm1 & Hkpm1 & Hkpm1sh & Hn1).
  rewrite result_bind, Hkpm1.
  destruct (add_bias_kv_ok a s k v m1 kpm1 T B S E Bk Sk HsB Hstk Hstv Hk Hv HB Hbias
              Hm1sh Hkpm1sh)
    as (k1 & v1 & m2 & kpm2 & Hbkv & Hk1 & Hv1 & Hm2 & Hkpm2 & Hn2).
  rewrite result_bind, Hbkv.
  rewrite HEhd in Hq, Hk1, Hv1.
  destruct (reshape_qkv_ok a s q k1 v1 T B (biased_src_len a S) H hd Hstk Hstv HsT HsB Hshd
              eq_refl Hq Hk1 Hv1)
    as (q2 & k2 & v2 & Hresh & Hq2 & Hk2 & Hv2); try lia.
  rewrite result_bind, Hresh.
  destruct (add_zero_attention_ok a s k2 v2 m2 kpm2 T B (biased_src_len a S) H hd Bk
              (biased_src_len a Sk) HsB Hshd eq_refl Hk2 Hv2)
    as (k3 & v3 & m3 & kpm3 & Hzero & Hk3 & Hv3 & Hm3 & Hkpm3 & Hn3); try lia; try done.
  fold (extended_src_len a S) in Hk3, Hv3, Hm3.
  fold (extended_src_len a Sk) in Hkpm3.
  rewrite result_bind, Hzero.
  unfold tsize. rewrite Hk3. cbn [lookup list_lookup]. rewrite bind_ret_l.
  rewrite HsB. fold H.
  exists s, q2, k3, v3, m3, kpm3.
  split_and!; try done.
  destruct kpm3; [done|]. auto.
Qed.

(** Lines 402-589 on a well-shaped call: the tensors handed to the
    attention function. *)
Lemma prepare_ok (a : mha_args) (batched : bool) (T B S E : Z) :
  well_shaped_call a batched T B S E →
  ∃ p, result (prepare a) = Ok p
       ∧ is_batched (p_shapes p) = batched
       ∧ tgt_len (p_shapes p) = T ∧ bsz (p_shapes p) = B ∧ embed_dim (p_shapes p) = E
       ∧ head_dim (p_shapes p) = E `div` num_heads a
       ∧ p_src_len p = extended_src_len a S
       ∧ shape (p_q p) = [B * num_heads a; T; E `div` num_heads a]
       ∧ shape (p_k p) = [B * num_heads a; extended_src_len a S; E `div` num_heads a]
       ∧ shape (p_v p) = [B * num_heads a; extended_src_len a S; E `div` num_heads a]
       ∧ match p_attn_mask p with
         | Some m => mask_fits (B * num_heads a) T (extended_src_len a S) (shape m)
         | None => True
         end.
Proof.
  intros Hcall.
  destruct (prepare_reaches_merge a batched T B S E B S Hcall)
    as (s & q & k & v & m & kpm & _ & -> & Hib & HsT & HsB & HsE & Hshd & Hq & Hk & Hv
        & Hm & Hkpm).
  destruct Hcall as (_ & _ & _ & _ & _ & HB & HS & _ & _ & HH & _).
  assert (HS' : 0 <= extended_src_len a S).
  { unfold extended_src_len, biased_src_len.
    destruct (add_zero_attn a), (is_some (bias_k a)); lia. }
  destruct (merge_masks_ok kpm m B (num_heads a) T (extended_src_len a S) (attn_mask_value a))
    as (m4 & Hmerge & Hm4); try lia; try done.
  { by destruct kpm. }
  rewrite result_bind, Hmerge.
  destruct (convert_mask_to_float_ok m4 (attn_mask_value a) (B * num_heads a) T
              (extended_src_len a S) Hm4) as (m5 & Hconv & Hm5).
  rewrite result_bind, Hconv. cbn [ret result fst].
  eexists. split; [reflexivity|]. cbn [p_shapes p_q p_k p_v p_attn_mask p_src_len].
  by repeat split.
Qed.

(** The engine on a well-shaped call: it returns, with the shapes of the
    inputs. *)
Lemma engine_call_succeeds (a : mha_args) (g : rng) (batched : bool) (T B S E : Z) :
  well_shaped_call a batched T B S E → default_functions a → dropout_accepted a →
  ∃ out w g',
    result (_multi_head_attention_forward a g) = Ok (out, w, g')
    ∧ shape out = input_shape batched T B E
    ∧ match w with
      | Some ws =>
          need_weights a = true
          ∧ shape ws = weights_shape batched (averaged a) B (num_heads a) T
                         (extended_src_len a S)
      | None => need_weights a = false
      end.
Proof.
  intros Hcall (Hkf & Haf & Hmf & Hpf) Hdrop.
  destruct (prepare_ok a batched T B S E Hcall)
    as (p & Hprep & Hib & HpT & HpB & HpE & Hphd & HpS & Hq & Hk & Hv & Hm).
  destruct Hcall as (_ & _ & _ & HB1 & HT & HB & HS & HE & HE0 & HH & Hmod & _ & _ & _
                     & How & Hob & _).
  assert (HS' : 0 <= extended_src_len a S).
  { unfold extended_src_len, biased_src_len.
    destruct (add_zero_attn a), (is_some (bias_k a)); lia. }
  assert (Hd : fgtb (adjust_dropout (training a) (dropout_p a)) f0 = true →
               fgtb f0 (adjust_dropout (training a) (dropout_p a))
               || fgtb (adjust_dropout (training a) (dropout_p a)) f1 = false).
  { unfold adjust_dropout. destruct Hdrop as [-> | Hr].
    - cbn [negb]. by rewrite fgtb_irrefl_0.
    - destruct (negb (training a)); [by rewrite fgtb_irrefl_0 | done]. }
  rewrite engine_dispatch. rewrite result_bind, Hprep.
  unfold attend.
  cbn [attention_function kernel_function attn_mask_value attn_masking_function
       query_key_product set_average_attn_weights].
  change (out_projection (set_average_attn_weights (averaged a) a)) with (out_projection a).
  rewrite Hkf, Haf, Hmf, Hpf.
  destruct (default_attention_ok (p_q p) (p_k p) (p_v p) (p_attn_mask p)
              (adjust_dropout (training a) (dropout_p a)) (attn_mask_value a) g
              (B * num_heads a) T (extended_src_len a S) (E `div` num_heads a)
              Hq Hk Hv Hm Hd) as (ao & W & g' & Hatt & Hao & HW).
  rewrite result_bind, Hatt.
  destruct (out_projection_ok a (p_shapes p) ao E) as (out & Hout & Hsh).
  { by rewrite HpB, HpT, Hphd. }
  { rewrite Hphd, HpE. rewrite (Z.div_mod E (num_heads a)) at 2 by lia. lia. }
  { by rewrite HpT. }
  { by rewrite HpB. }
  { rewrite HpE. lia. }
  { by rewrite HpE. }
  { done. }
  rewrite result_bind, Hout. rewrite HpT, HpB in Hsh.
  destruct (reduce_weights_shapes (set_average_attn_weights (averaged a) a) (p_shapes p)
              out W batched T B (extended_src_len a S) E Hib HB1 HpT HpB Hsh HW)
    as (out' & w' & Hred & Hout' & Hw'); try (cbn [num_heads set_average_attn_weights]; lia).
  rewrite result_bind, HpS, Hred. cbn [ret result fst].
  by exists out', w', g'.
Qed.

(** X14. A well-shaped call goes through. With the default functions,
    inputs, weights and masks of the documented shapes, and dropout off or
    within [0, 1], the engine returns; the output has the shape of the
    query; and the weights are returned exactly when asked for, of shape
    [B, T, S'] when averaged and [B, H, T, S'] per head (without [B] for an
    unbatched call), where [S'] is the source length, plus one with key and
    value biases and plus one under [add_zero_attn]. They are averaged when
    [average_attn_weights] is set, and on operands of a Tensor subclass
    also when it is not: the call handed on at lines 369-400 does not pass
    the flag. *)
Theorem well_shaped_call_succeeds (a : mha_args) (g : rng) (batched : bool) (T B S E : Z) :
  well_shaped_call a batched T B S E → default_functions a → dropout_accepted a →
  ∃ out w g',
    result (_multi_head_attention_forward a g) = Ok (out, w, g')
    ∧ shape out = input_shape batched T B E
    ∧ match w with
      | Some ws =>
          need_weights a = true
          ∧ shape ws = weights_shape batched (averaged a) B (num_heads a) T
                         (extended_src_len a S)
      | None => need_weights a = false
      end.
Proof.
  intros Hcall Hdef Hdrop.
  destruct (engine_call_succeeds a g batched T B S E Hcall Hdef Hdrop)
    as (out & w & g' & Hrun & Hout & Hw).
  exists out, w, g'. split; [exact Hrun|]. split; [exact Hout | exact Hw].
Qed.

End Success5.

Section Success6.

Context {F : Type} {SF : Scalar F}.

#[local] Existing Instance F_inhabited.

Lemma transpose_10_shape (t : tensor F) (x y z : Z) :
  shape t = [x; y; z] → ∃ t', transpose t 1 0 = Ok t' ∧ shape t' = [y; x; z].
Proof. intros Ht. unfold transpose. rewrite Ht. cbn -[tabulate]. eauto. Qed.

(** X15. [forward] goes through on well-shaped inputs. For an adapter with
    the default functions over a layer whose parameters have the
    constructor's shapes, in evaluation mode or with a dropout rate within
    [0, 1], and a query, key, value and masks of the documented shapes (the
    batch dimension first under [batch_first], or absent), [forward]
    returns: the output has the shape of the query, and the weights are
    returned exactly when asked for, averaged or per head; they are
    averaged when [average_attn_weights] is set, and on a query, key or
    value of a Tensor subclass also when it is not, since the engine's
    re-dispatch (lines 368-400) does not pass the flag on. *)
Theorem forward_succeeds (self : CustomizableMultiHead) (h : heap F)
    (tensor_subclass : bool) (query key value : tensor F)
    (key_padding_mask : option padding_mask)
    (need_weights : bool) (attn_mask : option mask) (average_attn_weights : bool)
    (g : rng) (batched : bool) (T B S : Z) :
  let m := base self in
  let E := self_embed_dim m in
  well_shaped_layer m h → default_adapter self →
  (self_training m = false ∨ fgtb f0 (self_dropout m) || fgtb (self_dropout m) f1 = false) →
  shape query = layout_shape (self_batch_first m) batched T B E →
  shape key = layout_shape (self_batch_first m) batched S B E →
  shape value = layout_shape (self_batch_first m) batched S B E →
  (batched = false → B = 1) → 0 <= T → 0 <= B → 0 <= S →
  match key_padding_mask with
  | Some p => kpm_shape p = if batched then [B; S] else [S]
  | None => True
  end →
  match attn_mask with
  | Some am => supported_mask_dtype am = true ∧ mask_shape am = [T; S]
  | None => True
  end →
  ∃ out w g',
    result (forward self h tensor_subclass query key value key_padding_mask need_weights attn_mask
              average_attn_weights g) = Ok (out, w, g')
    ∧ shape out = shape query
    ∧ match w with
      | Some ws =>
          need_weights = true
          ∧ shape ws
            = weights_shape batched (tensor_subclass || average_attn_weights) B
                (self_num_heads m) T
                (if self_add_zero_attn m
                 then (if is_some (param m h "bias_k") then S + 1 else S) + 1
                 else if is_some (param m h "bias_k") then S + 1 else S)
      | None => need_weights = false
      end.
Proof.
  intros m E (HE & HH & Hmod & Hsame & Hw & Hb & (ow & How & Hows) & Hob & Hbias)
    (Hkf & Haf & Hmf & Hpf) Hdrop Hq Hk Hv HB1 HT HB HS Hkpm Ham.
  unfold forward. fold m.
  assert (Hdim : (dim query =? 3) = batched).
  { unfold dim. rewrite Hq. unfold layout_shape, input_shape.
    by destruct (self_batch_first m), batched. }
  rewrite Hdim.
  assert (Hin : ∃ q' k' v',
            result (if self_batch_first m && batched then transpose_qkv query key value
                    else ret (query, key, value)) = Ok (q', k', v')
            ∧ shape q' = input_shape batched T B E
            ∧ shape k' = input_shape batched S B E
            ∧ shape v' = input_shape batched S B E).
  { unfold layout_shape in Hq, Hk, Hv.
    destruct (self_batch_first m && batched) eqn:Hbf.
    - apply andb_true_iff in Hbf as [_ ->]. unfold transpose_qkv, call.
      destruct (transpose_10_shape query _ _ _ Hq) as (q' & -> & Hq').
      destruct (transpose_10_shape key _ _ _ Hk) as (k' & -> & Hk').
      destruct (transpose_10_shape value _ _ _ Hv) as (v' & -> & Hv').
      by exists q', k', v'.
    - by exists query, key, value. }
  destruct Hin as (q' & k' & v' & Hin & Hq' & Hk' & Hv').
  rewrite result_bind, Hin, result_bind, How. cbn [ret result fst].
  rewrite Hsame. cbn [negb].
  match goal with
  | |- context [_multi_head_attention_forward ?a g] =>
      destruct (engine_call_succeeds a g batched T B S E) as (out & w & g' & Hrun & Hout & Hws)
  end.
  { unfold well_shaped_call, shaped_call. cbn -[Z.mul Z.modulo]. split_and!; done. }
  { done. }
  { done. }
  rewrite result_bind, Hrun.
  unfold extended_src_len, biased_src_len, averaged in Hws.
  cbn -[Z.add is_some weights_shape param orb] in Hws.
  unfold layout_shape in Hq.
  destruct (self_batch_first m && batched) eqn:Hbf.
  - apply andb_true_iff in Hbf as [_ ->]. unfold call.
    destruct (transpose_10_shape out _ _ _ Hout) as (out' & Hout' & Hsh').
    rewrite result_bind. cbn [result fst]. rewrite Hout'. cbn [ret result fst].
    exists out', w, g'. split; [done|]. split; [by rewrite Hq|]. done.
  - exists out, w, g'. split; [done|]. split; [by rewrite Hq|]. done.
Qed.

End Success6.

(** ** The flags of [forward] *)

Lemma result_bind_Ok_inv {A B} (m : M A) (f : A → M B) (y : B) :
  result (bind m f) = Ok y → ∃ x, result m = Ok x ∧ result (f x) = Ok y.
Proof.
  rewrite result_bind. destruct (result m) as [x|e]; [|done]. intros Hf. by exists x.
Qed.

Lemma result_bind_congr {A B} (m1 m2 : M A) (f : A → M B) :
  result m1 = result m2 → result (bind m1 f) = result (bind m2 f).
Proof. intros Hm. by rewrite !result_bind, Hm. Qed.

Lemma result_bind_ext {A B} (m : M A) (f1 f2 : A → M B) :
  (∀ x, result (f1 x) = result (f2 x)) → result (bind m f1) = result (bind m f2).
Proof. intros Hf. rewrite !result_bind. by destruct (result m). Qed.

Section Flags.

Context {F : Type} {SF : Scalar F}.

#[local] Existing Instance F_inhabited.

(** Without the weights, the returned pair holds the same output. *)
Lemma reduce_weights_without (a : mha_args) (s : shapes) (S : Z) (ao W out : tensor F)
    (w : option (tensor F)) :
  result (reduce_weights (set_need_weights true a) s S ao W) = Ok (out, w) →
  result (reduce_weights (set_need_weights false a) s S ao W) = Ok (out, None).
Proof.
  unfold reduce_weights. cbn [need_weights set_need_weights]. intros Hrun.
  apply result_bind_Ok_inv in Hrun as (W4 & _ & Hrun).
  apply result_bind_Ok_inv in Hrun as (W' & _ & Hrun).
  destruct (negb (is_batched s)); [|by injection Hrun as <- _].
  apply result_bind_Ok_inv in Hrun as (out1 & Hsq & Hrun).
  apply result_bind_Ok_inv in Hrun as (w1 & _ & Hrun). injection Hrun as <- _.
  by rewrite result_bind, Hsq.
Qed.

Lemma engine_without_weights (a : mha_args) (g g' : rng) (out : tensor F)
    (w : option (tensor F)) :
  result (_multi_head_attention_forward (set_need_weights true a) g) = Ok (out, w, g') →
  result (_multi_head_attention_forward (set_need_weights false a) g) = Ok (out, None, g').
Proof.
  rewrite !engine_dispatch.
  change (prepare (set_need_weights true a)) with (prepare a).
  change (prepare (set_need_weights false a)) with (prepare a).
  set (a' := set_average_attn_weights (averaged a) a).
  change (attend (set_average_attn_weights (averaged (set_need_weights true a))
                    (set_need_weights true a)))
    with (attend (set_need_weights true a')).
  change (attend (set_average_attn_weights (averaged (set_need_weights false a))
                    (set_need_weights false a)))
    with (attend (set_need_weights false a')).
  intros Hrun. apply result_bind_Ok_inv in Hrun as (p & Hprep & Hrun).
  rewrite result_bind, Hprep.
  cbn [training dropout_p set_need_weights] in *. unfold attend in *.
  cbn [attention_function kernel_function attn_mask_value attn_masking_function
       query_key_product set_need_weights] in *.
  apply result_bind_Ok_inv in Hrun as ([[ao W] g1] & Hatt & Hrun).
  rewrite result_bind, Hatt.
  change (out_projection (set_need_weights true a')) with (out_projection a') in Hrun.
  change (out_projection (set_need_weights false a')) with (out_projection a').
  apply result_bind_Ok_inv in Hrun as (out0 & Hout & Hrun).
  rewrite result_bind, Hout.
  apply result_bind_Ok_inv in Hrun as ([out1 w1] & Hred & Hrun).
  injection Hrun as <- <- <-.
  by rewrite result_bind, (reduce_weights_without _ _ _ _ _ _ _ Hred).
Qed.

(** X16. [need_weights] only decides whether the weights are handed back:
    when a call that asks for them returns, the same call without them
    returns the same output and the same random state, and None for the
    weights. *)
Theorem need_weights_only_drops_weights (self : CustomizableMultiHead) (h : heap F)
    (tensor_subclass : bool) (query key value : tensor F)
    (key_padding_mask : option padding_mask)
    (attn_mask : option mask) (average_attn_weights : bool) (g g' : rng)
    (out : tensor F) (w : option (tensor F)) :
  result (forward self h tensor_subclass query key value key_padding_mask true attn_mask
            average_attn_weights g) = Ok (out, w, g') →
  result (forward self h tensor_subclass query key value key_padding_mask false attn_mask
            average_attn_weights g) = Ok (out, None, g').
Proof.
  unfold forward. intros Hrun.
  apply result_bind_Ok_inv in Hrun as ([[q' k'] v'] & Hin & Hrun).
  rewrite result_bind, Hin.
  apply result_bind_Ok_inv in Hrun as (ow & How & Hrun).
  rewrite result_bind, How.
  apply result_bind_Ok_inv in Hrun as ([[ao w0] g1] & Heng & Hrun).
  rewrite result_bind.
  lazymatch goal with
  | |- context [if ?c then _multi_head_attention_forward ?a1 g
                else _multi_head_attention_forward ?a2 g] =>
      assert (Heng' : result (if c then _multi_head_attention_forward a1 g
                              else _multi_head_attention_forward a2 g)
                      = Ok (ao, None, g1))
  end.
  { destruct (negb (self_qkv_same_embed_dim (base self)));
      match type of Heng with
      | result (_multi_head_attention_forward ?a g) = _ =>
          exact (engine_without_weights a g g1 ao w0 Heng)
      end. }
  rewrite Heng'.
  destruct (self_batch_first (base self) && (dim query =? 3)).
  - apply result_bind_Ok_inv in Hrun as (out' & Htr & Hrun). injection Hrun as <- _ <-.
    by rewrite result_bind, Htr.
  - by injection Hrun as <- _ <-.
Qed.

End Flags.

Lemma events_bind_l {A B} (m : M A) (f : A → M B) (e : event) :
  e ∈ events m → e ∈ events (bind m f).
Proof. rewrite events_bind. set_solver. Qed.

Lemma events_bind_r {A B} (m : M A) (f : A → M B) (x : A) (e : event) :
  result m = Ok x → e ∈ events (f x) → e ∈ events (bind m f).
Proof. intros Hm He. rewrite events_bind, Hm. set_solver. Qed.

Section Flags2.

Context {F : Type} {SF : Scalar F}.

#[local] Existing Instance F_inhabited.

(** The preparation treats a byte mask as the boolean mask of its non-zero
    entries. *)
Lemma prepare_byte_mask (a : mha_args) (t : tensor Z) :
  result (prepare (set_attn_mask (Some (MByte t)) a))
  = result (prepare (set_attn_mask (Some (MBool (to_bool t))) a)).
Proof.
  set (a1 := set_attn_mask (Some (MByte t)) a).
  set (a2 := set_attn_mask (Some (MBool (to_bool t))) a).
  unfold prepare.
  change (shape_setup a1) with (shape_setup a2).
  apply result_bind_ext. intros s.
  change (compute_in_projection a1 s) with (compute_in_projection a2 s).
  apply result_bind_ext. intros [[q k] v].
  rewrite !result_bind.
  assert (Hprep : result (prep_attention_mask a1 s) = result (prep_attention_mask a2 s)).
  { unfold prep_attention_mask, a1, a2. cbn [attn_mask set_attn_mask].
    by rewrite !result_bind. }
  rewrite Hprep. destruct (result (prep_attention_mask a2 s)); [|done]. reflexivity.
Qed.

Lemma engine_byte_mask (a : mha_args) (t : tensor Z) (g : rng) :
  result (_multi_head_attention_forward (set_attn_mask (Some (MByte t)) a) g)
  = result (_multi_head_attention_forward (set_attn_mask (Some (MBool (to_bool t))) a) g).
Proof.
  rewrite !engine_dispatch, !result_bind, prepare_byte_mask.
  destruct (result (prepare _)); [|done]. reflexivity.
Qed.

(** A byte mask that gets as far as the mask preparation is announced as
    deprecated. *)
Lemma engine_byte_mask_warns (a : mha_args) (t : tensor Z) (g : rng) :
  is_ok (result (_multi_head_attention_forward (set_attn_mask (Some (MByte t)) a) g)) = true →
  Warn "Byte tensor for attn_mask in nn.MultiheadAttention is deprecated. Use bool tensor instead."
  ∈ events (_multi_head_attention_forward (set_attn_mask (Some (MByte t)) a) g).
Proof.
  set (a1 := set_attn_mask (Some (MByte t)) a). intros Hok.
  destruct (result (_multi_head_attention_forward a1 g)) as [r|] eqn:Hrun; [|done].
  rewrite engine_dispatch in *.
  apply result_bind_Ok_inv in Hrun as (p & Hprep & _).
  apply events_bind_l. unfold prepare in *.
  apply result_bind_Ok_inv in Hprep as (s & Hs & Hprep).
  apply (events_bind_r _ _ s); [done|].
  apply result_bind_Ok_inv in Hprep as (qkv & Hqkv & Hprep).
  apply (events_bind_r _ _ qkv); [done|]. destruct qkv as [[q k] v].
  apply events_bind_l. unfold prep_attention_mask, a1. cbn [attn_mask set_attn_mask].
  do 2 apply events_bind_l. unfold warn, events. cbn. set_solver.
Qed.

(** X17. A byte attention mask acts as the boolean mask of its non-zero
    entries (lines 474-478): [forward] returns the same with either (the
    same output and weights, or the same exception), and a call with the
    byte mask that returns has logged the deprecation warning. *)
Theorem byte_attention_mask_as_boolean (self : CustomizableMultiHead) (h : heap F)
    (tensor_subclass : bool) (query key value : tensor F)
    (key_padding_mask : option padding_mask)
    (need_weights average_attn_weights : bool) (g : rng) (t : tensor Z) :
  let with_bytes :=
    forward self h tensor_subclass query key value key_padding_mask need_weights (Some (MByte t))
      average_attn_weights g in
  let with_booleans :=
    forward self h tensor_subclass query key value key_padding_mask need_weights
      (Some (MBool (to_bool t))) average_attn_weights g in
  result with_bytes = result with_booleans
  ∧ (is_ok (result with_bytes) = true →
     Warn "Byte tensor for attn_mask in nn.MultiheadAttention is deprecated. Use bool tensor instead."
     ∈ events with_bytes).
Proof.
  intros with_bytes with_booleans. subst with_bytes with_booleans. unfold forward. split.
  - apply result_bind_ext. intros [[q' k'] v'].
    apply result_bind_ext. intros ow.
    apply result_bind_congr.
    destruct (negb (self_qkv_same_embed_dim (base self)));
      match goal with
      | |- result (_multi_head_attention_forward ?a g) = _ =>
          exact (engine_byte_mask a t g)
      end.
  - intros Hok.
    destruct (result (bind _ _)) as [r|] eqn:Hrun in Hok; [|done]. clear Hok.
    apply result_bind_Ok_inv in Hrun as ([[q' k'] v'] & Hin & Hrun).
    apply (events_bind_r _ _ (q', k', v')); [done|].
    apply result_bind_Ok_inv in Hrun as (ow & How & Hrun).
    apply (events_bind_r _ _ ow); [done|].
    apply result_bind_Ok_inv in Hrun as (res & Heng & _).
    apply events_bind_l.
    destruct (negb (self_qkv_same_embed_dim (base self)));
      match goal with
      | |- _ ∈ events (_multi_head_attention_forward ?a g) =>
          apply (engine_byte_mask_warns a t g);
          change (set_attn_mask (Some (MByte t)) a) with a; by rewrite Heng
      end.
Qed.

(** X18. [batch_first] is a transposition around the same computation
    (lines 259-261 and 319-322). On a three-dimensional query, [forward]
    of a batch-first module is: transpose query, key and value, run
    [forward] of the same module without [batch_first], transpose the output
    back; the weights are handed on as they are. On any other query the flag
    is ignored. *)
Theorem batch_first_is_a_transposition (self : CustomizableMultiHead) (h : heap F)
    (tensor_subclass : bool) (query key value : tensor F)
    (key_padding_mask : option padding_mask)
    (need_weights : bool) (attn_mask : option mask) (average_attn_weights : bool)
    (g : rng) :
  self_batch_first (base self) = true →
  (dim query = 3 →
   forward self h tensor_subclass query key value key_padding_mask need_weights attn_mask
     average_attn_weights g
   = let* (q, k, v) := transpose_qkv query key value in
     let* (out, w, g') :=
       forward (with_batch_first false self) h tensor_subclass q k v key_padding_mask need_weights
         attn_mask average_attn_weights g in
     let* out' := call "transpose" (transpose out 1 0) in
     ret (out', w, g'))
  ∧ (dim query ≠ 3 →
     forward self h tensor_subclass query key value key_padding_mask need_weights attn_mask
       average_attn_weights g
     = forward (with_batch_first false self) h tensor_subclass query key value key_padding_mask
         need_weights attn_mask average_attn_weights g).
Proof.
  intros Hbf. split; intros Hdim.
  - unfold forward. rewrite Hbf, Hdim.
    cbn [base with_batch_first set_batch_first self_batch_first andb Z.eqb Pos.eqb
         self_qkv_same_embed_dim self_embed_dim self_num_heads self_add_zero_attn
         self_dropout self_training self_kernel_function self_attn_mask_value
         self_attention_function self_attn_masking_function self_query_key_product].
    apply bind_ext. intros [[q k] v]. rewrite bind_ret_l, !bind_assoc.
    apply bind_ext. intros ow. rewrite bind_assoc.
    apply bind_ext. intros [[ao w] g']. by rewrite bind_ret_l.
  - unfold forward. rewrite Hbf.
    destruct (Z.eqb_spec (dim query) 3) as [?|_]; [done|]. reflexivity.
Qed.

End Flags2.

(** ** The approximator *)

Section Approximator3.

Context {F : Type} {SF : Scalar F}.

(** X19. A stored parameter that is not a keyword of the adapter's
    constructor makes [get_trainable_approximation] raise TypeError (the
    call of line 97); nothing is appended to [approximations], but the
    configuration of the layer has been written into [self.parameters] by
    then. *)
Theorem unknown_parameter_is_refused (self : CustomizableMultiHeadApproximator)
    (l : @MultiheadAttention F) (h : heap F) (g : rng) (k : string) :
  k ∈ dom (parameters self) → k ∉ known_kwargs →
  (get_trainable_approximation self l h g).1
  = raise (TypeError "__init__() got an unexpected keyword argument")
  ∧ approximations (get_trainable_approximation self l h g).2 = approximations self
  ∧ parameters (get_trainable_approximation self l h g).2
    = parameters self ∪ layer_configuration l.
Proof.
  intros Hk Hnk.
  assert (Hinit : CustomizableMultiHead_init (parameters self ∪ layer_configuration l) h g
                  = raise (TypeError "__init__() got an unexpected keyword argument")).
  { unfold CustomizableMultiHead_init. rewrite bool_decide_eq_false_2; [done|].
    intros Hsub. apply Hnk. apply (elem_of_list_to_set (C := gset string)).
    apply Hsub. rewrite dom_union. set_solver. }
  unfold get_trainable_approximation. rewrite store_configuration_union, Hinit.
  done.
Qed.

Lemma customization_lookup (c : customization) (l : @MultiheadAttention F) :
  let kw := customization_parameters c ∪ layer_configuration l in
  bool_decide (dom kw ⊆ list_to_set known_kwargs) = true
  ∧ kw !! "embed_dim" = Some (VInt (self_embed_dim l))
  ∧ kw !! "num_heads" = Some (VInt (self_num_heads l))
  ∧ kw !! "dropout" = Some (VFloat (self_dropout l))
  ∧ kw !! "bias" = Some (VBool (is_some (self_params l !! "in_proj_bias")))
  ∧ kw !! "add_bias_kv" = Some (VBool (is_some (self_params l !! "bias_k")))
  ∧ kw !! "add_zero_attn" = Some (VBool (self_add_zero_attn l))
  ∧ kw !! "kdim" = Some (VInt (self_kdim l))
  ∧ kw !! "vdim" = Some (VInt (self_vdim l))
  ∧ kw !! "batch_first" = Some (VBool (self_batch_first l))
  ∧ kw !! "kernel_function" = VKernel <$> c_kernel_function c
  ∧ kw !! "attn_mask_value" = VFloat <$> c_attn_mask_value c
  ∧ kw !! "attention_function" = VAttention <$> c_attention_function c
  ∧ kw !! "attn_masking_function" = VMasking <$> c_attn_masking_function c
  ∧ kw !! "query_key_product" = VProduct <$> c_query_key_product c.
Proof.
  destruct c as [[kf|] [mv|] [af|] [mf|] [pf|]];
    (split; [vm_compute; reflexivity | repeat split; reflexivity]).
Qed.

(** With the substitutes and a layer's configuration as keyword arguments,
    the adapter's constructor is the parent's on that configuration, with
    the substitutes stored and the defaults elsewhere. *)
Lemma init_from_customization (c : customization) (l : @MultiheadAttention F)
    (h : heap F) (g : rng) :
  CustomizableMultiHead_init (customization_parameters c ∪ layer_configuration l) h g
  = bind (MultiheadAttention_init (self_embed_dim l) (self_num_heads l) (self_dropout l)
            (is_some (self_params l !! "in_proj_bias"))
            (is_some (self_params l !! "bias_k"))
            (self_add_zero_attn l) (Some (self_kdim l)) (Some (self_vdim l))
            (self_batch_first l) h g)
      (fun '(m, h, g) => ret (customized c m, h, g)).
Proof.
  destruct (customization_lookup c l)
    as (Hdom & H1 & H2 & H3 & H4 & H5 & H6 & H7 & H8 & H9 & H10 & H11 & H12 & H13 & H14).
  unfold CustomizableMultiHead_init, kwarg.
  rewrite Hdom, H1, H2, H3, H4, H5, H6, H7, H8, H9, H10, H11, H12, H13, H14.
  cbn [negb as_int as_float as_bool as_opt_int]. rewrite !bind_ret_l.
  destruct c as [[kf|] [mv|] [af|] [mf|] [pf|]];
    cbn [fmap option_fmap option_map c_kernel_function c_attn_mask_value
         c_attention_function c_attn_masking_function c_query_key_product
         as_kernel as_float as_attention as_masking as_product];
    rewrite !bind_ret_l; reflexivity.
Qed.

(** X20. The approximator at its intended use. With [parameters] that hold
    substitutes for some of the five pluggable functions (and nothing else),
    [get_trainable_approximation] on a well-formed layer succeeds; the new
    adapter has the layer's configuration and the layer's own parameter
    objects, the substitutes where given and the defaults elsewhere, and is
    in training mode; it is what the call appends to [approximations];
    and no object of the heap has been changed. *)
Theorem customized_extraction (c : customization) (apps : list CustomizableMultiHead)
    (l : @MultiheadAttention F) (h : heap F) (g : rng) :
  well_formed_layer l h →
  let self := {| parameters := customization_parameters c; approximations := apps |} in
  ∃ h' g',
    (get_trainable_approximation self l h g).1
    = ret (customized c (set_training true l), h', g')
    ∧ approximations (get_trainable_approximation self l h g).2
      = apps ++ [customized c (set_training true l)]
    ∧ h ⊆ h'.
Proof.
  intros (Hvalid & Hsame & Hhd & Hdom & Halloc) self.
  destruct Hvalid as (Hnh & Hmod & HE & Hk & Hv).
  destruct (MultiheadAttention_init_ok (self_embed_dim l) (self_num_heads l)
              (self_dropout l) (is_some (self_params l !! "in_proj_bias"))
              (is_some (self_params l !! "bias_k")) (self_add_zero_attn l)
              (Some (self_kdim l)) (Some (self_vdim l)) (self_batch_first l) h g
              Hnh Hmod HE Hk Hv) as (ps & h' & g' & Hinit & Hps & Hsub).
  cbn [default from_option id] in Hinit, Hps. rewrite <- Hsame in Hinit, Hps.
  assert (Hrun : (get_trainable_approximation self l h g).1
                 = ret (customized c (set_training true l), h', g')).
  { rewrite get_trainable_approximation_outcome. cbn [parameters self].
    rewrite init_from_customization, Hinit, !bind_ret_l.
    rewrite load_parameters_ok by apply named_parameters_names.
    rewrite bind_ret_l, foldl_set_param.
    cbn [base customized self_embed_dim self_kdim self_vdim self_qkv_same_embed_dim
         self_num_heads self_dropout self_batch_first self_head_dim self_add_zero_attn
         self_training self_params self_kernel_function self_attn_mask_value
         self_attention_function self_attn_masking_function self_query_key_product].
    rewrite (loaded_parameters l ps _ _ _ Hdom Hps), <- Hhd.
    by destruct l. }
  exists h', g'. split; [exact Hrun|]. split; [|exact Hsub].
  unfold get_trainable_approximation in *. cbn [fst snd approximations] in *.
  by rewrite Hrun.
Qed.

(** X21. [approximate_module] on a module of the model. A name that is not
    an attribute of the model raises AttributeError. Asked for the
    pretrained form, it hands back the module itself when that is an
    adapter, and raises ValueError on anything else, the original layer
    included; either way the approximator is left as it was. Asked for the
    trainable form, it is [get_trainable_approximation] on that module. *)
Theorem approximate_module_dispatch (self : CustomizableMultiHeadApproximator)
    (model : gmap string child_module) (id : string) (h : heap F) (g : rng) :
  (model !! id = None →
   ∀ pretrained,
     approximate_module self model id pretrained h g = (raise (AttributeError id), self))
  ∧ (∀ c, model !! id = Some c →
       (approximate_module self model id true h g).2 = self
       ∧ (approximate_module self model id true h g).1
         = (if isinstance (child_object c) cls_CustomizableMultiHead
            then ret (Pretrained (child_object c))
            else raise (ValueError "module is not a CustomizableMultiHead"))
       ∧ (approximate_module self model id false h g).2
         = (get_trainable_approximation self (child_layer c) h g).2
       ∧ result (approximate_module self model id false h g).1
         = match result (get_trainable_approximation self (child_layer c) h g).1 with
           | Ok (a, h', g') => Ok (Trainable a h' g')
           | Raise e => Raise e
           end).
Proof.
  split.
  - intros Hid pretrained. unfold approximate_module. by rewrite Hid.
  - intros c Hid. unfold approximate_module. rewrite Hid. cbn [fst snd].
    split; [done|]. split; [|split; [done|]].
    + unfold get_pretrained_approximation.
      by destruct (isinstance (child_object c) cls_CustomizableMultiHead).
    + rewrite result_bind.
      by destruct (result (get_trainable_approximation self (child_layer c) h g).1)
        as [[[a h'] g']|e].
Qed.

End Approximator3.

(** ** The merge of the masks, in the call *)

Section Merge.

Context {F : Type} {SF : Scalar F}.

#[local] Existing Instance F_inhabited.

(** C7. In every call that gets as far as the merge of lines 567-583 with a
    key padding mask of shape [bsz, src_len] (the source length as the bias
    and the zero attention have left it), the padding mask is expanded to
    [bsz * num_heads, 1, src_len], row [b * num_heads + h] repeating row
    [b]; without an attention mask the expanded mask is the merged mask; a
    boolean attention mask is or-ed with it; a floating attention mask is
    set to the fill value where the padding mask is set. The merged mask is
    the one the call goes on with: converted to float (lines 585-589), it is
    the mask of the prepared tensors, which the attention function is
    called on. *)
Theorem merge_key_padding_mask (a : mha_args) (g : rng) (s : shapes) (q k v : tensor F)
    (attn_mask : option fb_mask) (kpm : tensor bool) (S T B0 : Z) :
  let H := num_heads a in
  reaches_merge a s q k v attn_mask (Some kpm) S →
  shape kpm = [bsz s; S] → 0 <= bsz s → 0 <= H → 0 <= S →
  match attn_mask with
  | Some m => fb_shape m = [B0; T; S] ∧ (B0 = 1 ∨ B0 = bsz s * H)
  | None => True
  end →
  ∃ (e : tensor bool) (merged : fb_mask),
    result (expand_key_padding_mask kpm (bsz s) H S) = Ok e
    ∧ shape e = [bsz s * H; 1; S]
    ∧ (∀ b h j p, 0 <= b < bsz s → 0 <= h < H → tget kpm [b; j] = Some p →
                  tget e [b * H + h; 0; j] = Some p)
    ∧ match attn_mask with
      | None => merged = BMask e
      | Some (BMask m) =>
          ∃ m', merged = BMask m'
                ∧ shape m' = [bsz s * H; T; S]
                ∧ ∀ b h t j p x,
                    0 <= b < bsz s → 0 <= h < H →
                    tget kpm [b; j] = Some p →
                    tget m [if B0 =? 1 then 0 else b * H + h; t; j] = Some x →
                    tget m' [b * H + h; t; j] = Some (x || p)
      | Some (FMask m) =>
          ∃ m', merged = FMask m'
                ∧ shape m' = [bsz s * H; T; S]
                ∧ ∀ b h t j p x,
                    0 <= b < bsz s → 0 <= h < H →
                    tget kpm [b; j] = Some p →
                    tget m [if B0 =? 1 then 0 else b * H + h; t; j] = Some x →
                    tget m' [b * H + h; t; j]
                    = Some (if p then attn_mask_value a else x)
      end
    ∧ result (prepare a)
      = result (let* mask := convert_mask_to_float (Some merged) (attn_mask_value a) in
                ret {| p_shapes := s; p_q := q; p_k := k; p_v := v;
                       p_attn_mask := mask; p_src_len := S |})
    ∧ result (_multi_head_attention_forward a g)
      = result (let* mask := convert_mask_to_float (Some merged) (attn_mask_value a) in
                attend (set_average_attn_weights (averaged a) a)
                  {| p_shapes := s; p_q := q; p_k := k; p_v := v;
                     p_attn_mask := mask; p_src_len := S |}
                  (adjust_dropout (training a) (dropout_p a)) g).
Proof.
  intros H (q1 & k1 & v1 & m1 & kpm1 & k2 & v2 & m2 & kpm2 & k3 & v3
            & Hs & Hproj & Hm1 & Hk1 & Hbias & Hresh & Hzero & HS)
    Hsh HB HH HS0 Hm.
  destruct (merge_masks_elements kpm attn_mask (bsz s) H S T B0 (attn_mask_value a)
              Hsh HB HH HS0 Hm) as (e & Hexp & Hesh & Hel & Hmerge).
  assert (Hmerged : ∃ merged,
            result (merge_masks (Some kpm) attn_mask (bsz s) H S (attn_mask_value a))
            = Ok (Some merged)
            ∧ match attn_mask with
              | None => merged = BMask e
              | Some (BMask m) =>
                  ∃ m', merged = BMask m'
                        ∧ shape m' = [bsz s * H; T; S]
                        ∧ ∀ b h t j p x,
                            0 <= b < bsz s → 0 <= h < H →
                            tget kpm [b; j] = Some p →
                            tget m [if B0 =? 1 then 0 else b * H + h; t; j] = Some x →
                            tget m' [b * H + h; t; j] = Some (x || p)
              | Some (FMask m) =>
                  ∃ m', merged = FMask m'
                        ∧ shape m' = [bsz s * H; T; S]
                        ∧ ∀ b h t j p x,
                            0 <= b < bsz s → 0 <= h < H →
                            tget kpm [b; j] = Some p →
                            tget m [if B0 =? 1 then 0 else b * H + h; t; j] = Some x →
                            tget m' [b * H + h; t; j]
                            = Some (if p then attn_mask_value a else x)
              end).
  { destruct attn_mask as [[m|m]|].
    - destruct Hmerge as (m' & Hres & Hsh' & Hget). exists (FMask m'). eauto.
    - destruct Hmerge as (m' & Hres & Hsh' & Hget). exists (BMask m'). eauto.
    - exists (BMask e). eauto. }
  destruct Hmerged as (merged & Hres & Hcases).
  assert (Hprep : result (prepare a)
                  = result (let* mask := convert_mask_to_float (Some merged)
                                           (attn_mask_value a) in
                            ret {| p_shapes := s; p_q := q; p_k := k; p_v := v;
                                   p_attn_mask := mask; p_src_len := S |})).
  { unfold prepare.
    rewrite result_bind, Hs, result_bind, Hproj, result_bind, Hm1, result_bind, Hk1,
      result_bind, Hbias, result_bind, Hresh, result_bind, Hzero, result_bind, HS,
      result_bind.
    fold H. by rewrite Hres. }
  exists e, merged. split_and!; try done.
  rewrite engine_dispatch, result_bind, Hprep, !result_bind.
  by destruct (result (convert_mask_to_float (Some merged) (attn_mask_value a))).
Qed.

End Merge.

Section LateValidation.

Context {F : Type} {SF : Scalar F}.

#[local] Existing Instance F_inhabited.

(** X22. The shape of the key padding mask is validated late. On a call
    whose other inputs have the documented shapes, a key padding mask of two
    dimensions (one when unbatched) but not of shape [bsz, src_len] passes
    the shape check at the start of the call; the AssertionError of lines
    568-572 is raised only once the in-projection has been computed. *)
Theorem key_padding_mask_shape_checked_at_merge (a : mha_args) (g : rng) (batched : bool)
    (T B S E Bk Sk : Z) :
  shaped_call a batched T B S E Bk Sk →
  is_Some (key_padding_mask a) →
  (Bk, Sk) ≠ (B, S) →
  result (_multi_head_attention_forward a g)
  = Raise (AssertionError "expecting key_padding_mask shape of (bsz, src_len)")
  ∧ Op "_in_projection_packed" ∈ events (_multi_head_attention_forward a g).
Proof.
  intros Hcall [p Hp] Hne.
  destruct (prepare_reaches_merge a batched T B S E Bk Sk Hcall)
    as (s & q & k & v & m & kpm & Hsetup & Hprep & _ & _ & _ & _ & _ & _ & _ & _ & _ & Hkpm).
  split.
  - rewrite engine_dispatch. rewrite result_bind, Hprep.
    destruct kpm as [t|]; [|congruence].
    unfold merge_masks. rewrite Hkpm.
    assert (Hsh : shape_eqb [Bk; extended_src_len a Sk] [B; extended_src_len a S] = false).
    { apply not_true_is_false. rewrite shape_eqb_eq. intros Heq.
      injection Heq as -> HS. apply Hne. f_equal.
      unfold extended_src_len, biased_src_len in HS.
      destruct (add_zero_attn a), (is_some (bias_k a)); lia. }
    by rewrite Hsh.
  - destruct Hcall as (_ & _ & _ & _ & _ & _ & _ & _ & _ & _ & _ & Hsep & (w & Hw & _) & _).
    rewrite engine_dispatch. apply events_bind_l.
    unfold prepare. apply (events_bind_r _ _ s _ Hsetup). apply events_bind_l.
    unfold compute_in_projection. rewrite Hsep, Hw. cbn. set_solver.
Qed.

End LateValidation.

(** ** Unbatched calls *)

Section Unbatched.

Context {F : Type} {SF : Scalar F}.

#[local] Existing Instance F_inhabited.

(** The rank of the key padding mask that passed the shape check. *)
Lemma mha_shape_check_kpm (q k v : tensor F) (kpm : option padding_mask)
    (m : option mask) (nh : Z) (b : bool) (p : padding_mask) :
  result (_mha_shape_check q k v kpm m nh) = Ok b → kpm = Some p →
  kpm_dim p = if b then 2 else 1.
Proof.
  unfold _mha_shape_check. intros Hrun ->.
  destruct (dim q =? 3); [|destruct (dim q =? 2); [|done]].
  - apply result_bind_Ok_inv in Hrun as (? & _ & Hrun).
    apply result_bind_Ok_inv in Hrun as (? & Hp & Hrun).
    apply result_bind_Ok_inv in Hrun as (? & _ & Hrun). injection Hrun as <-.
    unfold assert in Hp. destruct (kpm_dim p =? 2) eqn:Hd; [|done]. lia.
  - apply result_bind_Ok_inv in Hrun as (? & _ & Hrun).
    apply result_bind_Ok_inv in Hrun as (? & Hp & Hrun).
    apply result_bind_Ok_inv in Hrun as (? & _ & Hrun). injection Hrun as <-.
    unfold assert in Hp. destruct (kpm_dim p =? 1) eqn:Hd; [|done]. lia.
Qed.

Lemma unsqueeze_length {A} (t t' : tensor A) (d : nat) :
  unsqueeze t d = Ok t' → length (shape t') = S (length (shape t)).
Proof.
  unfold unsqueeze. destruct (d <=? length (shape t))%nat eqn:Hd; [|done].
  intros [= <-]. apply Nat.leb_le in Hd. cbn [shape].
  rewrite length_app, length_take. cbn [length]. rewrite length_drop. lia.
Qed.

(** The promoted inputs of an unbatched call pass the shape check of a
    batched one. *)
Lemma promoted_inputs_checked (a : mha_args) (q k v : tensor F)
    (kpm : option padding_mask) :
  result (_mha_shape_check (query a) (key a) (value a) (key_padding_mask a) (attn_mask a)
            (num_heads a)) = Ok false →
  result (promote_unbatched a false) = Ok (q, k, v, kpm) →
  result (_mha_shape_check q k v kpm (attn_mask a) (num_heads a)) = Ok true.
Proof.
  intros Hcheck Hpro.
  pose proof (λ p, mha_shape_check_kpm _ _ _ _ _ _ _ p Hcheck) as Hkd.
  destruct (_mha_shape_check (query a) (key a) (value a) (key_padding_mask a) (attn_mask a)
              (num_heads a)) as [r l] eqn:Hc.
  cbn [result fst] in Hcheck. subst r.
  apply mha_shape_check_inv in Hc as (_ & Hq & Hk & Hv & Hm). rewrite Hq in Hk, Hv.
  unfold promote_unbatched, call in Hpro. cbn [negb] in Hpro.
  apply result_bind_Ok_inv in Hpro as (q' & Hq' & Hpro).
  apply result_bind_Ok_inv in Hpro as (k' & Hk' & Hpro).
  apply result_bind_Ok_inv in Hpro as (v' & Hv' & Hpro).
  apply result_bind_Ok_inv in Hpro as (kpm' & Hkpm' & Hpro).
  injection Hpro as -> -> -> ->. cbn [result fst] in Hq', Hk', Hv'.
  apply unsqueeze_length in Hq', Hk', Hv'.
  unfold _mha_shape_check, dim. rewrite Hq', Hk', Hv', Hq, Hk, Hv.
  change (Z.of_nat 3) with 3. cbn [Z.eqb Pos.eqb andb assert]. rewrite bind_ret_l.
  assert (Hp : match kpm with Some p => kpm_dim p = 2 | None => True end).
  { destruct (key_padding_mask a) as [p|]; [|by injection Hkpm' as <-].
    apply result_bind_Ok_inv in Hkpm' as (p' & Hp' & Hkpm'). injection Hkpm' as <-.
    cbn [result fst] in Hp'. specialize (Hkd p eq_refl).
    unfold kpm_dim in *. destruct p as [t|t]; cbn [kpm_unsqueeze kpm_shape] in *;
      destruct (unsqueeze t 0) as [t'|] eqn:Ht; try done; injection Hp' as <-;
      apply unsqueeze_length in Ht; cbn [kpm_shape]; lia. }
  rewrite result_bind.
  destruct kpm as [p|]; [rewrite Hp|]; cbn [Z.eqb Pos.eqb assert ret result fst];
    rewrite result_bind;
    (destruct (attn_mask a) as [m|]; [|done]);
    (destruct (Hm m eq_refl) as [-> | ->]; done).
Qed.

(** The shape variables do not depend on how the inputs came to be
    batched. *)
Lemma shape_variables_batched (a : mha_args) (b b' : bool) (q k v q0 k0 v0 : tensor F)
    (kpm kpm0 : option padding_mask) :
  result (shape_variables (set_inputs q0 k0 v0 kpm0 a) b' q k v kpm)
  = match result (shape_variables a b q k v kpm) with
    | Ok s => Ok (set_is_batched b' s)
    | Raise e => Raise e
    end.
Proof.
  unfold shape_variables.
  cbn [embed_dim_to_check num_heads use_separate_proj_weight set_inputs].
  rewrite !(result_bind (unpack3 (shape q))).
  destruct (result (unpack3 (shape q))) as [[[T B] E]|e]; [|done].
  rewrite !(result_bind (unpack3 (shape k))).
  destruct (result (unpack3 (shape k))) as [[[S ?] ?]|e]; [|done].
  rewrite !(result_bind (assert _ _)).
  destruct (result (assert (E =? embed_dim_to_check a) _)) as [?|e]; [|done].
  rewrite !(result_bind (floordiv _ _)).
  destruct (result (floordiv E (num_heads a))) as [hd|e]; [|done].
  rewrite !(result_bind (assert _ _)).
  destruct (result (assert (hd * num_heads a =? E) _)) as [?|e]; [|done].
  rewrite !result_bind.
  by destruct (result (if use_separate_proj_weight a then _ else _)) as [?|e].
Qed.

Lemma shape_setup_promoted (a : mha_args) (q k v : tensor F) (kpm : option padding_mask) :
  result (_mha_shape_check (query a) (key a) (value a) (key_padding_mask a) (attn_mask a)
            (num_heads a)) = Ok false →
  result (promote_unbatched a false) = Ok (q, k, v, kpm) →
  result (shape_setup (set_inputs q k v kpm a))
  = match result (shape_setup a) with
    | Ok s => Ok (set_is_batched true s)
    | Raise e => Raise e
    end.
Proof.
  intros Hcheck Hpro. rewrite !shape_setup_unfold, !result_bind.
  cbn [query key value key_padding_mask attn_mask num_heads set_inputs].
  rewrite (promoted_inputs_checked a q k v kpm Hcheck Hpro), Hcheck.
  rewrite !result_bind, Hpro.
  unfold promote_unbatched at 1. cbn [negb ret result fst].
  cbn [query key value key_padding_mask set_inputs].
  apply (shape_variables_batched a false true).
Qed.

Lemma shape_variables_flag (a : mha_args) (b : bool) (q k v : tensor F)
    (kpm : option padding_mask) (s : shapes) :
  result (shape_variables a b q k v kpm) = Ok s → is_batched s = b.
Proof.
  unfold shape_variables. intros Hrun.
  apply result_bind_Ok_inv in Hrun as ([[T B] E] & _ & Hrun).
  apply result_bind_Ok_inv in Hrun as ([[S ?] ?] & _ & Hrun).
  apply result_bind_Ok_inv in Hrun as (? & _ & Hrun).
  apply result_bind_Ok_inv in Hrun as (hd & _ & Hrun).
  apply result_bind_Ok_inv in Hrun as (? & _ & Hrun).
  apply result_bind_Ok_inv in Hrun as (? & _ & Hrun).
  by injection Hrun as <-.
Qed.

Lemma shape_setup_unbatched (a : mha_args) (s : shapes) :
  result (_mha_shape_check (query a) (key a) (value a) (key_padding_mask a) (attn_mask a)
            (num_heads a)) = Ok false →
  result (shape_setup a) = Ok s → is_batched s = false.
Proof.
  intros Hcheck. rewrite shape_setup_unfold, result_bind, Hcheck. intros Hrun.
  apply result_bind_Ok_inv in Hrun as ([[[q k] v] kpm] & _ & Hrun).
  by apply shape_variables_flag in Hrun.
Qed.

(** Lines 441-589 run on the promoted inputs: the preparation of an
    unbatched call is that of its batch of one. *)
Lemma prepare_promoted (a : mha_args) (q k v : tensor F) (kpm : option padding_mask) :
  result (_mha_shape_check (query a) (key a) (value a) (key_padding_mask a) (attn_mask a)
            (num_heads a)) = Ok false →
  result (promote_unbatched a false) = Ok (q, k, v, kpm) →
  result (prepare (set_inputs q k v kpm a))
  = match result (prepare a) with
    | Ok p => Ok (set_prepared_batched true p)
    | Raise e => Raise e
    end.
Proof.
  intros Hcheck Hpro. unfold prepare.
  rewrite !(result_bind (shape_setup _)), (shape_setup_promoted a q k v kpm Hcheck Hpro).
  destruct (result (shape_setup a)) as [s|e]; [|done].
  change (compute_in_projection (set_inputs q k v kpm a) (set_is_batched true s))
    with (compute_in_projection a s).
  rewrite !(result_bind (compute_in_projection a s)).
  destruct (result (compute_in_projection a s)) as [[[q1 k1] v1]|e]; [|done].
  change (prep_attention_mask (set_inputs q k v kpm a) (set_is_batched true s))
    with (prep_attention_mask a s).
  rewrite !(result_bind (prep_attention_mask a s)).
  destruct (result (prep_attention_mask a s)) as [m1|e]; [|done].
  cbn [key_padding_mask' set_is_batched].
  rewrite !(result_bind (prep_key_padding_mask _)).
  destruct (result (prep_key_padding_mask (key_padding_mask' s))) as [kpm1|e]; [|done].
  change (add_bias_kv (set_inputs q k v kpm a) (set_is_batched true s))
    with (add_bias_kv a s).
  rewrite !(result_bind (add_bias_kv _ _ _ _ _ _)).
  destruct (result (add_bias_kv a s k1 v1 m1 kpm1)) as [[[[k2 v2] m2] kpm2]|e]; [|done].
  change (reshape_qkv (set_inputs q k v kpm a) (set_is_batched true s))
    with (reshape_qkv a s).
  rewrite !(result_bind (reshape_qkv _ _ _ _ _)).
  destruct (result (reshape_qkv a s q1 k2 v2)) as [[[q3 k3] v3]|e]; [|done].
  change (add_zero_attention (set_inputs q k v kpm a) (set_is_batched true s))
    with (add_zero_attention a s).
  rewrite !(result_bind (add_zero_attention _ _ _ _ _ _)).
  destruct (result (add_zero_attention a s k3 v3 m2 kpm2)) as [[[[k4 v4] m4] kpm4]|e];
    [|done].
  rewrite !(result_bind (tsize _ _)).
  destruct (result (tsize k4 1)) as [S|e]; [|done].
  cbn [bsz num_heads attn_mask_value set_is_batched set_inputs].
  rewrite !(result_bind (merge_masks _ _ _ _ _ _)).
  destruct (result (merge_masks kpm4 m4 (bsz s) (num_heads a) S (attn_mask_value a)))
    as [m5|e]; [|done].
  rewrite !(result_bind (convert_mask_to_float _ _)).
  by destruct (result (convert_mask_to_float m5 (attn_mask_value a))) as [m6|e].
Qed.

Lemma prepare_shapes (a : mha_args) (p : prepared) :
  result (prepare a) = Ok p → result (shape_setup a) = Ok (p_shapes p).
Proof.
  unfold prepare. intros Hrun.
  apply result_bind_Ok_inv in Hrun as (s & Hs & Hrun). rewrite Hs.
  apply result_bind_Ok_inv in Hrun as ([[q1 k1] v1] & _ & Hrun).
  apply result_bind_Ok_inv in Hrun as (m1 & _ & Hrun).
  apply result_bind_Ok_inv in Hrun as (kpm1 & _ & Hrun).
  apply result_bind_Ok_inv in Hrun as ([[[k2 v2] m2] kpm2] & _ & Hrun).
  apply result_bind_Ok_inv in Hrun as ([[q3 k3] v3] & _ & Hrun).
  apply result_bind_Ok_inv in Hrun as ([[[k4 v4] m4] kpm4] & _ & Hrun).
  apply result_bind_Ok_inv in Hrun as (S & _ & Hrun).
  apply result_bind_Ok_inv in Hrun as (m5 & _ & Hrun).
  apply result_bind_Ok_inv in Hrun as (m6 & _ & Hrun).
  by injection Hrun as <-.
Qed.

(** Lines 612-627: the returned pair of an unbatched call is that of the
    batched one, squeezed. *)
Lemma reduce_weights_unbatched (a : mha_args) (q k v : tensor F)
    (kpm : option padding_mask) (s : shapes) (S : Z) (ao W : tensor F) (g : rng) :
  is_batched s = false →
  result (let* (out, w) := reduce_weights a s S ao W in ret (out, w, g))
  = result (let* (out, w) := reduce_weights (set_inputs q k v kpm a)
                               (set_is_batched true s) S ao W in
            squeeze_results (out, w, g)).
Proof.
  intros Hb. unfold reduce_weights, squeeze_results.
  cbn [need_weights average_attn_weights num_heads bsz tgt_len is_batched set_inputs
       set_is_batched negb].
  rewrite Hb. cbn [negb].
  destruct (need_weights a).
  - rewrite !bind_assoc. apply result_bind_ext. intros W4.
    rewrite !bind_assoc. apply result_bind_ext. intros W'.
    rewrite bind_ret_l, !bind_assoc. apply result_bind_ext. intros ao'.
    rewrite !bind_assoc. apply result_bind_ext. intros w'.
    by rewrite bind_ret_l.
  - rewrite bind_ret_l, !bind_assoc. apply result_bind_ext. intros ao'.
    by rewrite bind_ret_l.
Qed.

(** X23. An unbatched call is the call on a batch of one, squeezed. When
    the inputs of a call pass the shape check as unbatched (a query of two
    dimensions), the engine returns what it returns on the same inputs with
    a batch dimension of size one (key padding mask included), with that
    dimension squeezed out of the output and of the weights; it raises
    exactly when that call raises, the same exception. *)
Theorem unbatched_call_is_batch_of_one (a : mha_args) (g : rng) (q k v : tensor F)
    (kpm : option padding_mask) :
  result (_mha_shape_check (query a) (key a) (value a) (key_padding_mask a) (attn_mask a)
            (num_heads a)) = Ok false →
  result (promote_unbatched a false) = Ok (q, k, v, kpm) →
  result (_multi_head_attention_forward a g)
  = result (let* r := _multi_head_attention_forward (set_inputs q k v kpm a) g in
            squeeze_results r).
Proof.
  intros Hcheck Hpro. rewrite !engine_dispatch.
  set (a' := set_average_attn_weights (averaged a) a).
  change (attend (set_average_attn_weights (averaged (set_inputs q k v kpm a))
                    (set_inputs q k v kpm a)))
    with (attend (set_inputs q k v kpm a')).
  rewrite bind_assoc, !(result_bind (prepare _)).
  rewrite (prepare_promoted a q k v kpm Hcheck Hpro).
  destruct (result (prepare a)) as [p|e] eqn:Hp; [|done].
  apply prepare_shapes in Hp. apply (shape_setup_unbatched a _ Hcheck) in Hp.
  unfold attend.
  cbn [training dropout_p attention_function kernel_function attn_mask_value
       attn_masking_function query_key_product set_inputs
       p_q p_k p_v p_attn_mask p_src_len p_shapes set_prepared_batched].
  rewrite bind_assoc. apply result_bind_ext. intros [[ao W] g1].
  change (out_projection (set_inputs q k v kpm a') (set_is_batched true (p_shapes p)))
    with (out_projection a' (p_shapes p)).
  rewrite bind_assoc. apply result_bind_ext. intros out.
  rewrite bind_assoc.
  rewrite (reduce_weights_unbatched a' q k v kpm (p_shapes p) (p_src_len p) out W g1 Hp).
  apply result_bind_ext. intros [out' w']. by rewrite bind_ret_l.
Qed.

End Unbatched.

(** ** Guards of the projection and of the dropout *)

Section Guards.

Context {F : Type} {SF : Scalar F}.

#[local] Existing Instance F_inhabited.

(** X24. With separate projection weights, each of the three must be
    given: in a call that got through the shape set-up, the first of
    [q_proj_weight], [k_proj_weight], [v_proj_weight] that is None raises
    the AssertionError of lines 447-455, and no projection has run. *)
Theorem separate_projection_weights_required (a : mha_args) (g : rng) (s : shapes)
    (evs0 : list event) :
  shape_setup a = (Ok s, evs0) →
  use_separate_proj_weight a = true →
  q_proj_weight a = None ∨ k_proj_weight a = None ∨ v_proj_weight a = None →
  _multi_head_attention_forward a g
  = (Raise (AssertionError
              (if negb (is_some (q_proj_weight a))
               then "use_separate_proj_weight is True but q_proj_weight is None"
               else if negb (is_some (k_proj_weight a))
               then "use_separate_proj_weight is True but k_proj_weight is None"
               else "use_separate_proj_weight is True but v_proj_weight is None")),
     evs0).
Proof.
  intros Hsetup Hsep Hnone.
  rewrite engine_dispatch. unfold prepare. rewrite Hsetup. cbn [bind].
  unfold compute_in_projection, not_none. rewrite Hsep. cbn [negb].
  destruct (q_proj_weight a) as [wq|], (k_proj_weight a) as [wk|],
    (v_proj_weight a) as [wv|]; cbn; rewrite ?app_nil_r; try reflexivity.
  by destruct Hnone as [?|[?|?]].
Qed.

(** X25. A dropout rate above one is refused, in training only. On a
    well-shaped call with the default functions, in training mode, a
    positive dropout probability that is greater than one makes the call
    raise the ValueError of torch's dropout. *)
Theorem dropout_rate_above_one_raises (a : mha_args) (g : rng) (batched : bool)
    (T B S E : Z) :
  well_shaped_call a batched T B S E → default_functions a →
  training a = true →
  fgtb (dropout_p a) f0 = true → fgtb (dropout_p a) f1 = true →
  result (_multi_head_attention_forward a g)
  = Raise (ValueError "dropout probability has to be between 0 and 1").
Proof.
  intros Hcall (Hkf & Haf & Hmf & Hpf) Htr Hp0 Hp1.
  destruct (prepare_ok a batched T B S E Hcall)
    as (p & Hprep & _ & _ & _ & _ & _ & _ & Hq & Hk & Hv & Hm).
  rewrite engine_dispatch. rewrite result_bind, Hprep.
  unfold attend, adjust_dropout.
  cbn [attention_function kernel_function attn_mask_value attn_masking_function
       query_key_product set_average_attn_weights].
  rewrite Hkf, Haf, Hmf, Hpf, Htr. cbn [negb].
  rewrite result_bind. unfold _scaled_dot_product_attention.
  destruct (scaled_dot_product_run (p_q p) (p_k p) _ _ _ _ Hq Hk) as (s0 & Hs0 & Hsh0).
  rewrite result_bind, Hs0. cbn [result fst].
  destruct (attn_masking_value_ok s0 (p_attn_mask p) (attn_mask_value a) _ _ _ Hsh0 Hm)
    as (s1 & Hs1 & Hsh1).
  rewrite result_bind, Hs1.
  destruct (Softmax_shape s1 _ _ _ Hsh1) as (w & Hw & Hshw).
  rewrite result_bind. unfold Softmax_kernel, call at 1. cbn [result fst]. rewrite Hw.
  rewrite result_bind, Hp0. unfold dropout, call. rewrite Hp1, orb_true_r. done.
Qed.

End Guards.

(** ** Byte key padding masks *)

Section BytePadding.

Context {F : Type} {SF : Scalar F}.

#[local] Existing Instance F_inhabited.

Lemma kpm_unsqueeze_as_bool (m : padding_mask) (d : nat) :
  kpm_unsqueeze (kpm_as_bool m) d
  = match kpm_unsqueeze m d with Ok m' => Ok (kpm_as_bool m') | Raise e => Raise e end.
Proof.
  destruct m as [t|t]; unfold kpm_unsqueeze, kpm_as_bool, unsqueeze, to_bool;
    cbn [shape data]; by destruct (d <=? length (shape t))%nat.
Qed.

Lemma promote_unbatched_as_bool (a : mha_args) (b : bool) (m : padding_mask) :
  key_padding_mask a = Some m →
  result (promote_unbatched
            (set_inputs (query a) (key a) (value a) (Some (kpm_as_bool m)) a) b)
  = match result (promote_unbatched a b) with
    | Ok (q, k, v, kpm) => Ok (q, k, v, kpm_as_bool <$> kpm)
    | Raise e => Raise e
    end.
Proof.
  intros Hm. unfold promote_unbatched.
  cbn [query key value key_padding_mask set_inputs]. rewrite Hm.
  destruct b; cbn [negb]; [done|].
  rewrite !(result_bind (call "unsqueeze" (unsqueeze (query a) 1))).
  destruct (result (call "unsqueeze" (unsqueeze (query a) 1))) as [q|e]; [|done].
  rewrite !(result_bind (call "unsqueeze" (unsqueeze (key a) 1))).
  destruct (result (call "unsqueeze" (unsqueeze (key a) 1))) as [k|e]; [|done].
  rewrite !(result_bind (call "unsqueeze" (unsqueeze (value a) 1))).
  destruct (result (call "unsqueeze" (unsqueeze (value a) 1))) as [v|e]; [|done].
  rewrite !result_bind. unfold call. cbn [result fst]. rewrite kpm_unsqueeze_as_bool.
  by destruct (kpm_unsqueeze m 0).
Qed.

Lemma shape_variables_as_bool (a : mha_args) (b : bool) (q k v q0 k0 v0 : tensor F)
    (kpm kpm0 : option padding_mask) :
  result (shape_variables (set_inputs q0 k0 v0 kpm0 a) b q k v (kpm_as_bool <$> kpm))
  = match result (shape_variables a b q k v kpm) with
    | Ok s => Ok (set_boolean_padding s)
    | Raise e => Raise e
    end.
Proof.
  unfold shape_variables.
  cbn [embed_dim_to_check num_heads use_separate_proj_weight set_inputs].
  rewrite !(result_bind (unpack3 (shape q))).
  destruct (result (unpack3 (shape q))) as [[[T B] E]|e]; [|done].
  rewrite !(result_bind (unpack3 (shape k))).
  destruct (result (unpack3 (shape k))) as [[[S ?] ?]|e]; [|done].
  rewrite !(result_bind (assert _ _)).
  destruct (result (assert (E =? embed_dim_to_check a) _)) as [?|e]; [|done].
  rewrite !(result_bind (floordiv _ _)).
  destruct (result (floordiv E (num_heads a))) as [hd|e]; [|done].
  rewrite !(result_bind (assert _ _)).
  destruct (result (assert (hd * num_heads a =? E) _)) as [?|e]; [|done].
  rewrite !result_bind.
  by destruct (result (if use_separate_proj_weight a then _ else _)) as [?|e].
Qed.

Lemma shape_setup_as_bool (a : mha_args) (m : padding_mask) :
  key_padding_mask a = Some m →
  result (shape_setup (set_inputs (query a) (key a) (value a) (Some (kpm_as_bool m)) a))
  = match result (shape_setup a) with
    | Ok s => Ok (set_boolean_padding s)
    | Raise e => Raise e
    end.
Proof.
  intros Hm. rewrite !shape_setup_unfold, !result_bind.
  cbn [query key value key_padding_mask attn_mask num_heads set_inputs].
  assert (Hcheck : _mha_shape_check (query a) (key a) (value a) (Some (kpm_as_bool m))
                     (attn_mask a) (num_heads a)
                   = _mha_shape_check (query a) (key a) (value a) (key_padding_mask a)
                       (attn_mask a) (num_heads a)).
  { rewrite Hm. by destruct m. }
  rewrite Hcheck.
  destruct (result (_mha_shape_check _ _ _ _ _ _)) as [b|e]; [|done].
  rewrite !result_bind, (promote_unbatched_as_bool a b m Hm).
  destruct (result (promote_unbatched a b)) as [[[[q k] v] kpm]|e]; [|done].
  apply shape_variables_as_bool.
Qed.

Lemma prep_key_padding_mask_as_bool (kpm : option padding_mask) :
  result (prep_key_padding_mask (kpm_as_bool <$> kpm))
  = result (prep_key_padding_mask kpm).
Proof. by destruct kpm as [[t|t]|]. Qed.

(** The preparation treats a byte key padding mask as the boolean mask of
    its non-zero entries. *)
Lemma prepare_as_bool (a : mha_args) (m : padding_mask) :
  key_padding_mask a = Some m →
  result (prepare (set_inputs (query a) (key a) (value a) (Some (kpm_as_bool m)) a))
  = match result (prepare a) with
    | Ok p => Ok {| p_shapes := set_boolean_padding (p_shapes p); p_q := p_q p;
                    p_k := p_k p; p_v := p_v p; p_attn_mask := p_attn_mask p;
                    p_src_len := p_src_len p |}
    | Raise e => Raise e
    end.
Proof.
  intros Hm. unfold prepare.
  set (a' := set_inputs (query a) (key a) (value a) (Some (kpm_as_bool m)) a).
  rewrite !(result_bind (shape_setup _)). unfold a' at 1.
  rewrite (shape_setup_as_bool a m Hm).
  destruct (result (shape_setup a)) as [s|e]; [|done].
  change (compute_in_projection a' (set_boolean_padding s))
    with (compute_in_projection a s).
  rewrite !(result_bind (compute_in_projection a s)).
  destruct (result (compute_in_projection a s)) as [[[q1 k1] v1]|e]; [|done].
  change (prep_attention_mask a' (set_boolean_padding s)) with (prep_attention_mask a s).
  rewrite !(result_bind (prep_attention_mask a s)).
  destruct (result (prep_attention_mask a s)) as [m1|e]; [|done].
  cbn [key_padding_mask' set_boolean_padding].
  rewrite !(result_bind (prep_key_padding_mask _)), prep_key_padding_mask_as_bool.
  destruct (result (prep_key_padding_mask (key_padding_mask' s))) as [kpm1|e]; [|done].
  change (add_bias_kv a' (set_boolean_padding s)) with (add_bias_kv a s).
  rewrite !(result_bind (add_bias_kv _ _ _ _ _ _)).
  destruct (result (add_bias_kv a s k1 v1 m1 kpm1)) as [[[[k2 v2] m2] kpm2]|e]; [|done].
  change (reshape_qkv a' (set_boolean_padding s)) with (reshape_qkv a s).
  rewrite !(result_bind (reshape_qkv _ _ _ _ _)).
  destruct (result (reshape_qkv a s q1 k2 v2)) as [[[q3 k3] v3]|e]; [|done].
  change (add_zero_attention a' (set_boolean_padding s)) with (add_zero_attention a s).
  rewrite !(result_bind (add_zero_attention _ _ _ _ _ _)).
  destruct (result (add_zero_attention a s k3 v3 m2 kpm2)) as [[[[k4 v4] m4] kpm4]|e];
    [|done].
  rewrite !(result_bind (tsize _ _)).
  destruct (result (tsize k4 1)) as [S|e]; [|done].
  unfold a'. cbn [bsz num_heads attn_mask_value set_boolean_padding set_inputs].
  rewrite !(result_bind (merge_masks _ _ _ _ _ _)).
  destruct (result (merge_masks kpm4 m4 (bsz s) (num_heads a) S (attn_mask_value a)))
    as [m5|e]; [|done].
  rewrite !(result_bind (convert_mask_to_float _ _)).
  by destruct (result (convert_mask_to_float m5 (attn_mask_value a))) as [m6|e].
Qed.

Lemma engine_as_bool (a : mha_args) (m : padding_mask) (g : rng) :
  key_padding_mask a = Some m →
  result (_multi_head_attention_forward
            (set_inputs (query a) (key a) (value a) (Some (kpm_as_bool m)) a) g)
  = result (_multi_head_attention_forward a g).
Proof.
  intros Hm. rewrite !engine_dispatch.
  rewrite !(result_bind (prepare _)), (prepare_as_bool a m Hm).
  by destruct (result (prepare a)) as [p|e].
Qed.

(** A byte key padding mask stays a byte mask through the shape set-up. *)
Lemma shape_setup_keeps_bytes (a : mha_args) (t : tensor Z) (s : shapes) :
  key_padding_mask a = Some (KByte t) →
  result (shape_setup a) = Ok s → ∃ t', key_padding_mask' s = Some (KByte t').
Proof.
  intros Hm. rewrite shape_setup_unfold. intros Hrun.
  apply result_bind_Ok_inv in Hrun as (b & _ & Hrun).
  apply result_bind_Ok_inv in Hrun as ([[[q k] v] kpm] & Hpro & Hrun).
  assert (Hkpm : ∃ t', kpm = Some (KByte t')).
  { unfold promote_unbatched in Hpro. rewrite Hm in Hpro. destruct b; cbn [negb] in Hpro.
    - injection Hpro as _ _ _ <-. by exists t.
    - apply result_bind_Ok_inv in Hpro as (? & _ & Hpro).
      apply result_bind_Ok_inv in Hpro as (? & _ & Hpro).
      apply result_bind_Ok_inv in Hpro as (? & _ & Hpro).
      apply result_bind_Ok_inv in Hpro as (kpm' & Hk & Hpro). injection Hpro as _ _ _ <-.
      apply result_bind_Ok_inv in Hk as (m' & Hm' & Hk). injection Hk as <-.
      unfold call, kpm_unsqueeze in Hm'. cbn [result fst] in Hm'.
      destruct (unsqueeze t 0) as [t'|]; [|done]. injection Hm' as <-. by exists t'. }
  destruct Hkpm as [t' ->]. exists t'.
  unfold shape_variables in Hrun.
  apply result_bind_Ok_inv in Hrun as ([[T B] E] & _ & Hrun).
  apply result_bind_Ok_inv in Hrun as ([[S ?] ?] & _ & Hrun).
  apply result_bind_Ok_inv in Hrun as (? & _ & Hrun).
  apply result_bind_Ok_inv in Hrun as (hd & _ & Hrun).
  apply result_bind_Ok_inv in Hrun as (? & _ & Hrun).
  apply result_bind_Ok_inv in Hrun as (? & _ & Hrun).
  by injection Hrun as <-.
Qed.

Lemma engine_byte_padding_warns (a : mha_args) (t : tensor Z) (g : rng) :
  key_padding_mask a = Some (KByte t) →
  is_ok (result (_multi_head_attention_forward a g)) = true →
  Warn "Byte tensor for key_padding_mask in nn.MultiheadAttention is deprecated. Use bool tensor instead."
  ∈ events (_multi_head_attention_forward a g).
Proof.
  intros Hm Hok.
  destruct (result (_multi_head_attention_forward a g)) as [r|] eqn:Hrun; [|done].
  rewrite engine_dispatch in *.
  apply result_bind_Ok_inv in Hrun as (p & Hprep & _).
  apply events_bind_l. unfold prepare in *.
  apply result_bind_Ok_inv in Hprep as (s & Hs & Hprep).
  apply (events_bind_r _ _ s); [done|].
  apply result_bind_Ok_inv in Hprep as (qkv & Hqkv & Hprep).
  apply (events_bind_r _ _ qkv); [done|]. destruct qkv as [[q k] v].
  apply result_bind_Ok_inv in Hprep as (m1 & Hm1 & Hprep).
  apply (events_bind_r _ _ m1); [done|].
  apply events_bind_l.
  destruct (shape_setup_keeps_bytes a t s Hm Hs) as [t' ->].
  unfold prep_key_padding_mask. apply events_bind_l. unfold warn, events. cbn. set_solver.
Qed.

(** X26. A byte key padding mask acts as the boolean mask of its non-zero
    entries (lines 503-507): [forward] returns the same with either (the
    same output and weights, or the same exception), and a call with the
    byte mask that returns has logged the deprecation warning. *)
Theorem byte_key_padding_mask_as_boolean (self : CustomizableMultiHead) (h : heap F)
    (tensor_subclass : bool) (query key value : tensor F) (need_weights : bool)
    (attn_mask : option mask)
    (average_attn_weights : bool) (g : rng) (t : tensor Z) :
  let with_bytes :=
    forward self h tensor_subclass query key value (Some (KByte t)) need_weights attn_mask
      average_attn_weights g in
  let with_booleans :=
    forward self h tensor_subclass query key value (Some (KBool (to_bool t))) need_weights attn_mask
      average_attn_weights g in
  result with_bytes = result with_booleans
  ∧ (is_ok (result with_bytes) = true →
     Warn "Byte tensor for key_padding_mask in nn.MultiheadAttention is deprecated. Use bool tensor instead."
     ∈ events with_bytes).
Proof.
  intros with_bytes with_booleans. subst with_bytes with_booleans. unfold forward. split.
  - apply result_bind_ext. intros [[q' k'] v'].
    apply result_bind_ext. intros ow.
    apply result_bind_congr. symmetry.
    destruct (negb (self_qkv_same_embed_dim (base self)));
      match goal with
      | |- _ = result (_multi_head_attention_forward ?a g) =>
          exact (engine_as_bool a (KByte t) g eq_refl)
      end.
  - intros Hok.
    destruct (result (bind _ _)) as [r|] eqn:Hrun in Hok; [|done]. clear Hok.
    apply result_bind_Ok_inv in Hrun as ([[q' k'] v'] & Hin & Hrun).
    apply (events_bind_r _ _ (q', k', v')); [done|].
    apply result_bind_Ok_inv in Hrun as (ow & How & Hrun).
    apply (events_bind_r _ _ ow); [done|].
    apply result_bind_Ok_inv in Hrun as (res & Heng & _).
    apply events_bind_l.
    destruct (negb (self_qkv_same_embed_dim (base self)));
      match goal with
      | |- _ ∈ events (_multi_head_attention_forward ?a g) =>
          apply (engine_byte_padding_warns a t g eq_refl); by rewrite Heng
      end.
Qed.

End BytePadding.

(** ** Concrete runs of the further properties *)

#[local] Existing Instance F_inhabited.

Lemma scaled_dot_product_elements_witness :
  ∃ attn,
    _scaled_dot_product (iota [1; 2; 2]) (iota [1; 3; 2])
    = (Ok attn, [Op "div"; Op "transpose"; Op "bmm"])
    ∧ shape attn = [1; 2; 3]
    ∧ tget attn [0; 1; 2]
      = Some (fsum ((fun e => fmul (fdiv (tnth (iota [1; 2; 2]) [0; 1; e])
                                        (fsqrt (f_of_Z 2)))
                                  (tnth (iota [1; 3; 2]) [0; 2; e])) <$> range 2)).
Proof.
  destruct (@scaled_dot_product_elements float Float64.scalar
              (iota [1; 2; 2]) (iota [1; 3; 2]) 1 2 3 2 eq_refl eq_refl eq_refl)
    as (attn & Hrun & Hsh & Hel).
  exists attn. split; [exact Hrun|]. split; [exact Hsh|].
  exact (Hel 0 1 2 ltac:(lia) ltac:(lia) ltac:(lia)).
Defined.

Lemma scaled_dot_product_errors_witness :
  (∃ msg, _scaled_dot_product (iota [2; 2]) (iota [1; 3; 2]) = (Raise (ValueError msg), []))
  ∧ (∃ msg, _scaled_dot_product (iota [1; 2; 2]) (iota [1; 3; 4])
            = (Raise (RuntimeError msg), [Op "div"; Op "transpose"; Op "bmm"])).
Proof.
  split.
  - apply (proj1 (@scaled_dot_product_errors float Float64.scalar
                    (iota [2; 2]) (iota [1; 3; 2]))).
    simpl. lia.
  - apply (proj2 (proj2 (@scaled_dot_product_errors float Float64.scalar
                           (iota [1; 2; 2]) (iota [1; 3; 4]))) 1 2 2 1 3 4 eq_refl eq_refl).
    right. lia.
Defined.

Lemma attention_returns_applied_weights_witness :
  ∃ out attn,
    result (_scaled_dot_product_attention (iota [1; 2; 2]) (iota [1; 3; 2]) (iota [1; 3; 2])
              None 0%float Softmax_kernel neg_infinity attn_masking_value
              _scaled_dot_product 1) = Ok (out, attn, 1)
    ∧ bmm attn (iota [1; 3; 2]) = Ok out.
Proof.
  eassert (Hrun : _scaled_dot_product_attention (iota [1; 2; 2]) (iota [1; 3; 2])
                    (iota [1; 3; 2]) None 0%float Softmax_kernel neg_infinity
                    attn_masking_value _scaled_dot_product 1 = (Ok (_, _, _), _))
    by (vm_compute; reflexivity).
  pose proof (attention_returns_applied_weights _ _ _ _ _ _ _ _ _ _ _ _ _ _ Hrun) as [Hb _].
  eexists _, _. split; [by rewrite Hrun | exact Hb].
Defined.

Lemma embed_dim_mismatch_raises_witness :
  result (_multi_head_attention_forward
            (call_args (iota [3; 1; 4]) (iota [3; 1; 4]) (iota [3; 1; 4]) 6 2
               None None false None None) 1)
  = Raise (AssertionError "was expecting embedding dimension of embed_dim_to_check").
Proof.
  apply (proj2 (embed_dim_mismatch_raises
                  (call_args (iota [3; 1; 4]) (iota [3; 1; 4]) (iota [3; 1; 4]) 6 2
                     None None false None None) 1 ltac:(discriminate))).
  reflexivity.
Defined.

Lemma key_value_shape_mismatch_raises_witness :
  result (_multi_head_attention_forward
            (call_args (iota [3; 1; 4]) (iota [3; 1; 4]) (iota [2; 1; 4]) 4 2
               None None false None None) 1)
  = Raise (AssertionError "key shape does not match value shape").
Proof.
  apply (proj2 (key_value_shape_mismatch_raises
                  (call_args (iota [3; 1; 4]) (iota [3; 1; 4]) (iota [2; 1; 4]) 4 2
                     None None false None None) 1 true [] eq_refl eq_refl
                  ltac:(discriminate) eq_refl ltac:(discriminate))).
Defined.

Lemma unsupported_mask_dimension_unreachable_witness :
  ∃ s, result (shape_setup masked_call) = Ok s
       ∧ result (prep_attention_mask masked_call s)
         ≠ Raise (RuntimeError "attn_mask's dimension is not supported").
Proof.
  eassert (Hsetup : shape_setup masked_call = (Ok _, [])) by (vm_compute; reflexivity).
  eexists. split; [by rewrite Hsetup|].
  exact (unsupported_mask_dimension_unreachable masked_call _ _ Hsetup).
Defined.

Lemma unsupported_mask_dtype_raises_witness :
  _multi_head_attention_forward int64_mask_call 1
  = (Raise (AssertionError "Only float, byte, and bool types are supported for attn_mask"),
     [] ++ [Op "_in_projection_packed"]).
Proof.
  eassert (Hsetup : shape_setup int64_mask_call = (Ok _, [])) by (vm_compute; reflexivity).
  match type of Hsetup with
  | _ = (Ok ?s, _) =>
      eassert (Hproj : compute_in_projection int64_mask_call s
                       = (Ok _, [Op "_in_projection_packed"]))
        by (vm_compute; reflexivity)
  end.
  exact (unsupported_mask_dtype_raises int64_mask_call 1 _ _ _ _ "int64" _ Hsetup Hproj
           eq_refl).
Defined.

Lemma mask_3d_shape_error_witness :
  _multi_head_attention_forward wrong_3d_mask_call 1
  = (Raise (RuntimeError "The shape of the 3D attn_mask is wrong"),
     [] ++ [Op "_in_projection_packed"] ++ []).
Proof.
  eassert (Hsetup : shape_setup wrong_3d_mask_call = (Ok _, [])) by (vm_compute; reflexivity).
  match type of Hsetup with
  | _ = (Ok ?s, _) =>
      eassert (Hproj : compute_in_projection wrong_3d_mask_call s
                       = (Ok _, [Op "_in_projection_packed"]))
        by (vm_compute; reflexivity)
  end.
  exact (mask_3d_shape_error wrong_3d_mask_call 1 _ _ _ _ (MFloat (full [1; 3; 3] 0%float))
           Hsetup Hproj eq_refl eq_refl eq_refl ltac:(discriminate)).
Defined.

Lemma bias_injection_guards_witness :
  fails preparation_event
    (_multi_head_attention_forward
       (call_args (iota [3; 1; 4]) (iota [3; 1; 4]) (iota [3; 1; 4]) 4 2
          (Some (iota [1; 1; 4])) None false None None) 1).
Proof.
  apply bias_injection_guards. left. discriminate.
Defined.

Lemma head_split_layout_witness :
  ∃ y, to_heads (iota [2; 1; 4]) 2 (1 * 2) 2
       = (Ok y, [Op "contiguous"; Op "view"; Op "transpose"])
       ∧ shape y = [1 * 2; 2; 2]
       ∧ tget y [0 * 2 + 1; 1; 0] = Some (tnth (iota [2; 1; 4]) [1; 0; 1 * 2 + 0]).
Proof.
  destruct (@head_split_layout float Float64.scalar (iota [2; 1; 4]) 2 1 2 2 eq_refl
              ltac:(lia) ltac:(lia) ltac:(lia) ltac:(lia)) as (y & Hrun & Hsh & Hel).
  exists y. split; [exact Hrun|]. split; [exact Hsh|].
  exact (Hel 0 1 1 0 ltac:(lia) ltac:(lia) ltac:(lia) ltac:(lia)).
Defined.

Lemma head_merge_inverts_split_witness :
  ∃ y, result (to_heads (iota [3; 1; 4]) 3 2 2) = Ok y
       ∧ out_projection example_args example_shapes y
         = (linear (iota [3; 1; 4]) (eye 4) None,
            [Op "transpose"; Op "contiguous"; Op "view"; Op "linear"]).
Proof.
  eassert (Hsplit : to_heads (iota [3; 1; 4]) 3 2 2 = (Ok _, _)) by (vm_compute; reflexivity).
  eexists. split; [by rewrite Hsplit|].
  exact (head_merge_inverts_split example_args example_shapes (iota [3; 1; 4]) _ _
           eq_refl eq_refl eq_refl ltac:(simpl; lia) ltac:(simpl; lia) ltac:(simpl; lia)
           ltac:(simpl; lia) Hsplit).
Defined.

Lemma zero_attention_appends_position_witness :
  ∃ k' v',
    add_zero_attention masked_call example_shapes (iota [2; 3; 2]) (iota [2; 3; 2]) None None
    = (Ok (k', v', None, None), [Op "zeros"; Op "cat"; Op "zeros"; Op "cat"])
    ∧ shape k' = [2; 4; 2]
    ∧ tget k' [1; 3; 0] = Some 0%float
    ∧ tget k' [1; 2; 1] = Some (tnth (iota [2; 3; 2]) [1; 2; 1]).
Proof.
  destruct (zero_attention_appends_position masked_call example_shapes
              (iota [2; 3; 2]) (iota [2; 3; 2]) 3 eq_refl eq_refl
              ltac:(simpl; lia) ltac:(simpl; lia)) as (k' & v' & Hrun & Hk & _ & Hel).
  exists k', v'. split; [exact Hrun|]. split; [exact Hk|]. split.
  - exact (proj1 (Hel 1 3 0 ltac:(simpl; lia) ltac:(lia) ltac:(simpl; lia))).
  - exact (proj1 (Hel 1 2 1 ltac:(simpl; lia) ltac:(lia) ltac:(simpl; lia))).
Defined.

Lemma boolean_mask_becomes_additive_witness :
  ∃ m', convert_mask_to_float (Some (BMask (mkT [1; 2] [true; false]))) neg_infinity
        = (Ok (Some m'), [Op "zeros_like"; Op "masked_fill_"])
        ∧ tget m' [0; 0] = Some neg_infinity ∧ tget m' [0; 1] = Some 0%float.
Proof.
  destruct (@boolean_mask_becomes_additive float Float64.scalar
              (Some (BMask (mkT [1; 2] [true; false]))) neg_infinity)
    as (m' & Hrun & _ & Hel).
  exists m'. split; [exact Hrun|]. split.
  - exact (Hel [0; 0] true eq_refl).
  - exact (Hel [0; 1] false eq_refl).
Defined.

Lemma masked_call_well_shaped : well_shaped_call masked_call true 3 2 2 4.
Proof.
  unfold well_shaped_call, shaped_call. split_and!; try reflexivity; try lia; try done.
  by exists (packed_identity 4).
Defined.

Lemma unbatched_call_well_shaped : well_shaped_call unbatched_call false 3 1 2 4.
Proof.
  unfold well_shaped_call, shaped_call. split_and!; try reflexivity; try lia; try done.
  by exists (packed_identity 4).
Defined.

Lemma default_functions_call_args (q k v : tensor float) (E H : Z)
    (bk bv : option (tensor float)) (z : bool) (kpm : option padding_mask)
    (m : option mask) :
  default_functions (call_args q k v E H bk bv z kpm m).
Proof. by repeat split. Defined.

Lemma well_shaped_call_succeeds_witness :
  (∃ out w g',
     result (_multi_head_attention_forward masked_call 1) = Ok (out, Some w, g')
     ∧ shape out = [3; 2; 4] ∧ shape w = [2; 3; 4])
  ∧ (∃ out w g',
       result (_multi_head_attention_forward unbatched_call 1) = Ok (out, Some w, g')
       ∧ shape out = [3; 4] ∧ shape w = [3; 2]).
Proof.
  split.
  - destruct (well_shaped_call_succeeds masked_call 1 true 3 2 2 4 masked_call_well_shaped
                (default_functions_call_args _ _ _ _ _ _ _ _ _ _) (or_introl eq_refl))
      as (out & [w|] & g' & Hrun & Hout & Hw); [|discriminate Hw].
    exists out, w, g'. split; [exact Hrun|]. split; [exact Hout | exact (proj2 Hw)].
  - destruct (well_shaped_call_succeeds unbatched_call 1 false 3 1 2 4
                unbatched_call_well_shaped
                (default_functions_call_args _ _ _ _ _ _ _ _ _ _) (or_introl eq_refl))
      as (out & [w|] & g' & Hrun & Hout & Hw); [|discriminate Hw].
    exists out, w, g'. split; [exact Hrun|]. split; [exact Hout | exact (proj2 Hw)].
Defined.

Lemma example_layer_well_shaped (bf : bool) :
  well_shaped_layer (set_batch_first bf example_layer) example_heap.
Proof.
  unfold well_shaped_layer. cbn [self_embed_dim set_batch_first example_layer].
  split_and!; try reflexivity; try lia.
  - by exists (packed_identity 4).
  - by exists (eye 4).
Defined.

Lemma forward_succeeds_witness :
  ∃ out w g',
    result (forward (with_defaults example_layer_batch_first) example_heap false
              (iota [2; 3; 4]) (iota [2; 5; 4]) (iota [2; 5; 4])
              (Some (KBool (mkT [2; 5] [false; false; false; false; true;
                                        false; false; false; true; true])))
              true None false 1) = Ok (out, Some w, g')
    ∧ shape out = [2; 3; 4] ∧ shape w = [2; 2; 3; 5].
Proof.
  destruct (@forward_succeeds float Float64.scalar (with_defaults example_layer_batch_first) example_heap
              false (iota [2; 3; 4]) (iota [2; 5; 4]) (iota [2; 5; 4])
              (Some (KBool (mkT [2; 5] [false; false; false; false; true;
                                        false; false; false; true; true])))
              true None false 1 true 3 2 5 (example_layer_well_shaped true)
              ltac:(by repeat split) (or_introl eq_refl) eq_refl eq_refl eq_refl
              ltac:(discriminate) ltac:(lia) ltac:(lia) ltac:(lia) eq_refl I)
    as (out & [w|] & g' & Hrun & Hout & Hw); [|discriminate Hw].
  exists out, w, g'. split; [exact Hrun|]. split; [exact Hout | exact (proj2 Hw)].
Defined.

Lemma need_weights_only_drops_weights_witness :
  ∃ out g',
    result (forward (with_defaults example_layer) example_heap false
              (iota [3; 1; 4]) (iota [3; 1; 4]) (iota [3; 1; 4]) None false None true 1)
    = Ok (out, None, g').
Proof.
  eassert (Hrun : result (forward (with_defaults example_layer) example_heap false
                            (iota [3; 1; 4]) (iota [3; 1; 4]) (iota [3; 1; 4])
                            None true None true 1) = Ok (_, _, _))
    by (vm_compute; reflexivity).
  eexists _, _.
  exact (@need_weights_only_drops_weights float Float64.scalar (with_defaults example_layer) example_heap
           false (iota [3; 1; 4]) (iota [3; 1; 4]) (iota [3; 1; 4]) None None true 1 _ _ _ Hrun).
Defined.

Lemma batch_first_is_a_transposition_witness :
  forward (with_defaults example_layer_batch_first) example_heap false
    (iota [2; 3; 4]) (iota [2; 3; 4]) (iota [2; 3; 4]) None true None true 1
  = let* (q, k, v) := transpose_qkv (iota [2; 3; 4]) (iota [2; 3; 4]) (iota [2; 3; 4]) in
    let* (out, w, g') :=
      forward (with_batch_first false (with_defaults example_layer_batch_first))
        example_heap false q k v None true None true 1 in
    let* out' := call "transpose" (transpose out 1 0) in
    ret (out', w, g').
Proof.
  exact (proj1 (@batch_first_is_a_transposition float Float64.scalar (with_defaults example_layer_batch_first)
                  example_heap false (iota [2; 3; 4]) (iota [2; 3; 4]) (iota [2; 3; 4])
                  None true None true 1 eq_refl) eq_refl).
Defined.

Lemma unknown_parameter_is_refused_witness :
  (get_trainable_approximation
     {| parameters := {[ "kernel" := VKernel square_kernel ]}; approximations := [] |}
     example_layer example_heap 1).1
  = raise (TypeError "__init__() got an unexpected keyword argument").
Proof.
  refine (proj1 (@unknown_parameter_is_refused float Float64.scalar
                   {| parameters := {[ "kernel" := VKernel square_kernel ]};
                      approximations := [] |}
                   example_layer example_heap 1 "kernel" _ _)).
  - apply elem_of_dom. by eexists.
  - unfold known_kwargs. rewrite !elem_of_cons, elem_of_nil.
    intros H. repeat (destruct H as [H|H]; [discriminate H|]). exact H.
Defined.

Lemma customized_extraction_witness :
  ∃ h' g',
    (get_trainable_approximation
       {| parameters := customization_parameters
                          {| c_kernel_function := Some square_kernel;
                             c_attn_mask_value := None; c_attention_function := None;
                             c_attn_masking_function := None;
                             c_query_key_product := None |};
          approximations := [] |}
       example_layer example_heap 1).1
    = ret ({| base := set_training true example_layer;
              self_kernel_function := square_kernel;
              self_attn_mask_value := neg_infinity;
              self_attention_function := _scaled_dot_product_attention;
              self_attn_masking_function := attn_masking_value;
              self_query_key_product := _scaled_dot_product |}, h', g').
Proof.
  destruct (@customized_extraction float Float64.scalar
              {| c_kernel_function := Some square_kernel;
                 c_attn_mask_value := None; c_attention_function := None;
                 c_attn_masking_function := None; c_query_key_product := None |}
              [] example_layer example_heap 1 example_layer_well_formed)
    as (h' & g' & Hrun & _).
  exists h', g'. exact Hrun.
Defined.

Lemma approximate_module_dispatch_witness :
  (approximate_module {| parameters := ∅; approximations := [] |} example_model
     "self_attn" true example_heap 1).1
  = raise (ValueError "module is not a CustomizableMultiHead")
  ∧ approximate_module {| parameters := ∅; approximations := [] |} example_model
      "encoder" true example_heap 1
    = (raise (AttributeError "encoder"), {| parameters := ∅; approximations := [] |}).
Proof.
  split.
  - exact (proj1 (proj2 (proj2 (@approximate_module_dispatch float Float64.scalar
                                  {| parameters := ∅; approximations := [] |}
                                  example_model "self_attn" example_heap 1) _ eq_refl))).
  - exact (proj1 (@approximate_module_dispatch float Float64.scalar
                    {| parameters := ∅; approximations := [] |}
                    example_model "encoder" example_heap 1) eq_refl true).
Defined.

Lemma long_padding_mask_call_shaped : shaped_call long_padding_mask_call true 3 2 2 4 2 3.
Proof.
  unfold shaped_call. split_and!; try reflexivity; try lia; try done.
  by exists (packed_identity 4).
Defined.

Lemma key_padding_mask_shape_checked_at_merge_witness :
  result (_multi_head_attention_forward long_padding_mask_call 1)
  = Raise (AssertionError "expecting key_padding_mask shape of (bsz, src_len)")
  ∧ Op "_in_projection_packed" ∈ events (_multi_head_attention_forward long_padding_mask_call 1).
Proof.
  apply (@key_padding_mask_shape_checked_at_merge float Float64.scalar
           long_padding_mask_call 1 true 3 2 2 4 2 3 long_padding_mask_call_shaped).
  - by eexists.
  - intros Heq. discriminate Heq.
Defined.

Lemma unbatched_call_is_batch_of_one_witness :
  result (_multi_head_attention_forward unbatched_call 1)
  = result (let* r := _multi_head_attention_forward
                        (set_inputs (iota [3; 1; 4]) (iota [2; 1; 4]) (iota [2; 1; 4])
                           (Some (KByte (mkT [1; 2] [0; 1]))) unbatched_call) 1 in
            squeeze_results r).
Proof.
  apply (@unbatched_call_is_batch_of_one float Float64.scalar unbatched_call 1);
    vm_compute; reflexivity.
Defined.

Lemma separate_projection_weights_required_witness :
  _multi_head_attention_forward separate_projection_call 1
  = (Raise (AssertionError "use_separate_proj_weight is True but k_proj_weight is None"),
     []).
Proof.
  eassert (Hsetup : shape_setup separate_projection_call = (Ok _, []))
    by (vm_compute; reflexivity).
  exact (@separate_projection_weights_required float Float64.scalar
           separate_projection_call 1 _ _ Hsetup eq_refl (or_intror (or_introl eq_refl))).
Defined.

Lemma training_call_well_shaped : well_shaped_call training_call true 3 2 2 4.
Proof.
  unfold well_shaped_call, shaped_call. split_and!; try reflexivity; try lia; try done.
  by exists (packed_identity 4).
Defined.

Lemma dropout_rate_above_one_raises_witness :
  result (_multi_head_attention_forward training_call 1)
  = Raise (ValueError "dropout probability has to be between 0 and 1").
Proof.
  apply (@dropout_rate_above_one_raises float Float64.scalar training_call 1 true 3 2 2 4
           training_call_well_shaped); by repeat split.
Defined.

Lemma masked_call_reaches_merge :
  ∃ s q k v m kpm,
    reaches_merge masked_call s q k v (Some (BMask m)) (Some kpm) 4
    ∧ shape kpm = [bsz s; 4] ∧ bsz s = 2 ∧ shape m = [1; 3; 4]
    ∧ tget kpm [0; 1] = Some true ∧ tget m [0; 0; 1] = Some true.
Proof.
  eassert (H1 : result (shape_setup masked_call) = Ok _) by (vm_compute; reflexivity).
  match type of H1 with
  | _ = Ok ?s =>
      eassert (H2 : result (compute_in_projection masked_call s) = Ok (_, _, _))
        by (vm_compute; reflexivity);
      eassert (H3 : result (prep_attention_mask masked_call s) = Ok _)
        by (vm_compute; reflexivity);
      eassert (H4 : result (prep_key_padding_mask (key_padding_mask' s)) = Ok _)
        by (vm_compute; reflexivity)
  end.
  match type of H1 with
  | _ = Ok ?s =>
      match type of H2 with
      | _ = Ok (?q1, ?k1, ?v1) =>
          match type of H3 with
          | _ = Ok ?m1 =>
              match type of H4 with
              | _ = Ok ?kpm1 =>
                  eassert (H5 : result (add_bias_kv masked_call s k1 v1 m1 kpm1)
                                = Ok (_, _, _, _)) by (vm_compute; reflexivity)
              end
          end
      end
  end.
  match type of H1 with
  | _ = Ok ?s =>
      match type of H2 with
      | _ = Ok (?q1, _, _) =>
          match type of H5 with
          | _ = Ok (?k2, ?v2, _, _) =>
              eassert (H6 : result (reshape_qkv masked_call s q1 k2 v2) = Ok (_, _, _))
                by (vm_compute; reflexivity)
          end
      end
  end.
  match type of H1 with
  | _ = Ok ?s =>
      match type of H5 with
      | _ = Ok (_, _, ?m2, ?kpm2) =>
          match type of H6 with
          | _ = Ok (_, ?k3, ?v3) =>
              eassert (H7 : result (add_zero_attention masked_call s k3 v3 m2 kpm2)
                            = Ok (_, _, Some (BMask _), Some _))
                by (vm_compute; reflexivity)
          end
      end
  end.
  match type of H7 with
  | _ = Ok (?k, _, _, _) =>
      assert (H8 : result (tsize k 1) = Ok 4) by reflexivity
  end.
  eexists _, _, _, _, _, _. split.
  { do 11 eexists. split_and!; [exact H1|exact H2|exact H3|exact H4|exact H5|exact H6
                                |exact H7|exact H8]. }
  split_and!; reflexivity.
Defined.

Lemma merge_key_padding_mask_witness :
  ∃ s q k v m',
    shape m' = [4; 3; 4]
    ∧ tget m' [1; 0; 1] = Some true
    ∧ result (prepare masked_call)
      = result (let* mask := convert_mask_to_float (Some (BMask m')) neg_infinity in
                ret {| p_shapes := s; p_q := q; p_k := k; p_v := v;
                       p_attn_mask := mask; p_src_len := 4 |}).
Proof.
  destruct masked_call_reaches_merge
    as (s & q & k & v & m & kpm & Hreach & Hkpm & HB & Hm & Hp & Hx).
  destruct (@merge_key_padding_mask float Float64.scalar masked_call 1 s q k v
              (Some (BMask m)) kpm 4 3 1 Hreach Hkpm)
    as (e & merged & _ & _ & _ & (m' & -> & Hsh & Hel) & Hprep & _).
  { rewrite HB. lia. }
  { simpl. lia. }
  { lia. }
  { split; [exact Hm | by left]. }
  exists s, q, k, v, m'. split; [by rewrite Hsh, HB|]. split; [|exact Hprep].
  exact (Hel 0 1 0 1 true true ltac:(rewrite HB; lia) ltac:(simpl; lia) Hp Hx).
Defined.
